(** * The smart-contract audit scripts of rabbitfun, embedded in Rocq

    Sources:
    - [smartcontract/audit-backup.py]      (class [SmartContractAuditor], [main])
    - [scripts/generate-audit-summary.py]  ([generate_summary])

    Conventions of the embedding.
    - A Python [str] is the [string] of its UTF-8 bytes.  Comparison of such
      strings byte by byte is comparison by code point, and an ASCII needle
      occurs in the bytes exactly where it occurs in the text.
    - A value decoded by [json.load] is a [json]; a decoded object is the
      association list of its keys, each key listed once.  Floating-point
      numbers are left out.
    - A raised exception is the [Raise] case of [result]; [try]/[except] is a
      [match] on it.
    - Console output ([print], [self.log...]) is not modelled: only the
      evaluation of its arguments is, where that can raise. *)

From Stdlib Require Import Ascii.
From stdpp Require Import gmap strings list fin_maps pretty sorting.

Open Scope string_scope.
Open Scope list_scope.

(** ** Python values and primitives *)
Module Py.

Inductive exn_kind :=
| TimeoutExpired | FileNotFoundError | OSError
| JSONDecodeError | AttributeError | TypeError | KeyError.

Record exn := Exn { kind : exn_kind; message : string }.

Inductive result (A : Type) :=
| Ok (a : A)
| Raise (e : exn).
Arguments Ok {A} a.
Arguments Raise {A} e.

Definition bind {A B} (r : result A) (f : A → result B) : result B :=
  match r with Ok a => f a | Raise e => Raise e end.

Notation "'let*' x ':=' r 'in' k" := (bind r (fun x => k))
  (at level 10, x name, r at level 100, k at level 200, only parsing).

(** [for x in l: acc = body(acc, x)], stopping at the first exception. *)
Fixpoint foldM {A S} (body : S → A → result S) (acc : S) (l : list A) : result S :=
  match l with
  | [] => Ok acc
  | x :: l' => let* acc' := body acc x in foldM body acc' l'
  end.

(** [[f(x) for x in l]] and [[x for x in l if p(x)]], where [f], [p] may raise. *)
Fixpoint mapM {A B} (f : A → result B) (l : list A) : result (list B) :=
  match l with
  | [] => Ok []
  | x :: l' => let* y := f x in let* ys := mapM f l' in Ok (y :: ys)
  end.

Fixpoint filterM {A} (p : A → result bool) (l : list A) : result (list A) :=
  match l with
  | [] => Ok []
  | x :: l' => let* b := p x in let* ys := filterM p l' in Ok (if b : bool then x :: ys else ys)
  end.

(** *** Strings *)

Definition nl : string := String (Ascii.ascii_of_nat 10) "".

Definition is_upper (c : Ascii.ascii) : bool :=
  let n := Ascii.nat_of_ascii c in (65 <=? n)%nat && (n <=? 90)%nat.
Definition is_lower (c : Ascii.ascii) : bool :=
  let n := Ascii.nat_of_ascii c in (97 <=? n)%nat && (n <=? 122)%nat.
Definition to_lower (c : Ascii.ascii) : Ascii.ascii :=
  if is_upper c then Ascii.ascii_of_nat (Ascii.nat_of_ascii c + 32) else c.
Definition to_upper (c : Ascii.ascii) : Ascii.ascii :=
  if is_lower c then Ascii.ascii_of_nat (Ascii.nat_of_ascii c - 32) else c.

(** [s.lower()].  Only ASCII letters change: the letters of the keywords
    looked for below are ASCII, and no other character lower-cases to a text
    in which one of those keywords starts or continues. *)
Fixpoint str_lower (s : string) : string :=
  match s with
  | "" => ""
  | String c s' => String (to_lower c) (str_lower s')
  end.

(** [s.title()] on ASCII words. *)
Fixpoint title_from (in_word : bool) (s : string) : string :=
  match s with
  | "" => ""
  | String c s' =>
      if is_upper c || is_lower c
      then String (if in_word then to_lower c else to_upper c) (title_from true s')
      else String c (title_from false s')
  end.
Definition str_title (s : string) : string := title_from false s.

Definition startswith (s p : string) : bool := String.prefix p s.

(** [needle in hay] *)
Fixpoint contains (needle hay : string) : bool :=
  String.prefix needle hay ||
  match hay with
  | "" => false
  | String _ hay' => contains needle hay'
  end.

(** [s.endswith(p)]: [p] is [s] or the end of what follows its first byte. *)
Fixpoint endswith (s p : string) : bool :=
  String.eqb s p ||
  match s with
  | "" => false
  | String _ s' => endswith s' p
  end.

(** [s.split(sep)] for a one-character separator. *)
Fixpoint split_on (sep : Ascii.ascii) (s : string) : list string :=
  match s with
  | "" => [""]
  | String c s' =>
      if Ascii.eqb c sep then "" :: split_on sep s'
      else match split_on sep s' with
           | [] => [String c ""]
           | w :: ws => String c w :: ws
           end
  end.

(** A byte that continues a UTF-8 character. *)
Definition is_continuation (c : Ascii.ascii) : bool :=
  let n := Ascii.nat_of_ascii c in (128 <=? n)%nat && (n <? 192)%nat.

(** [len(s)]: the number of characters. *)
Fixpoint str_len (s : string) : nat :=
  match s with
  | "" => 0
  | String c s' => (if is_continuation c then 0 else 1) + str_len s'
  end.

(** [s[:n]]: the first [n] characters. *)
Fixpoint take_chars (n : nat) (s : string) : string :=
  match s with
  | "" => ""
  | String c s' =>
      if is_continuation c then String c (take_chars n s')
      else match n with
           | 0 => ""
           | S n' => String c (take_chars n' s')
           end
  end.

(** The characters of [s], one string each (iteration over a [str]). *)
Fixpoint chars_from (cur : string) (s : string) : list string :=
  match s with
  | "" => if String.eqb cur "" then [] else [cur]
  | String c s' =>
      if is_continuation c then chars_from (cur +:+ String c "") s'
      else ((if String.eqb cur "" then [] else [cur]) ++ chars_from (String c "") s')
  end.
Definition chars (s : string) : list string := chars_from "" s.

Definition join (sep : string) (l : list string) : string := String.concat sep l.

(** *** JSON values *)

#[warnings="-register-all"] Inductive json :=
| JNull
| JBool (b : bool)
| JNum (n : Z)
| JStr (s : string)
| JArr (l : list json)
| JObj (kv : list (string * json)).

Definition type_name (v : json) : string :=
  match v with
  | JNull => "NoneType" | JBool _ => "bool" | JNum _ => "int"
  | JStr _ => "str" | JArr _ => "list" | JObj _ => "dict"
  end.

Fixpoint lookup_key (k : string) (kv : list (string * json)) : option json :=
  match kv with
  | [] => None
  | (k', v) :: kv' => if String.eqb k k' then Some v else lookup_key k kv'
  end.

Definition no_attribute (v : json) (attr : string) : exn :=
  Exn AttributeError ("'" +:+ type_name v +:+ "' object has no attribute '" +:+ attr +:+ "'").

(** [v.get(key, default)] *)
Definition get (v : json) (key : string) (dflt : json) : result json :=
  match v with
  | JObj kv => Ok (default dflt (lookup_key key kv))
  | _ => Raise (no_attribute v "get")
  end.

Definition not_subscriptable (v : json) : exn :=
  Exn TypeError ("'" +:+ type_name v +:+ "' object is not subscriptable").

(** [v.lower()] *)
Definition lower (v : json) : result string :=
  match v with
  | JStr s => Ok (str_lower s)
  | _ => Raise (no_attribute v "lower")
  end.

(** [bool(v)] *)
Definition truthy (v : json) : bool :=
  match v with
  | JNull => false
  | JBool b => b
  | JNum n => negb (n =? 0)%Z
  | JStr s => negb (String.eqb s "")
  | JArr l => match l with [] => false | _ => true end
  | JObj kv => match kv with [] => false | _ => true end
  end.

(** [len(v)] *)
Definition len (v : json) : result nat :=
  match v with
  | JStr s => Ok (str_len s)
  | JArr l => Ok (length l)
  | JObj kv => Ok (length kv)
  | _ => Raise (Exn TypeError ("object of type '" +:+ type_name v +:+ "' has no len()"))
  end.

(** [for x in v]: the values iterated over. *)
Definition iter (v : json) : result (list json) :=
  match v with
  | JArr l => Ok l
  | JStr s => Ok (JStr <$> chars s)
  | JObj kv => Ok ((λ e, JStr e.1) <$> kv)
  | _ => Raise (Exn TypeError ("'" +:+ type_name v +:+ "' object is not iterable"))
  end.

(** [v[:n]].  A [dict] rejects the slice as a key. *)
Definition slice_to (n : nat) (v : json) : result json :=
  match v with
  | JStr s => Ok (JStr (take_chars n s))
  | JArr l => Ok (JArr (take n l))
  | JObj _ => Raise (Exn TypeError "unhashable type: 'slice'")
  | _ => Raise (not_subscriptable v)
  end.

(** [v[key]] for a string key. *)
Definition getitem (v : json) (key : string) : result json :=
  match v with
  | JObj kv =>
      match lookup_key key kv with
      | Some x => Ok x
      | None => Raise (Exn KeyError ("'" +:+ key +:+ "'"))
      end
  | JStr _ => Raise (Exn TypeError "string indices must be integers")
  | JArr _ => Raise (Exn TypeError "list indices must be integers or slices, not str")
  | _ => Raise (not_subscriptable v)
  end.

(** [a == b].  Numbers and booleans compare by value; two objects are equal
    when each key of one is a key of the other with an equal value. *)
Definition num_of (v : json) : option Z :=
  match v with
  | JBool b => Some (if b then 1 else 0)%Z
  | JNum n => Some n
  | _ => None
  end.

Fixpoint py_eq (a b : json) : bool :=
  match a, b with
  | JNull, JNull => true
  | JStr s, JStr t => String.eqb s t
  | JArr l1, JArr l2 =>
      (fix go (l1 l2 : list json) : bool :=
         match l1, l2 with
         | [], [] => true
         | x :: l1', y :: l2' => py_eq x y && go l1' l2'
         | _, _ => false
         end) l1 l2
  | JObj kv1, JObj kv2 =>
      (fix go (l : list (string * json)) : bool :=
         match l with
         | [] => true
         | (k, v) :: l' =>
             match lookup_key k kv2 with
             | Some v' => py_eq v v'
             | None => false
             end && go l'
         end) kv1
      && forallb (λ e, match lookup_key e.1 kv1 with Some _ => true | None => false end) kv2
  | _, _ =>
      match num_of a, num_of b with
      | Some x, Some y => (x =? y)%Z
      | _, _ => false
      end
  end.

(** [str(v)], as an f-string renders a value.  A string renders as itself;
    inside a list or an object it renders quoted (the escapes of [repr] are
    not modelled). *)
Fixpoint repr (v : json) : string :=
  match v with
  | JNull => "None"
  | JBool b => if b then "True" else "False"
  | JNum n => pretty n
  | JStr s => "'" +:+ s +:+ "'"
  | JArr l => "[" +:+ join ", " (List.map repr l) +:+ "]"
  | JObj kv =>
      "{" +:+ join ", " (List.map (λ e, "'" +:+ fst e +:+ "': " +:+ repr (snd e)) kv) +:+ "}"
  end.

Definition str (v : json) : string :=
  match v with
  | JStr s => s
  | _ => repr v
  end.

(** Code that writes text piece by piece ([f.write], [summary.append]): the
    pieces written, in order, and the value returned or the exception raised
    after them. *)
Definition writer (A : Type) : Type := list string * result A.

Definition skip : writer unit := ([], Ok tt).
Definition write (s : string) : writer unit := ([s], Ok tt).
Definition eval {A} (r : result A) : writer A := ([], r).

Definition wbind {A B} (m : writer A) (f : A → writer B) : writer B :=
  match m with
  | (out, Ok a) => let '(out', r) := f a in ((out ++ out'), r)
  | (out, Raise e) => (out, Raise e)
  end.

Notation "'let!' x := m 'in' k" := (wbind m (fun x => k))
  (at level 10, x name, m at level 100, k at level 200, only parsing).
Notation "m ;; k" := (wbind m (fun _ => k))
  (at level 100, k at level 200, right associativity, only parsing).

Fixpoint for_each {A} (body : A → writer unit) (l : list A) : writer unit :=
  match l with
  | [] => skip
  | x :: l' => body x ;; for_each body l'
  end.

(** [enumerate(l, 1)] *)
Definition enumerate {A} (l : list A) : list (nat * A) := zip (seq 1 (length l)) l.

Definition line (s : string) : string := s +:+ nl.
Definition para (s : string) : string := s +:+ nl +:+ nl.

End Py.

(** ** Files and external processes *)
Module Os.
Import Py.

(** The content of a file: the JSON document it holds, or any other text
    (contract sources, the reports written below, output that is not JSON),
    as it is read. *)
Inductive file_data :=
| Doc (j : json)
| Text (s : string).

(** *** [json.load] on a text that is not JSON

    The decoder of Python's [json] module, as far as its errors go: where it
    stops on a text, and with which message. *)

(** The characters of a text, one byte for each: the bytes that continue a
    UTF-8 character are left out, so that positions count characters. *)
Definition characters (s : string) : list Ascii.ascii :=
  List.filter (λ c, negb (is_continuation c)) (String.list_ascii_of_string s).

Definition code (c : Ascii.ascii) : nat := Ascii.nat_of_ascii c.

Definition is_char (n : nat) (c : Ascii.ascii) : bool := (code c =? n)%nat.

(** Space, tab, line feed and carriage return. *)
Definition is_whitespace (c : Ascii.ascii) : bool :=
  is_char 32 c || is_char 9 c || is_char 10 c || is_char 13 c.

Definition is_digit (c : Ascii.ascii) : bool := (48 <=? code c)%nat && (code c <=? 57)%nat.

Definition hex_value (c : Ascii.ascii) : option N :=
  let n := code c in
  if (48 <=? n)%nat && (n <=? 57)%nat then Some (N.of_nat (n - 48))
  else if (97 <=? n)%nat && (n <=? 102)%nat then Some (N.of_nat (n - 87))
  else if (65 <=? n)%nat && (n <=? 70)%nat then Some (N.of_nat (n - 55))
  else None.

(** The value of four hexadecimal digits, if they are. *)
Definition hex4 (l : list Ascii.ascii) : option N :=
  match l with
  | [a; b; c; d] =>
      match hex_value a, hex_value b, hex_value c, hex_value d with
      | Some x, Some y, Some z, Some t => Some (((x * 16 + y) * 16 + z) * 16 + t)%N
      | _, _, _, _ => None
      end
  | _ => None
  end.

Fixpoint skip_whitespace (l : list Ascii.ascii) (pos : nat) : list Ascii.ascii * nat :=
  match l with
  | c :: l' => if is_whitespace c then skip_whitespace l' (S pos) else (l, pos)
  | [] => (l, pos)
  end.

Fixpoint skip_digits (l : list Ascii.ascii) (pos : nat) : list Ascii.ascii * nat :=
  match l with
  | c :: l' => if is_digit c then skip_digits l' (S pos) else (l, pos)
  | [] => (l, pos)
  end.

(** How scanning a piece of the text ends: at the rest of the text, with
    [StopIteration] (no value begins here) or with an error, each with its
    position. *)
Inductive scanned :=
| Next (rest : list Ascii.ascii) (pos : nat)
| Stop (pos : nat)
| Fail (msg : string) (pos : nat).

(** [scanstring], after the opening quote at [begin]. *)
Fixpoint scan_string (fuel : nat) (begin : nat) (l : list Ascii.ascii) (pos : nat) : scanned :=
  match fuel with
  | 0 => Fail "Unterminated string starting at" begin
  | S fuel' =>
      match l with
      | [] => Fail "Unterminated string starting at" begin
      | c :: r =>
          if is_char 34 c then Next r (S pos)
          else if is_char 92 c then
            match r with
            | [] => Fail "Unterminated string starting at" begin
            | e :: r2 =>
                if is_char 117 e then
                  match (if (5 <=? length r2)%nat then hex4 (take 4 r2) else None) with
                  | None => Fail "Invalid \uXXXX escape" (pos + 1)
                  | Some high =>
                      let r3 := drop 4 r2 in
                      match r3 with
                      | b :: u :: r4 =>
                          if (55296 <=? high)%N && (high <=? 56319)%N
                             && (7 <=? length r3)%nat && is_char 92 b && is_char 117 u then
                            match hex4 (take 4 r4) with
                            | None => Fail "Invalid \uXXXX escape" (pos + 7)
                            | Some low =>
                                if (56320 <=? low)%N && (low <=? 57343)%N
                                then scan_string fuel' begin (drop 4 r4) (pos + 12)
                                else scan_string fuel' begin r3 (pos + 6)
                            end
                          else scan_string fuel' begin r3 (pos + 6)
                      | _ => scan_string fuel' begin r3 (pos + 6)
                      end
                  end
                else if is_char 34 e || is_char 92 e || is_char 47 e || is_char 98 e
                        || is_char 102 e || is_char 110 e || is_char 114 e || is_char 116 e
                then scan_string fuel' begin r2 (pos + 2)
                else Fail "Invalid \escape" pos
            end
          else if (code c <=? 31)%nat then Fail "Invalid control character at" pos
          else scan_string fuel' begin r (S pos)
      end
  end.

Fixpoint starts_with (word l : list Ascii.ascii) : bool :=
  match word, l with
  | [], _ => true
  | a :: word', b :: l' => Ascii.eqb a b && starts_with word' l'
  | _ :: _, [] => false
  end.

(** The fraction and the exponent after the digits of an integer. *)
Definition scan_fraction (l : list Ascii.ascii) (pos : nat) : list Ascii.ascii * nat :=
  let '(l1, p1) :=
    match l with
    | dot :: d :: r =>
        if is_char 46 dot && is_digit d then skip_digits r (pos + 2) else (l, pos)
    | _ => (l, pos)
    end in
  match l1 with
  | e :: r =>
      if is_char 101 e || is_char 69 e then
        let '(r1, p2) :=
          match r with
          | sign :: r' =>
              if is_char 43 sign || is_char 45 sign then (r', p1 + 2) else (r, p1 + 1)
          | [] => (r, p1 + 1)
          end in
        match r1 with
        | d :: _ => if is_digit d then skip_digits r1 p2 else (l1, p1)
        | [] => (l1, p1)
        end
      else (l1, p1)
  | [] => (l1, p1)
  end.

(** [_match_number], and the constants. *)
Definition scan_number (l : list Ascii.ascii) (pos : nat) : scanned :=
  let '(l1, p1) :=
    match l with
    | c :: r => if is_char 45 c then (r, S pos) else (l, pos)
    | [] => (l, pos)
    end in
  match l1 with
  | c :: r =>
      if is_char 48 c then
        let '(r', p') := scan_fraction r (S p1) in Next r' p'
      else if is_digit c then
        let '(r1, p2) := skip_digits r (S p1) in
        let '(r', p') := scan_fraction r1 p2 in Next r' p'
      else Stop pos
  | [] => Stop pos
  end.

Definition scan_constant (l : list Ascii.ascii) (pos : nat) : scanned :=
  let word (w : string) :=
    let cs := String.list_ascii_of_string w in
    if starts_with cs l then Some (Next (drop (length cs) l) (pos + length cs)) else None in
  match word "null", word "true", word "false", word "NaN", word "Infinity", word "-Infinity" with
  | Some r, _, _, _, _, _ | _, Some r, _, _, _, _ | _, _, Some r, _, _, _
  | _, _, _, Some r, _, _ | _, _, _, _, Some r, _ | _, _, _, _, _, Some r => r
  | _, _, _, _, _, _ => scan_number l pos
  end.

(** What the scanner expects next: a value, the name of a property, or what
    follows a value inside the open objects ([true]) and arrays. *)
Inductive expecting := Value | Name | After.

Fixpoint scan (fuel : nat) (e : expecting) (open : list bool) (l : list Ascii.ascii)
    (pos : nat) : scanned :=
  match fuel with
  | 0 => Stop pos
  | S fuel' =>
      match e with
      | Value =>
          match l with
          | [] => Stop pos
          | c :: r =>
              if is_char 34 c then
                match scan_string (length r) pos r (S pos) with
                | Next r' p' => scan fuel' After open r' p'
                | other => other
                end
              else if is_char 123 c then
                let '(r', p') := skip_whitespace r (S pos) in
                match r' with
                | c' :: r'' =>
                    if is_char 125 c' then scan fuel' After open r'' (S p')
                    else scan fuel' Name (true :: open) r' p'
                | [] => scan fuel' Name (true :: open) r' p'
                end
              else if is_char 91 c then
                let '(r', p') := skip_whitespace r (S pos) in
                match r' with
                | c' :: r'' =>
                    if is_char 93 c' then scan fuel' After open r'' (S p')
                    else scan fuel' Value (false :: open) r' p'
                | [] => scan fuel' Value (false :: open) r' p'
                end
              else
                match scan_constant l pos with
                | Next r' p' => scan fuel' After open r' p'
                | other => other
                end
          end
      | Name =>
          match l with
          | c :: r =>
              if is_char 34 c then
                match scan_string (length r) pos r (S pos) with
                | Next r' p' =>
                    let '(r2, p2) := skip_whitespace r' p' in
                    match r2 with
                    | c' :: r3 =>
                        if is_char 58 c' then
                          let '(r4, p4) := skip_whitespace r3 (S p2) in
                          scan fuel' Value open r4 p4
                        else Fail "Expecting ':' delimiter" p2
                    | [] => Fail "Expecting ':' delimiter" p2
                    end
                | other => other
                end
              else Fail "Expecting property name enclosed in double quotes" pos
          | [] => Fail "Expecting property name enclosed in double quotes" pos
          end
      | After =>
          match open with
          | [] => Next l pos
          | object :: open' =>
              let '(r, p) := skip_whitespace l pos in
              match r with
              | c :: r' =>
                  if is_char (if object : bool then 125 else 93) c then
                    scan fuel' After open' r' (S p)
                  else if is_char 44 c then
                    let '(r'', p'') := skip_whitespace r' (S p) in
                    scan fuel' (if object : bool then Name else Value) open r'' p''
                  else Fail "Expecting ',' delimiter" p
              | [] => Fail "Expecting ',' delimiter" p
              end
          end
      end
  end.

(** [JSONDecodeError(msg, doc, pos)]: the message with the line, the column
    and the position. *)
Fixpoint locate (doc : list Ascii.ascii) (pos lineno colno : nat) : nat * nat :=
  match pos, doc with
  | S pos', c :: doc' =>
      if is_char 10 c then locate doc' pos' (S lineno) 1 else locate doc' pos' lineno (S colno)
  | _, _ => (lineno, colno)
  end.

Definition error_at (msg : string) (doc : list Ascii.ascii) (pos : nat) : string :=
  let '(lineno, colno) := locate doc pos 1 1 in
  msg +:+ ": line " +:+ pretty lineno +:+ " column " +:+ pretty colno
      +:+ " (char " +:+ pretty pos +:+ ")".

(** The message of the [JSONDecodeError] that [json.loads] raises on a text
    that is not a JSON document.  (A text nested deeper than the interpreter
    recurses, on which it raises another exception, is not modelled.) *)
Definition decode_error (s : string) : string :=
  let doc := characters s in
  if String.prefix (String (Ascii.ascii_of_nat 239) (String (Ascii.ascii_of_nat 187)
                      (String (Ascii.ascii_of_nat 191) ""))) s
  then error_at "Unexpected UTF-8 BOM (decode using utf-8-sig)" doc 0
  else
    let '(l, pos) := skip_whitespace doc 0 in
    match scan (2 * length doc + 2) Value [] l pos with
    | Stop p => error_at "Expecting value" doc p
    | Fail msg p => error_at msg doc p
    | Next r p =>
        let '(r', p') := skip_whitespace r p in
        match r' with
        | [] => error_at "Expecting value" doc 0
        | _ :: _ => error_at "Extra data" doc p'
        end
    end.

(** [json.load(f)] *)
Definition json_load (d : file_data) : result json :=
  match d with
  | Doc j => Ok j
  | Text s => Raise (Exn JSONDecodeError (decode_error s))
  end.

(** The system clock, as the scripts read it. *)
Record time := Clock {
  now_str : string;      (* str(datetime.datetime.now()) *)
  now_stamp : string     (* datetime.datetime.now().strftime("%Y%m%d_%H%M%S") *)
}.

(** The world the auditor runs in: the regular files by path, the clock, and
    the commands run so far.  A directory is there when a file lies below it
    (an empty directory is not modelled). *)
Record world := World {
  files : gmap string file_data;
  clock : time;
  calls : list (list string)
}.

(** [path.exists()], as the scripts ask it of the output file of a tool and
    of the contract named on the command line: of a regular file. *)
Definition exists_ (path : string) (w : world) : bool := bool_decide (is_Some (files w !! path)).

(** [with open(path, 'w') as f: f.write(text)]; writing is taken to succeed. *)
Definition write_file (path text : string) (w : world) : world :=
  World (<[path := Text text]> (files w)) (clock w) (calls w).

(** What [subprocess.run] does: it returns a completed process or raises. *)
Inductive outcome :=
| Completed (returncode : Z) (stdout stderr : string)
| Raised (e : exn).

(** [Path(dir) / name], [path.name] and [path.stem] on path strings. *)
Definition joinpath (dir name : string) : string := dir +:+ "/" +:+ name.

Definition parts (path : string) : list string := split_on "/"%char path.

Definition name (path : string) : string := List.last (parts path) "".

(** The directories above a path: [a] and [a/b] for [a/b/c]. *)
Fixpoint ancestors_from (above path : string) : list string :=
  match path with
  | "" => []
  | String c path' =>
      (if Ascii.eqb c "/" then [above] else []) ++ ancestors_from (above +:+ String c "") path'
  end.

Definition ancestors (path : string) : list string := ancestors_from "" path.

(** The paths there are: the files, and the directories above them. *)
Definition paths (w : world) : list string :=
  let listed := fst <$> map_to_list (files w) in
  remove_dups (listed ++ (listed ≫= ancestors)).

Definition stem (path : string) : string :=
  let n := name path in
  let ps := split_on "."%char n in
  let base := join "." (removelast ps) in
  if (1 <? length ps)%nat && negb (String.eqb base "") && negb (String.eqb (List.last ps "") "")
  then base else n.

(** Paths compare by their parts, each part as a string. *)
Fixpoint parts_compare (p q : list string) : comparison :=
  match p, q with
  | [], [] => Eq
  | [], _ :: _ => Lt
  | _ :: _, [] => Gt
  | a :: p', b :: q' =>
      match String.compare a b with
      | Eq => parts_compare p' q'
      | c => c
      end
  end.

Definition path_ltb (p q : string) : bool :=
  match parts_compare (parts p) (parts q) with Lt => true | _ => false end.

(** [sorted(paths)]: ascending for [<]; [p] may stand before [q] unless [q < p]. *)
Definition path_le (p q : string) : Prop := path_ltb q p = false.

#[global] Instance path_le_dec p q : Decision (path_le p q).
Proof. unfold path_le. apply _. Defined.

Definition sorted (paths : list string) : list string := merge_sort path_le paths.

End Os.

(** ** [smartcontract/audit-backup.py] *)
Module Audit.
Import Py Os.

(** [self]: the fields set by [SmartContractAuditor.__init__]. *)
Record auditor := Auditor {
  contracts_dir : string;
  reports_dir : string;
  timestamp : string
}.

(** The dictionary [{'high': _, 'medium': _, 'low': _, 'informational': _}]. *)
Record impacts := Impacts {
  high : nat;
  medium : nat;
  low : nat;
  informational : nat
}.

Definition items (i : impacts) : list (string * nat) :=
  [("high", high i); ("medium", medium i); ("low", low i); ("informational", informational i)].

(** One turn of the loop of [_analyze_impacts]. *)
Definition count_impact (acc : impacts) (r : json) : result impacts :=
  let* v := get r "impact" (JStr "") in
  let* impact := lower v in
  Ok (if contains "high" impact then
        Impacts (high acc + 1) (medium acc) (low acc) (informational acc)
      else if contains "medium" impact then
        Impacts (high acc) (medium acc + 1) (low acc) (informational acc)
      else if contains "low" impact then
        Impacts (high acc) (medium acc) (low acc + 1) (informational acc)
      else
        Impacts (high acc) (medium acc) (low acc) (informational acc + 1)).

Definition _analyze_impacts (results : json) : result impacts :=
  let* rs := iter results in
  foldM count_impact (Impacts 0 0 0 0) rs.

(** The dictionaries returned by the three analyses; a key that a dictionary
    may lack is an [option] ([.get] reads [None] as the default). *)
Record slither_results := SlitherResults {
  s_success : bool;
  s_stdout : option string;
  s_stderr : option string;
  s_output_file : option string;
  s_timestamp : option string;
  s_findings : option nat;
  s_impacts : option impacts;
  s_error : option string
}.

Record mythril_results := MythrilResults {
  m_success : bool;
  m_stdout : option string;
  m_stderr : option string;
  m_output_file : option string;
  m_timestamp : option string;
  m_contract : string;
  m_findings : option nat;
  m_issues : option json;
  m_error : option string
}.

Record gas_results := GasResults {
  g_success : bool;
  g_output_file : option string;
  g_contract : string;
  g_error : option string
}.

Definition slither_failed (error : string) : slither_results :=
  SlitherResults false None None None None None None (Some error).
Definition mythril_failed (error contract : string) : mythril_results :=
  MythrilResults false None None None None contract None None (Some error).
Definition gas_failed (error contract : string) : gas_results :=
  GasResults false None contract (Some error).

(** [except subprocess.TimeoutExpired: ... except Exception as e: ...] *)
Definition error_of (e : exn) : string :=
  match kind e with
  | TimeoutExpired => "timeout"
  | _ => message e
  end.

Section Auditor.

(** The external programs: what running a command with a timeout returns or
    raises, and how it leaves the files and the clock. *)
Variable subprocess_run : list string → option nat → world → outcome * world.

Variable self : auditor.

Definition run (cmd : list string) (timeout : option nat) (w : world) : outcome * world :=
  let '(o, w') := subprocess_run cmd timeout w in
  (o, World (files w') (clock w') (calls w ++ [cmd])).

(** *** [check_prerequisites] *)

Definition tools : list (string * string) :=
  [("slither", "slither"); ("myth", "myth"); ("solc", "solc")].

Fixpoint check_tools (ts : list (string * string)) (missing_tools : list string)
    (w : world) : result (list string) * world :=
  match ts with
  | [] => (Ok missing_tools, w)
  | (tool_name, command) :: ts' =>
      let '(o, w') := run [command; "--version"] (Some 10) w in
      match o with
      | Completed returncode _ _ =>
          if (returncode =? 0)%Z then check_tools ts' missing_tools w'
          else check_tools ts' (missing_tools ++ [tool_name]) w'
      | Raised e =>
          match kind e with
          | TimeoutExpired | FileNotFoundError =>
              check_tools ts' (missing_tools ++ [tool_name]) w'
          | _ => (Raise e, w')
          end
      end
  end.

Definition check_prerequisites (w : world) : result bool * world :=
  match check_tools tools [] w with
  | (Ok missing_tools, w') =>
      (Ok (match missing_tools with [] => true | _ => false end), w')
  | (Raise e, w') => (Raise e, w')
  end.

(** *** [find_contract_files] *)

(** [self.contracts_dir.glob('**/*.sol')]: the paths below the directory whose
    name ends in [.sol], in the order the directory walk yields them.  The
    pattern does not tell a file from a directory: a directory of such a
    name is among them. *)
Definition glob_sol (w : world) : list string :=
  List.filter
    (λ p, startswith p (contracts_dir self +:+ "/") && endswith (name p) ".sol")
    (paths w).

Definition keep (file_path : string) : bool :=
  negb (contains "node_modules" file_path) && negb (startswith (name file_path) "Test").

Definition find_contract_files (w : world) : list string :=
  sorted (List.filter keep (glob_sol w)).

(** *** [run_slither_analysis] *)

Definition slither_output_file : string :=
  joinpath (reports_dir self) ("slither_report_" +:+ timestamp self +:+ ".json").

Definition slither_cmd (contract_path : option string) : list string :=
  ["slither"; default (contracts_dir self) contract_path;
   "--json"; slither_output_file;
   "--filter-paths"; "node_modules/";
   "--exclude"; "naming-convention,external-function"].

Definition parse_slither (d : file_data) : result (nat * impacts) :=
  let* data := json_load d in
  let* res := get data "results" (JObj []) in
  let* results := get res "detectors" (JArr []) in
  let* n := len results in
  let* imp := _analyze_impacts results in
  Ok (n, imp).

Definition run_slither_analysis (contract_path : option string) (w : world)
    : slither_results * world :=
  let output_file := slither_output_file in
  let '(o, w') := run (slither_cmd contract_path) (Some 300) w in
  (match o with
   | Completed returncode stdout stderr =>
       let base findings imp :=
         SlitherResults (returncode =? 0)%Z (Some stdout) (Some stderr)
           (if exists_ output_file w' then Some output_file else None)
           (Some (timestamp self)) findings imp None in
       if (returncode =? 0)%Z then
         match files w' !! output_file with
         | Some d =>
             match parse_slither d with
             | Ok (n, imp) => base (Some n) (Some imp)
             | Raise e => slither_failed (error_of e)
             end
         | None => base None None
         end
       else base None None
   | Raised e => slither_failed (error_of e)
   end, w').

(** *** [run_mythril_analysis] *)

Definition mythril_output_file (contract_path : string) : string :=
  joinpath (reports_dir self)
    ("mythril_report_" +:+ stem contract_path +:+ "_" +:+ timestamp self +:+ ".json").

Definition mythril_cmd (contract_path : string) : list string :=
  ["myth"; "analyze"; contract_path; "--solv"; "0.8.19";
   "--execution-timeout"; "120"; "--json"; mythril_output_file contract_path].

(** The arguments of the log line of one issue. *)
Definition log_issue (issue : json) : result unit :=
  let* _ := get issue "title" (JStr "Unknown issue") in
  let* description := get issue "description" (JStr "") in
  let* _ := slice_to 100 description in
  Ok tt.

Definition parse_mythril (d : file_data) : result (nat * json) :=
  let* data := json_load d in
  let* issues := get data "issues" (JArr []) in
  let* n := len issues in
  let* first := slice_to 5 issues in
  let* shown := iter first in
  let* _ := mapM log_issue shown in
  Ok (n, issues).

Definition run_mythril_analysis (contract_path : string) (w : world)
    : mythril_results * world :=
  let output_file := mythril_output_file contract_path in
  let '(o, w') := run (mythril_cmd contract_path) (Some 300) w in
  (match o with
   | Completed returncode stdout stderr =>
       let base findings issues :=
         MythrilResults (returncode =? 0)%Z (Some stdout) (Some stderr)
           (if exists_ output_file w' then Some output_file else None)
           (Some (timestamp self)) (name contract_path) findings issues None in
       if (returncode =? 0)%Z then
         match files w' !! output_file with
         | Some d =>
             match parse_mythril d with
             | Ok (n, issues) => base (Some n) (Some issues)
             | Raise e => mythril_failed (error_of e) (name contract_path)
             end
         | None => base None None
         end
       else base None None
   | Raised e => mythril_failed (error_of e) (name contract_path)
   end, w').

(** *** [run_gas_analysis] *)

Definition gas_output_file (contract_path : string) : string :=
  joinpath (reports_dir self)
    ("gas_analysis_" +:+ stem contract_path +:+ "_" +:+ timestamp self +:+ ".txt").

Definition gas_cmd (contract_path : string) : list string :=
  ["slither"; contract_path; "--print"; "function-calls";
   "--print"; "variable-locations"; "--print"; "data-dependencies"].

Definition rule (n : nat) : string := String.concat "" (replicate n "=").

Definition gas_report (contract_path now stdout stderr : string) : string :=
  String.concat ""
    ["Gas Analysis Report for " +:+ name contract_path +:+ nl;
     "Generated: " +:+ now +:+ nl;
     rule 50 +:+ nl +:+ nl;
     "STDOUT:" +:+ nl;
     stdout;
     nl +:+ "STDERR:" +:+ nl;
     stderr].

Definition run_gas_analysis (contract_path : string) (w : world)
    : gas_results * world :=
  let output_file := gas_output_file contract_path in
  let '(o, w') := run (gas_cmd contract_path) (Some 120) w in
  match o with
  | Completed returncode stdout stderr =>
      (GasResults (returncode =? 0)%Z (Some output_file) (name contract_path) None,
       write_file output_file
         (gas_report contract_path (now_str (clock w')) stdout stderr) w')
  | Raised e => (gas_failed (error_of e) (name contract_path), w')
  end.


(** *** [generate_comprehensive_report] *)

Definition report_file : string :=
  joinpath (reports_dir self) ("comprehensive_audit_report_" +:+ timestamp self +:+ ".md").

Definition render_header (now : string) : writer unit :=
  write (para "# Rabbit Launchpad Smart Contract Audit Report") ;;
  write (line ("**Generated:** " +:+ now)) ;;
  write (para ("**Timestamp:** " +:+ timestamp self)).

Definition render_summary (slither : slither_results) (mythril : list mythril_results)
    (w : world) : writer unit :=
  write (para "## Executive Summary") ;;
  let total_slither_findings := default 0 (s_findings slither) in
  let total_mythril_findings := sum_list ((λ r, default 0 (m_findings r)) <$> mythril) in
  write (line ("- **Total Slither Findings:** " +:+ pretty total_slither_findings)) ;;
  write (line ("- **Total Mythril Findings:** " +:+ pretty total_mythril_findings)) ;;
  write (para ("- **Contracts Analyzed:** " +:+ pretty (length (find_contract_files w)))) ;;
  match s_impacts slither with
  | Some imp =>
      write (para "### Slither Impact Levels") ;;
      for_each (λ '(impact, count),
                  write (line ("- **" +:+ str_title impact +:+ ":** " +:+ pretty count)))
               (items imp) ;;
      write nl
  | None => skip
  end.

Definition render_element (element : json) : writer unit :=
  let! source_mapping := eval (get element "source_mapping" JNull) in
  if truthy source_mapping then
    let! sm := eval (getitem element "source_mapping") in
    let! filename := eval (getitem sm "filename") in
    write (line ("- `" +:+ str filename +:+ "`"))
  else skip.

Definition render_detector (e : nat * json) : writer unit :=
  let '(i, detector) := e in
  let! check := eval (get detector "check" (JStr "Unknown")) in
  write (para ("#### " +:+ pretty i +:+ ". " +:+ str check)) ;;
  let! impact := eval (get detector "impact" (JStr "Unknown")) in
  write (line ("**Impact:** " +:+ str impact)) ;;
  let! confidence := eval (get detector "confidence" (JStr "Unknown")) in
  write (line ("**Confidence:** " +:+ str confidence)) ;;
  let! description := eval (get detector "description" (JStr "No description")) in
  write (para ("**Description:** " +:+ str description)) ;;
  let! elements := eval (get detector "elements" JNull) in
  (if truthy elements then
     write (line "**Affected Files:**") ;;
     let! es := eval (getitem detector "elements") in
     let! first := eval (slice_to 3 es) in
     let! shown := eval (iter first) in
     for_each render_element shown ;;
     write nl
   else skip) ;;
  let! id := eval (get detector "id" JNull) in
  if truthy id then
    let! id' := eval (getitem detector "id") in
    write (para ("**Detector ID:** `" +:+ str id' +:+ "`"))
  else skip.

Definition render_detectors (detectors : json) : writer unit :=
  if truthy detectors then
    write (para "### Detailed Findings") ;;
    let! first := eval (slice_to 10 detectors) in
    let! shown := eval (iter first) in
    for_each render_detector (enumerate shown)
  else write (para "No security issues found by Slither.").

Definition render_slither (slither : slither_results) (w : world) : writer unit :=
  write (para "## Slither Static Analysis Results") ;;
  if s_success slither then
    write (para "✅ Slither analysis completed successfully") ;;
    match s_output_file slither with
    | Some output_file =>
        match (if String.eqb output_file "" then None else files w !! output_file) with
        | Some d =>
            let! slither_data := eval (json_load d) in
            let! res := eval (get slither_data "results" (JObj [])) in
            let! detectors := eval (get res "detectors" (JArr [])) in
            render_detectors detectors
        | None => skip
        end
    | None => skip
    end
  else
    write (para "❌ Slither analysis failed") ;;
    match s_error slither with
    | Some error =>
        if String.eqb error "" then skip else write (para ("Error: " +:+ error))
    | None => skip
    end.

Definition render_location (loc : json) : writer unit :=
  let! start_line := eval (get loc "start_line" (JStr "Unknown")) in
  let! source_map := eval (get loc "source_map" (JStr "Unknown")) in
  write (line ("- Line " +:+ str start_line +:+ " in " +:+ str source_map)).

Definition render_issue (e : nat * json) : writer unit :=
  let '(i, issue) := e in
  let! title := eval (get issue "title" (JStr "Unknown Issue")) in
  write (para ("#### " +:+ pretty i +:+ ". " +:+ str title)) ;;
  let! severity := eval (get issue "severity" (JStr "Unknown")) in
  write (line ("**Severity:** " +:+ str severity)) ;;
  let! description := eval (get issue "description" (JStr "No description")) in
  write (para ("**Description:** " +:+ str description)) ;;
  let! locations := eval (get issue "locations" JNull) in
  if truthy locations then
    write (line "**Locations:**") ;;
    let! locs := eval (getitem issue "locations") in
    let! each := eval (iter locs) in
    for_each render_location each ;;
    write nl
  else skip.

Definition render_issues (issues : json) : writer unit :=
  if truthy issues then
    let! first := eval (slice_to 5 issues) in
    let! shown := eval (iter first) in
    for_each render_issue (enumerate shown)
  else write (para "No security issues found by Mythril.").

Definition render_mythril_result (r : mythril_results) : writer unit :=
  write (para ("### " +:+ m_contract r)) ;;
  if m_success r then
    write (para "✅ Analysis completed successfully") ;;
    render_issues (default (JArr []) (m_issues r))
  else
    write (para "❌ Analysis failed") ;;
    match m_error r with
    | Some error =>
        if String.eqb error "" then skip else write (para ("Error: " +:+ error))
    | None => skip
    end.

Definition render_mythril (mythril : list mythril_results) : writer unit :=
  write (para "## Mythril Symbolic Analysis Results") ;;
  for_each render_mythril_result mythril.

Definition render_gas_result (r : gas_results) : writer unit :=
  write (para ("### " +:+ g_contract r)) ;;
  if g_success r then
    write (para "✅ Gas analysis completed successfully") ;;
    match g_output_file r with
    | Some output_file =>
        if String.eqb output_file "" then skip
        else write (para ("Detailed report: `" +:+ output_file +:+ "`"))
    | None => skip
    end
  else write (para "❌ Gas analysis failed").

Definition render_gas (gas : list gas_results) : writer unit :=
  write (para "## Gas Analysis Results") ;;
  for_each render_gas_result gas.

Definition closing : list string :=
  [para "## Security Recommendations";
   para "### High Priority";
   line "1. Review all high-impact findings from Slither";
   line "2. Address any critical security issues found by Mythril";
   para "3. Implement proper access controls if missing";
   para "### Medium Priority";
   line "1. Optimize gas usage for frequently called functions";
   line "2. Review and improve code documentation";
   para "3. Add more comprehensive test coverage";
   para "### Low Priority";
   line "1. Address code style and naming convention issues";
   para "2. Optimize for readability and maintainability";
   para "## Next Steps";
   line "1. Review all findings in detail";
   line "2. Implement fixes for identified issues";
   line "3. Re-run analysis after fixes";
   line "4. Consider third-party professional audit";
   para "5. Deploy to testnet for thorough testing";
   line "---";
   line "*This report was generated automatically using Slither and Mythril static analysis tools.*"].

(** Everything written after the two lines of the header that carry a time. *)
Definition render_body (slither : slither_results) (mythril : list mythril_results)
    (gas : list gas_results) (w : world) : writer unit :=
  render_summary slither mythril w ;;
  render_slither slither w ;;
  render_mythril mythril ;;
  render_gas gas ;;
  for_each write closing.

Definition render_report (slither : slither_results) (mythril : list mythril_results)
    (gas : list gas_results) (w : world) : writer unit :=
  render_header (now_str (clock w)) ;;
  render_body slither mythril gas w.

(** The report file is opened (and emptied) first; what was written is in it
    when the [with] block is left, also when it is left by an exception. *)
Definition generate_comprehensive_report (slither : slither_results)
    (mythril : list mythril_results) (gas : list gas_results) (w : world)
    : result string * world :=
  let w0 := write_file report_file "" w in
  let '(chunks, r) := render_report slither mythril gas w0 in
  (let* _ := r in Ok report_file, write_file report_file (String.concat "" chunks) w).

(** *** [audit_contracts] *)

Record audit_results := AuditResults {
  a_success : bool;
  a_error : option string;
  a_timestamp : option string;
  a_contracts_analyzed : option nat;
  a_slither_results : option slither_results;
  a_mythril_results : list mythril_results;
  a_gas_results : list gas_results;
  a_report_file : option string
}.

Definition audit_failed (error : string) : audit_results :=
  AuditResults false (Some error) None None None [] [] None.

(** [for contract in contract_files: results.append(analysis(contract))] *)
Fixpoint run_each {R} (analysis : string → world → R * world)
    (contract_files : list string) (w : world) : list R * world :=
  match contract_files with
  | [] => ([], w)
  | contract :: rest =>
      let '(r, w') := analysis contract w in
      let '(rs, w'') := run_each analysis rest w' in
      (r :: rs, w'')
  end.

Definition audit_contracts (contract_path : option string) (run_mythril run_gas : bool)
    (w : world) : result audit_results * world :=
  match check_prerequisites w with
  | (Raise e, w1) => (Raise e, w1)
  | (Ok false, w1) => (Ok (audit_failed "prerequisites_failed"), w1)
  | (Ok true, w1) =>
      let contract_files :=
        match contract_path with
        | Some p => [p]
        | None => find_contract_files w1
        end in
      match contract_files with
      | [] => (Ok (audit_failed "no_contracts_found"), w1)
      | _ =>
          let '(slither, w2) := run_slither_analysis contract_path w1 in
          let '(mythril, w3) :=
            if run_mythril then run_each run_mythril_analysis contract_files w2
            else ([], w2) in
          let '(gas, w4) :=
            if run_gas then run_each run_gas_analysis contract_files w3
            else ([], w3) in
          let '(report, w5) := generate_comprehensive_report slither mythril gas w4 in
          (let* report_file := report in
           Ok (AuditResults true None (Some (timestamp self)) (Some (length contract_files))
                 (Some slither) mythril gas (Some report_file)),
           w5)
      end
  end.

End Auditor.

(** *** [main] *)

Record args := Args {
  arg_contracts_dir : string;
  arg_reports_dir : string;
  arg_contract : option string;
  arg_no_mythril : bool;
  arg_no_gas : bool;
  arg_install_deps : bool
}.

Definition pip_cmd (executable : string) : list string :=
  [executable; "-m"; "pip"; "install"; "-r"; "smartcontract/requirements-audit.txt"].

(** The value [main] returns ([None] when it falls off the installation
    branch), or the exception that escapes it. *)
Definition main (subprocess_run : list string → option nat → world → outcome * world)
    (executable : string) (a : args) (w : world) : result (option Z) * world :=
  if arg_install_deps a then
    match run subprocess_run (pip_cmd executable) None w with
    | (Completed _ _ _, w') => (Ok None, w')
    | (Raised e, w') => (Raise e, w')
    end
  else
    let auditor :=
      Auditor (arg_contracts_dir a) (arg_reports_dir a) (now_stamp (clock w)) in
    if match arg_contract a with
       | Some contract_path => negb (exists_ contract_path w)
       | None => false
       end
    then (Ok (Some 1%Z), w)
    else
      match audit_contracts subprocess_run auditor (arg_contract a)
              (negb (arg_no_mythril a)) (negb (arg_no_gas a)) w with
      | (Ok results, w') => (Ok (Some (if a_success results then 0 else 1)%Z), w')
      | (Raise e, w') => (Raise e, w')
      end.

(** [sys.exit(main())]: the exit status of the process. *)
Definition exit_code (r : result (option Z)) : Z :=
  match r with
  | Ok None => 0
  | Ok (Some n) => n
  | Raise _ => 1
  end.

End Audit.

(** ** [scripts/generate-audit-summary.py] *)
Module Summary.
Import Py Os.

(** A file of the reports directory: its name, its modification time and
    its content.  The directory is the list of its files, in the order
    [glob] yields them. *)
Record entry := Entry {
  fname : string;
  mtime : nat;
  data : file_data
}.

(** [reports_path.glob(prefix + "*" + suffix)] *)
Definition matches (pre suf : string) (e : entry) : bool :=
  let n := fname e in
  startswith n pre
  && endswith (String.substring (String.length pre) (String.length n - String.length pre) n) suf.

Definition glob (pre suf : string) (dir : list entry) : list entry :=
  List.filter (matches pre suf) dir.

(** [max(reports, key=os.path.getmtime)]: the first of the newest. *)
Fixpoint newest (best : entry) (rest : list entry) : entry :=
  match rest with
  | [] => best
  | e :: rest' => newest (if (mtime best <? mtime e)%nat then e else best) rest'
  end.

(** ['high' in d.get('impact', '').lower()]; a detector is paired with its
    position in [detectors], which tells the objects apart. *)
Definition mentions (keyword : string) (d : nat * json) : result bool :=
  let* v := get d.2 "impact" (JStr "") in
  let* impact := lower v in
  Ok (contains keyword impact).

(** [d in l]: some member is [d] itself or equals it. *)
Definition is_in (d : nat * json) (l : list (nat * json)) : bool :=
  existsb (λ e, (d.1 =? e.1)%nat || py_eq d.2 e.2) l.

Definition indexed (l : list json) : list (nat * json) := zip (seq 0 (length l)) l.

Definition render_priority (e : nat * (nat * json)) : writer unit :=
  let '(i, finding) := e in
  let! check := eval (get finding.2 "check" (JStr "Unknown")) in
  write (pretty i +:+ ". **" +:+ str check +:+ "**") ;;
  let! description := eval (get finding.2 "description" (JStr "")) in
  let! short := eval (slice_to 100 description) in
  write ("   - *" +:+ str short +:+ "...*").

Definition render_counts (high_impact medium_impact low_impact informational : list (nat * json))
    : writer unit :=
  write "#### 🔍 Slither Analysis" ;;
  write ("- **High Impact:** " +:+ pretty (length high_impact)) ;;
  write ("- **Medium Impact:** " +:+ pretty (length medium_impact)) ;;
  write ("- **Low Impact:** " +:+ pretty (length low_impact)) ;;
  write ("- **Informational:** " +:+ pretty (length informational)) ;;
  (match high_impact with
   | [] => skip
   | _ =>
       write "" ;;
       write "**🚨 High Priority Issues:**" ;;
       for_each render_priority (enumerate (take 3 high_impact)) ;;
       if (3 <? length high_impact)%nat
       then write ("   - *and " +:+ pretty (length high_impact - 3) +:+ " more...*")
       else skip
   end) ;;
  write "".

Definition load_detectors (d : file_data) : result (list (nat * json)) :=
  let* slither_data := json_load d in
  let* res := get slither_data "results" (JObj []) in
  let* detectors := get res "detectors" (JArr []) in
  let* ds := iter detectors in
  Ok (indexed ds).

Definition error_line (e : exn) : string :=
  "❌ Error processing Slither report: " +:+ message e.

(** The [try] block over the newest Slither report: the lines appended, and
    [high_impact] when the block got as far as binding it. *)
Definition slither_section (latest : entry)
    : list string * option (list (nat * json)) :=
  match (let* detectors := load_detectors (data latest) in
         let* high_impact := filterM (mentions "high") detectors in
         Ok (detectors, high_impact)) with
  | Raise e => ([error_line e], None)
  | Ok (detectors, high_impact) =>
      let rest :=
        let! medium_impact := eval (filterM (mentions "medium") detectors) in
        let! low_impact := eval (filterM (mentions "low") detectors) in
        let informational :=
          List.filter (λ d, negb (is_in d high_impact) && negb (is_in d medium_impact)
                            && negb (is_in d low_impact)) detectors in
        render_counts high_impact medium_impact low_impact informational in
      ((rest.1 ++ match rest.2 with Raise e => [error_line e] | Ok _ => [] end),
       Some high_impact)
  end.

(** One turn of the loop over the Mythril reports ([except: pass]). *)
Definition count_issues (total : nat) (report_file : entry) : nat :=
  match (let* mythril_data := json_load (data report_file) in
         let* issues := get mythril_data "issues" (JArr []) in
         len issues) with
  | Ok n => total + n
  | Raise _ => total
  end.

(** The overall assessment.  The three messages are the verdicts the
    specification calls NONE, CRITICAL and WARNING. *)
Inductive verdict := NONE | CRITICAL | WARNING.

Definition assess (high_count mythril_count : nat) : option verdict :=
  if (high_count =? 0)%nat && (mythril_count =? 0)%nat then Some NONE
  else if (0 <? high_count)%nat then Some CRITICAL
  else if (0 <? mythril_count)%nat then Some WARNING
  else None.

Definition assessment_line (high_count mythril_count : nat) (v : verdict) : string :=
  match v with
  | NONE => "✅ **No critical security issues detected**"
  | CRITICAL => "🚨 **" +:+ pretty high_count +:+ " critical issues require immediate attention**"
  | WARNING => "⚠️ **" +:+ pretty mythril_count +:+ " potential security issues found**"
  end.

Definition recommendations (high_count mythril_count : nat) : list string :=
  if (0 <? high_count)%nat then
    ["1. **IMMEDIATE:** Address all high-impact findings";
     "2. Review and fix security vulnerabilities"]
  else if (0 <? mythril_count)%nat then
    ["1. Review Mythril findings for potential risks";
     "2. Consider manual code review for complex logic"]
  else
    ["1. Continue following security best practices";
     "2. Maintain comprehensive test coverage"].

(** The two counts the assessment is made of. *)
Definition high_count (dir : list entry) : nat :=
  match glob "slither_report_" ".json" dir with
  | [] => 0
  | e :: rest =>
      match (slither_section (newest e rest)).2 with
      | Some high_impact => length high_impact
      | None => 0
      end
  end.

Definition mythril_count (dir : list entry) : nat :=
  foldl count_issues 0 (glob "mythril_report_" ".json" dir).

Definition session_verdict (dir : list entry) : option verdict :=
  assess (high_count dir) (mythril_count dir).

(** [generate_summary]: [dir] is the reports directory and [now] the time
    printed in the last line. *)
Definition summary_lines (dir : list entry) (now : string) : list string :=
  (["### 📊 Audit Summary"; ""]
   ++ match glob "slither_report_" ".json" dir with
      | [] => []
      | e :: rest => (slither_section (newest e rest)).1
      end
   ++ match glob "mythril_report_" ".json" dir with
      | [] => []
      | _ => ["#### 🔮 Mythril Symbolic Analysis";
              "- **Security Issues:** " +:+ pretty (mythril_count dir);
              ""]
      end
   ++ ["#### 📋 Overall Assessment"]
   ++ match session_verdict dir with
      | Some v => [assessment_line (high_count dir) (mythril_count dir) v]
      | None => []
      end
   ++ [""; "### 📝 Recommendations"]
   ++ recommendations (high_count dir) (mythril_count dir)
   ++ ["3. Run audits regularly, especially before deployments";
       "";
       "*Generated: " +:+ now +:+ " UTC*"]).

Definition generate_summary (dir : list entry) (now : string) : string :=
  join nl (summary_lines dir now).

End Summary.



(** ** Vocabulary of the properties *)
Module Spec.
Import Py Os.

(** [text] contains [keyword] up to the case of its letters. *)
Definition contains_ci (keyword text : string) : Prop :=
  ∃ a m b, text = a +:+ m +:+ b ∧ str_lower m = keyword.

(** The severity text of a finding: the string under ['impact'], or the
    empty text when the finding has no such key. *)
Definition impact_text (r : json) : option string :=
  match r with
  | JObj kv =>
      match lookup_key "impact" kv with
      | None => Some ""
      | Some (JStr s) => Some s
      | Some _ => None
      end
  | _ => None
  end.

(** The four severity buckets, ["high"] before ["medium"] before ["low"]. *)
Inductive bucket := High | Medium | Low | Informational.

#[global] Instance bucket_eq_dec : EqDecision bucket.
Proof. solve_decision. Defined.

Definition bucket_of (text : string) : bucket :=
  if contains "high" (str_lower text) then High
  else if contains "medium" (str_lower text) then Medium
  else if contains "low" (str_lower text) then Low
  else Informational.

(** Counting one more finding in bucket [b]. *)
Definition bump (b : bucket) (acc : Audit.impacts) : Audit.impacts :=
  match b with
  | High => Audit.Impacts (Audit.high acc + 1) (Audit.medium acc) (Audit.low acc) (Audit.informational acc)
  | Medium => Audit.Impacts (Audit.high acc) (Audit.medium acc + 1) (Audit.low acc) (Audit.informational acc)
  | Low => Audit.Impacts (Audit.high acc) (Audit.medium acc) (Audit.low acc + 1) (Audit.informational acc)
  | Informational => Audit.Impacts (Audit.high acc) (Audit.medium acc) (Audit.low acc) (Audit.informational acc + 1)
  end.

(** The number of findings counted. *)
Definition total (i : Audit.impacts) : nat := Audit.high i + Audit.medium i + Audit.low i + Audit.informational i.

(** How many of [texts] fall into bucket [b]. *)
Definition tally (b : bucket) (texts : list string) : nat :=
  length (List.filter (λ t, bool_decide (bucket_of t = b)) texts).

(** A reports directory whose only file is a Slither report with a single
    finding of the severity text [severity]; [more] are the finding's other
    keys. *)
Definition finding (severity : string) (more : list (string * json)) : json :=
  JObj (("impact", JStr severity) :: more).

Definition slither_report (detectors : list json) : file_data :=
  Doc (JObj [("results", JObj [("detectors", JArr detectors)])]).

Definition one_finding (severity : string) (more : list (string * json)) (mtime : nat)
    : list Summary.entry :=
  [Summary.Entry "slither_report_20250101_100000.json" mtime
     (slither_report [finding severity more])].

(** A Slither report whose only finding names two severities. *)
Definition two_keywords : json :=
  finding "High, Low" [("check", JStr "arbitrary-send"); ("confidence", JStr "Medium")].

Definition two_keywords_dir : list Summary.entry :=
  [Summary.Entry "slither_report_20250101_100000.json" 0 (slither_report [two_keywords])].

(** [s] occurs in [text]. *)
Definition occurs (s text : string) : Prop := ∃ a b, text = a +:+ s +:+ b.

(** A Slither finding and a Mythril issue that follow the schema of their
    tool, and the objects [json.load] decodes them to. *)
Record slither_finding := SlitherFinding {
  f_check : string;
  f_impact : string;
  f_confidence : string;
  f_description : string;
  f_files : list string;     (* the file of each element, in order *)
  f_id : string
}.

Definition element_json (filename : string) : json :=
  JObj [("type", JStr "function");
        ("source_mapping", JObj [("filename", JStr filename)])].

Definition detector_json (f : slither_finding) : json :=
  JObj [("check", JStr (f_check f));
        ("impact", JStr (f_impact f));
        ("confidence", JStr (f_confidence f));
        ("description", JStr (f_description f));
        ("elements", JArr (element_json <$> f_files f));
        ("id", JStr (f_id f))].

Record mythril_issue := MythrilIssue {
  i_title : string;
  i_severity : string;
  i_confidence : string;
  i_description : string;
  i_locations : list (Z * string)     (* start line and source map *)
}.

Definition location_json (l : Z * string) : json :=
  JObj [("start_line", JNum l.1); ("source_map", JStr l.2)].

Definition issue_json (x : mythril_issue) : json :=
  JObj [("title", JStr (i_title x));
        ("severity", JStr (i_severity x));
        ("confidence", JStr (i_confidence x));
        ("description", JStr (i_description x));
        ("locations", JArr (location_json <$> i_locations x))].

(** What the comprehensive report shows of the [i]-th finding and issue. *)
Definition detector_block (i : nat) (f : slither_finding) : list string :=
  [para ("#### " +:+ pretty i +:+ ". " +:+ f_check f);
   line ("**Impact:** " +:+ f_impact f);
   line ("**Confidence:** " +:+ f_confidence f);
   para ("**Description:** " +:+ f_description f)]
  ++ match f_files f with
     | [] => []
     | _ => line "**Affected Files:**"
            :: ((λ filename, line ("- `" +:+ filename +:+ "`")) <$> take 3 (f_files f))
            ++ [nl]
     end
  ++ (if String.eqb (f_id f) "" then []
      else [para ("**Detector ID:** `" +:+ f_id f +:+ "`")]).

Definition issue_block (i : nat) (x : mythril_issue) : list string :=
  [para ("#### " +:+ pretty i +:+ ". " +:+ i_title x);
   line ("**Severity:** " +:+ i_severity x);
   para ("**Description:** " +:+ i_description x)]
  ++ match i_locations x with
     | [] => []
     | _ => line "**Locations:**"
            :: ((λ l, line ("- Line " +:+ pretty l.1 +:+ " in " +:+ l.2)) <$> i_locations x)
            ++ [nl]
     end.

(** How a probe of a tool ([command --version]) ends: the tool is missing
    when the probe exits with an error, times out or finds no program; any
    other exception escapes [check_prerequisites]. *)
Definition is_missing (o : outcome) : bool :=
  match o with
  | Completed returncode _ _ => negb (returncode =? 0)%Z
  | Raised e =>
      match kind e with
      | TimeoutExpired | FileNotFoundError => true
      | _ => false
      end
  end.

Definition escapes (o : outcome) : bool :=
  match o with
  | Completed _ _ _ => false
  | Raised e =>
      match kind e with
      | TimeoutExpired | FileNotFoundError => false
      | _ => true
      end
  end.

(** [r] raises no timeout. *)
Definition no_timeout {A} (r : result A) : Prop :=
  ∀ e, r = Raise e → kind e ≠ TimeoutExpired.

(** The path [p] is there: it is the path of a file, or of a directory above
    a file. *)
Definition present (p : string) (w : world) : Prop :=
  is_Some (files w !! p) ∨ ∃ rest, is_Some (files w !! (p +:+ "/" +:+ rest)).

(** The contracts a session analyses: the one given, or those discovered. *)
Definition contracts_of (self : Audit.auditor) (contract_path : option string) (w : world)
    : list string :=
  match contract_path with
  | Some p => [p]
  | None => Audit.find_contract_files self w
  end.

(** The head of the comprehensive report, up to the time of generation. *)
Definition report_title : string :=
  para "# Rabbit Launchpad Smart Contract Audit Report".

(** A concrete session: two contracts, and external programs. *)
Definition demo_auditor : Audit.auditor :=
  Audit.Auditor "smartcontract/contracts" "reports/audit" "20250101_100000".

Definition demo_world : world :=
  World (<["smartcontract/contracts/TokenA.sol" := Text "contract TokenA {}"]>
           (<["smartcontract/contracts/Vault.sol" := Text "contract Vault {}"]> ∅))
        (Clock "2025-01-01 10:00:00.000001" "20250101_100000") [].


Definition demo_args : Audit.args :=
  Audit.Args "smartcontract/contracts" "reports/audit" None false false false.

(** Every command times out. *)
Definition always_timeout (cmd : list string) (timeout : option nat) (w : world)
    : outcome * world :=
  (Raised (Exn TimeoutExpired "timed out"), w).

(** The [n]-th word of a command. *)
Definition arg (n : nat) (cmd : list string) : string := nth n cmd "".

(** Slither and solc are installed, Mythril is not. *)
Definition myth_missing (cmd : list string) (timeout : option nat) (w : world)
    : outcome * world :=
  if String.eqb (arg 0 cmd) "myth"
  then (Raised (Exn FileNotFoundError "No such file or directory: 'myth'"), w)
  else (Completed 0 "0.10.0" "", w).

Definition demo_issue : mythril_issue :=
  MythrilIssue "Integer Arithmetic Bugs" "High" "Certain"
    "The arithmetic operator can overflow." [(42%Z, "1024:17:0")].

Definition put (path : string) (d : file_data) (w : world) : world :=
  World (<[path := d]> (files w)) (clock w) (calls w).

(** All tools are installed.  Slither reports one finding; Mythril times out
    on [TokenA.sol], answers on the other contracts with one issue, and
    prints text that is not JSON for [Broken.sol]; the gas analysis exits
    with status 1. *)
Definition demo_tools (cmd : list string) (timeout : option nat) (w : world)
    : outcome * world :=
  if String.eqb (arg 1 cmd) "--version" then (Completed 0 "0.10.0" "", w)
  else if String.eqb (arg 0 cmd) "slither" && String.eqb (arg 2 cmd) "--json" then
    (Completed 0 "" "",
     put (arg 3 cmd)
       (slither_report
          [detector_json (SlitherFinding "reentrancy-eth" "High" "Medium"
                            "Reentrancy in Vault.withdraw()"
                            ["smartcontract/contracts/Vault.sol"] "0x1f")]) w)
  else if String.eqb (arg 0 cmd) "myth" then
    if String.eqb (arg 2 cmd) "smartcontract/contracts/TokenA.sol" then
      (Raised (Exn TimeoutExpired "Command timed out after 300 seconds"), w)
    else if String.eqb (arg 2 cmd) "smartcontract/contracts/Broken.sol" then
      (Completed 0 "" "", put (arg 8 cmd) (Text "Traceback (most recent call last):") w)
    else
      (Completed 0 "" "",
       put (arg 8 cmd) (Doc (JObj [("issues", JArr [issue_json demo_issue])])) w)
  else if String.eqb (arg 0 cmd) "slither" && String.eqb (arg 2 cmd) "--print" then
    (Completed 1 "INFO:Printers:" "compilation warnings", w)
  else (Raised (Exn FileNotFoundError "No such file or directory"), w).

End Spec.

(** ** Further vocabulary *)
Module More.
Import Py Os.

(** An analysis run that did not end with exit status 0. *)
Definition failing (o : outcome) : bool :=
  match o with
  | Completed returncode _ _ => negb (returncode =? 0)%Z
  | Raised _ => true
  end.

(** A finding the impact analysis can count: an object whose ['impact'] is a
    string or absent. *)
Definition countable (r : json) : bool :=
  match Spec.impact_text r with Some _ => true | None => false end.

(** A value the slice [[:100]] can be taken of. *)
Definition sliceable (v : json) : bool :=
  match v with
  | JStr _ | JArr _ => true
  | _ => false
  end.

(** An issue the log line of [run_mythril_analysis] can be made of: an object
    whose ['description'] is a string or a list, or absent. *)
Definition loggable (issue : json) : bool :=
  match issue with
  | JObj kv =>
      match lookup_key "description" kv with
      | Some v => sliceable v
      | None => true
      end
  | _ => false
  end.

(** A value that counts as true and cannot be iterated over: a number other
    than 0, or [true]. *)
Definition scalar (v : json) : bool :=
  match v with
  | JNum n => negb (n =? 0)%Z
  | JBool b => b
  | _ => false
  end.

(** [r] is an exception. *)
Definition raises {A} (r : result A) : Prop := ∃ e, r = Raise e.

(** The output file of Mythril, as [json.load] decodes it. *)
Definition mythril_report (issues : list json) : file_data :=
  Doc (JObj [("issues", JArr issues)]).

(** The commands [check_prerequisites] probes the tools with. *)
Definition probes : list (list string) :=
  (λ t : string * string, [t.2; "--version"]) <$> Audit.tools.

(** The three tools answer their probe; every analysis exits with status 1. *)
Definition analyses_fail (cmd : list string) (timeout : option nat) (w : world)
    : outcome * world :=
  match cmd with
  | [_; flag] =>
      if String.eqb flag "--version" then (Completed 0 "0.10.0" "", w)
      else (Completed 1 "" "Traceback (most recent call last):", w)
  | _ => (Completed 1 "" "Traceback (most recent call last):", w)
  end.


(** Every command exits with status 0 and writes nothing. *)
Definition silent_tools (cmd : list string) (timeout : option nat) (w : world)
    : outcome * world :=
  (Completed 0 "" "", w).

(** A reports and contracts tree without a file. *)
Definition empty_world : world :=
  World ∅ (Clock "2025-01-01 10:00:00.000001" "20250101_100000") [].

(** Slither and solc are installed; Mythril is there but may not be run. *)
Definition myth_forbidden (cmd : list string) (timeout : option nat) (w : world)
    : outcome * world :=
  if String.eqb (Spec.arg 0 cmd) "myth"
  then (Raised (Exn OSError "[Errno 13] Permission denied: 'myth'"), w)
  else (Completed 0 "0.10.0" "", w).

(** All tools are installed and exit with status 0.  Slither leaves no
    report; Mythril reports one issue, whose ['locations'] is a number. *)
Definition odd_issue : json :=
  JObj [("title", JStr "Integer Arithmetic Bugs"); ("severity", JStr "High");
        ("description", JStr "The arithmetic operator can overflow.");
        ("locations", JNum 42)].

Definition odd_tools (cmd : list string) (timeout : option nat) (w : world)
    : outcome * world :=
  if String.eqb (Spec.arg 0 cmd) "myth" && String.eqb (Spec.arg 1 cmd) "analyze"
  then (Completed 0 "" "", Spec.put (Spec.arg 8 cmd) (mythril_report [odd_issue]) w)
  else (Completed 0 "" "", w).

(** The files of a reports directory the summary reads: the newest Slither
    report and every Mythril report. *)
Definition newest_slither (dir : list Summary.entry) : list Summary.entry :=
  match Summary.glob "slither_report_" ".json" dir with
  | [] => []
  | e :: rest => [Summary.newest e rest]
  end.

Definition read_by_summary (dir : list Summary.entry) : list Summary.entry :=
  newest_slither dir ++ Summary.glob "mythril_report_" ".json" dir.

(** How many of [texts] mention [keyword], whatever the case of the letters. *)
Definition mentioning (keyword : string) (texts : list string) : nat :=
  length (List.filter (λ t, contains keyword (str_lower t)) texts).

(** The finding [r] mentions [keyword] in its severity text. *)
Definition has_keyword (keyword : string) (r : json) : bool :=
  match Spec.impact_text r with
  | Some t => contains keyword (str_lower t)
  | None => false
  end.

(** What the summary shows of the [i]-th finding of high impact. *)
Definition priority_block (i : nat) (f : Spec.slither_finding) : list string :=
  [pretty i +:+ ". **" +:+ Spec.f_check f +:+ "**";
   "   - *" +:+ take_chars 100 (Spec.f_description f) +:+ "...*"].

(** A reports directory with a Slither report that breaks off after its
    first brace, newer than a readable one with a finding of high impact. *)
Definition stale_dir : list Summary.entry :=
  [Summary.Entry "slither_report_20250101_100000.json" 10
     (Spec.slither_report [Spec.finding "High" []]);
   Summary.Entry "slither_report_20250102_100000.json" 20 (Text "{");
   Summary.Entry "comprehensive_audit_report_20250102_100000.md" 30 (Text "# Report")].

End More.

(** * Properties *)
(** ** Strings *)
Section StringFacts.
Import Py.

Lemma app_cons_s (x : ascii) (a b : string) : String x a +:+ b = String x (a +:+ b).
Proof. reflexivity. Qed.

Lemma app_empty_s (b : string) : "" +:+ b = b.
Proof. reflexivity. Qed.

Lemma app_assoc_s (a b c : string) : (a +:+ b) +:+ c = a +:+ (b +:+ c).
Proof. induction a as [|x a IH]; [done | by rewrite !app_cons_s, IH]. Qed.

Lemma app_nil_s (a : string) : a +:+ "" = a.
Proof. induction a as [|x a IH]; [done | by rewrite app_cons_s, IH]. Qed.

Lemma prefix_spec (p s : string) :
  String.prefix p s = true ↔ ∃ r, s = p +:+ r.
Proof.
  revert p. induction s as [|y s IH]; intros [|x p]; simpl.
  - split; [by exists "" | done].
  - split; [done | by intros [r Hr]].
  - split; [by exists (String y s) | done].
  - destruct (ascii_dec x y) as [->|Hne].
    + rewrite IH. split; intros [r Hr]; exists r.
      * by rewrite app_cons_s, Hr.
      * rewrite app_cons_s in Hr. by injection Hr.
    + split; [done | intros [r Hr]; rewrite app_cons_s in Hr; injection Hr; congruence].
Qed.

Lemma startswith_spec (s p : string) :
  startswith s p = true ↔ ∃ r, s = p +:+ r.
Proof. apply prefix_spec. Qed.

Lemma contains_nil (needle : string) :
  contains needle "" = String.prefix needle "".
Proof. unfold contains. by rewrite orb_false_r. Qed.

Lemma contains_cons (needle : string) (x : ascii) (hay : string) :
  contains needle (String x hay) = String.prefix needle (String x hay) || contains needle hay.
Proof. reflexivity. Qed.

Lemma contains_spec (needle hay : string) :
  contains needle hay = true ↔ ∃ a b, hay = a +:+ needle +:+ b.
Proof.
  induction hay as [|x hay IH].
  - rewrite contains_nil, prefix_spec. split.
    + intros [r Hr]. by exists "", r.
    + intros (a & b & H). destruct a; [by exists b | done].
  - rewrite contains_cons, orb_true_iff, IH, prefix_spec. split.
    + intros [[r Hr] | (a & b & H)]; [by exists "", r |].
      exists (String x a), b. by rewrite app_cons_s, H.
    + intros (a & b & H). destruct a as [|y a]; [left; by exists b |].
      right. exists a, b. rewrite app_cons_s in H. by injection H.
Qed.

Lemma endswith_nil (p : string) : endswith "" p = String.eqb "" p.
Proof. unfold endswith. by rewrite orb_false_r. Qed.

Lemma endswith_cons (x : ascii) (s p : string) :
  endswith (String x s) p = String.eqb (String x s) p || endswith s p.
Proof. reflexivity. Qed.

Lemma endswith_spec (s p : string) :
  endswith s p = true ↔ ∃ r, s = r +:+ p.
Proof.
  induction s as [|x s IH].
  - rewrite endswith_nil, String.eqb_eq. split.
    + intros <-. by exists "".
    + intros [r Hr]. by destruct r.
  - rewrite endswith_cons, orb_true_iff, String.eqb_eq, IH. split.
    + intros [<- | [r Hr]]; [by exists "" |]. exists (String x r). by rewrite app_cons_s, Hr.
    + intros [r Hr]. destruct r as [|y r]; [by left |].
      right. exists r. rewrite app_cons_s in Hr. by injection Hr.
Qed.

Lemma str_lower_app (a b : string) : str_lower (a +:+ b) = str_lower a +:+ str_lower b.
Proof. induction a as [|x a IH]; [done |]. rewrite app_cons_s. simpl. by rewrite IH. Qed.

(** Splitting a lower-cased text splits the text. *)
Lemma str_lower_split (t a b : string) :
  str_lower t = a +:+ b → ∃ a' b', t = a' +:+ b' ∧ str_lower a' = a ∧ str_lower b' = b.
Proof.
  revert a. induction t as [|x t IH]; intros a H; simpl in H.
  - destruct a; [|done]. rewrite app_empty_s in H. subst b. by exists "", "".
  - destruct a as [|y a].
    + rewrite app_empty_s in H. subst b. by exists "", (String x t).
    + rewrite app_cons_s in H. injection H as Hy Ht.
      destruct (IH _ Ht) as (a' & b' & -> & <- & <-).
      exists (String x a'), b'. simpl. by rewrite Hy.
Qed.

End StringFacts.

(** ** Impact analysis *)
Section ImpactFacts.
Import Py Audit Spec.

Lemma contains_lower (keyword text : string) :
  contains keyword (str_lower text) = true ↔ contains_ci keyword text.
Proof.
  rewrite contains_spec. split.
  - intros (a & b & H).
    destruct (str_lower_split _ _ _ H) as (a' & r & -> & <- & Hr).
    destruct (str_lower_split _ _ _ Hr) as (m & b' & -> & <- & <-).
    by exists a', m, b'.
  - intros (a & m & b & -> & <-).
    exists (str_lower a), (str_lower b). by rewrite !str_lower_app.
Qed.

(** The buckets, in the words of the policy. *)
Lemma bucket_of_spec (text : string) :
  (bucket_of text = High ↔ contains_ci "high" text)
  ∧ (bucket_of text = Medium ↔ ¬ contains_ci "high" text ∧ contains_ci "medium" text)
  ∧ (bucket_of text = Low ↔
       ¬ contains_ci "high" text ∧ ¬ contains_ci "medium" text ∧ contains_ci "low" text)
  ∧ (bucket_of text = Informational ↔
       ¬ contains_ci "high" text ∧ ¬ contains_ci "medium" text ∧ ¬ contains_ci "low" text).
Proof.
  unfold bucket_of. rewrite <- !contains_lower.
  destruct (contains "high" _), (contains "medium" _), (contains "low" _);
    repeat split; intros; try done; try tauto; naive_solver.
Qed.

Lemma count_impact_text (acc : impacts) (r : json) (t : string) :
  impact_text r = Some t → count_impact acc r = Ok (bump (bucket_of t) acc).
Proof.
  unfold impact_text, count_impact, bucket_of. destruct r as [| | | |l|kv]; try done.
  simpl. destruct (lookup_key "impact" kv) as [[| | |s| |]|]; try done;
    intros [= <-]; simpl; by repeat case_match.
Qed.

(** A finding is counted only if it is an object whose ['impact'] is a text. *)
Lemma count_impact_ok (acc acc' : impacts) (r : json) :
  count_impact acc r = Ok acc' → ∃ t, impact_text r = Some t ∧ acc' = bump (bucket_of t) acc.
Proof.
  intros H. destruct r as [| | | |l|kv]; try done.
  assert (∃ t, impact_text (JObj kv) = Some t) as [t Ht].
  { unfold count_impact, impact_text in *. simpl in H.
    destruct (lookup_key "impact" kv) as [[| | |s| |]|]; try done; eauto. }
  exists t. split; [done |]. rewrite (count_impact_text _ _ _ Ht) in H. by injection H.
Qed.

Lemma total_bump (b : bucket) (acc : impacts) : total (bump b acc) = S (total acc).
Proof. destruct b; unfold total; simpl; lia. Qed.

Lemma tally_cons (b : bucket) (t : string) (texts : list string) :
  tally b (t :: texts) = (if bool_decide (bucket_of t = b) then 1 else 0) + tally b texts.
Proof. unfold tally. simpl. by case_bool_decide. Qed.

Lemma fold_count_texts (rs : list json) (texts : list string) (acc : impacts) :
  Forall2 (λ r t, impact_text r = Some t) rs texts →
  foldM count_impact acc rs =
    Ok (Impacts (high acc + tally High texts) (medium acc + tally Medium texts)
          (low acc + tally Low texts) (informational acc + tally Informational texts)).
Proof.
  intros H. revert acc. induction H as [|r t rs texts Hr _ IH]; intros acc.
  - simpl. unfold tally. simpl. destruct acc. simpl. by rewrite !Nat.add_0_r.
  - simpl. rewrite (count_impact_text _ _ _ Hr). simpl. rewrite IH, !tally_cons.
    destruct (bucket_of t); simpl; f_equal; f_equal; lia.
Qed.

Lemma fold_count_total (rs : list json) (acc imp : impacts) :
  foldM count_impact acc rs = Ok imp → total imp = total acc + length rs.
Proof.
  revert acc. induction rs as [|r rs IH]; intros acc; simpl.
  - intros [= <-]. lia.
  - destruct (count_impact acc r) as [acc'|e] eqn:Hc; [|done]. simpl.
    intros H. rewrite (IH _ H).
    destruct (count_impact_ok _ _ _ Hc) as (t & _ & ->). rewrite total_bump. lia.
Qed.

Lemma tally_total (texts : list string) :
  tally High texts + tally Medium texts + tally Low texts + tally Informational texts
  = length texts.
Proof.
  induction texts as [|t texts IH]; [done |]. rewrite !tally_cons. simpl.
  destruct (bucket_of t); simpl; lia.
Qed.

End ImpactFacts.

(** ** Order of paths and discovery *)
Section DiscoveryFacts.
Import Py Os Audit Spec.

Lemma string_compare_lt_trans (a b c : string) :
  String.compare a b = Lt → String.compare b c = Lt → String.compare a c = Lt.
Proof.
  revert b c. induction a as [|x a IH]; intros [|y b] [|z c]; simpl; try done.
  unfold Ascii.compare.
  destruct (N.compare_spec (N_of_ascii x) (N_of_ascii y)) as [Hxy|Hxy|Hxy]; try done;
    destruct (N.compare_spec (N_of_ascii y) (N_of_ascii z)) as [Hyz|Hyz|Hyz]; try done;
    intros H1 H2.
  - rewrite Hxy, Hyz, N.compare_refl. eauto.
  - rewrite Hxy. by apply N.compare_lt_iff in Hyz as ->.
  - rewrite <- Hyz. by apply N.compare_lt_iff in Hxy as ->.
  - assert (N_of_ascii x < N_of_ascii z)%N as Hxz by lia.
    by apply N.compare_lt_iff in Hxz as ->.
Qed.

Lemma parts_compare_antisym (p q : list string) :
  parts_compare p q = CompOpp (parts_compare q p).
Proof.
  revert q. induction p as [|a p IH]; intros [|b q]; simpl; try done.
  rewrite (String.compare_antisym b a).
  destruct (String.compare a b); simpl; auto.
Qed.

Lemma parts_compare_eq (p q : list string) : parts_compare p q = Eq → p = q.
Proof.
  revert q. induction p as [|a p IH]; intros [|b q]; simpl; try done.
  destruct (String.compare a b) eqn:Hab; try done.
  apply String.compare_eq_iff in Hab as ->. intros H. by rewrite (IH _ H).
Qed.

Lemma parts_compare_lt_trans (p q r : list string) :
  parts_compare p q = Lt → parts_compare q r = Lt → parts_compare p r = Lt.
Proof.
  revert q r. induction p as [|a p IH]; intros [|b q] [|c r]; simpl; try done.
  destruct (String.compare a b) eqn:Hab; try done;
    destruct (String.compare b c) eqn:Hbc; try done; intros H1 H2.
  - apply String.compare_eq_iff in Hab as ->. rewrite Hbc. eauto.
  - apply String.compare_eq_iff in Hab as ->. by rewrite Hbc.
  - apply String.compare_eq_iff in Hbc as <-. by rewrite Hab.
  - by rewrite (string_compare_lt_trans _ _ _ Hab Hbc).
Qed.

Lemma split_on_cons (sep : ascii) (s : string) :
  ∃ w ws, split_on sep s = w :: ws.
Proof.
  induction s as [|x s (w & ws & IH)]; simpl; [by eauto |].
  destruct (Ascii.eqb x sep); [by eauto |]. rewrite IH. eauto.
Qed.

(** Splitting a path into its parts loses nothing. *)
Lemma split_on_inj (sep : ascii) (s t : string) : split_on sep s = split_on sep t → s = t.
Proof.
  revert t. induction s as [|x s IH]; intros [|y t]; simpl; try done.
  - destruct (split_on_cons sep t) as (v & vs & Ht). rewrite Ht.
    by destruct (Ascii.eqb y sep).
  - destruct (split_on_cons sep s) as (u & us & Hs). rewrite Hs.
    by destruct (Ascii.eqb x sep).
  - destruct (split_on_cons sep s) as (u & us & Hs).
    destruct (split_on_cons sep t) as (v & vs & Ht). rewrite Hs, Ht.
    destruct (Ascii.eqb x sep) eqn:Hx, (Ascii.eqb y sep) eqn:Hy; try done.
    + apply Ascii.eqb_eq in Hx as ->. apply Ascii.eqb_eq in Hy as ->.
      intros [= -> ->]. rewrite (IH t); [done |]. by rewrite Hs, Ht.
    + intros [= -> -> ->]. rewrite (IH t); [done |]. by rewrite Hs, Ht.
Qed.

Lemma path_le_total : Total path_le.
Proof.
  intros p q. unfold path_le, path_ltb.
  rewrite (parts_compare_antisym (parts p) (parts q)).
  destruct (parts_compare (parts q) (parts p)); auto.
Qed.

Lemma path_le_trans : Transitive path_le.
Proof.
  intros p q r. unfold path_le, path_ltb. intros Hpq Hqr.
  destruct (parts_compare (parts r) (parts p)) eqn:Hrp; try done.
  destruct (parts_compare (parts q) (parts p)) eqn:Hqp; try done.
  - apply parts_compare_eq in Hqp. rewrite Hqp in Hqr. by rewrite Hrp in Hqr.
  - rewrite parts_compare_antisym in Hqp.
    destruct (parts_compare (parts p) (parts q)) eqn:Hpq'; try done.
    rewrite (parts_compare_lt_trans _ _ _ Hrp Hpq') in Hqr. done.
Qed.

Lemma path_le_antisym (p q : string) : path_le p q → path_le q p → p = q.
Proof.
  unfold path_le, path_ltb. intros H1 H2.
  rewrite parts_compare_antisym in H2.
  destruct (parts_compare (parts q) (parts p)) eqn:H; try done.
  apply parts_compare_eq in H. symmetry. by apply (split_on_inj "/").
Qed.

Lemma elem_of_filter_bool {A} (f : A → bool) (l : list A) (x : A) :
  x ∈ List.filter f l ↔ x ∈ l ∧ f x = true.
Proof. rewrite !list_elem_of_In. apply filter_In. Qed.

Lemma NoDup_filter_bool {A} (f : A → bool) (l : list A) :
  NoDup l → NoDup (List.filter f l).
Proof. rewrite !NoDup_ListNoDup. apply List.NoDup_filter. Qed.

Lemma elem_of_ancestors_from (above path p : string) :
  p ∈ ancestors_from above path ↔ ∃ a rest, path = a +:+ "/" +:+ rest ∧ p = above +:+ a.
Proof.
  revert above. induction path as [|c path IH]; intros above; cbn [ancestors_from].
  - split; [by intros ?%elem_of_nil |]. intros (a & rest & H & _). by destruct a.
  - rewrite elem_of_app, IH. split.
    + intros [H|(a & rest & -> & ->)].
      * destruct (Ascii.eqb c "/") eqn:Hc; [|by apply elem_of_nil in H].
        apply Ascii.eqb_eq in Hc as ->. apply list_elem_of_singleton in H as ->.
        exists "", path. by rewrite app_nil_s.
      * exists (String c a), rest. split; [done |]. by rewrite app_assoc_s.
    + intros (a & rest & H & ->). destruct a as [|x a].
      * left. rewrite app_empty_s in H. injection H as -> ->. rewrite Ascii.eqb_refl.
        apply list_elem_of_singleton. by rewrite app_nil_s.
      * right. rewrite app_cons_s in H. injection H as -> ->. exists a, rest.
        split; [done |]. by rewrite app_assoc_s.
Qed.

Lemma elem_of_ancestors (path p : string) :
  p ∈ ancestors path ↔ ∃ rest, path = p +:+ "/" +:+ rest.
Proof.
  unfold ancestors. rewrite elem_of_ancestors_from. split.
  - intros (a & rest & -> & ->). by exists rest.
  - intros (rest & ->). by exists p, rest.
Qed.

Lemma elem_of_paths (w : world) (p : string) : p ∈ paths w ↔ present p w.
Proof.
  unfold paths, present. rewrite elem_of_remove_dups, elem_of_app, list_elem_of_bind.
  setoid_rewrite list_elem_of_fmap. setoid_rewrite elem_of_ancestors.
  assert (∀ q, (∃ y : string * file_data, q = y.1 ∧ y ∈ map_to_list (files w))
               ↔ is_Some (files w !! q)) as Hkey.
  { intros q. split.
    - intros ([q' d] & -> & Hd). apply elem_of_map_to_list in Hd. by eexists.
    - intros [d Hd]. exists (q, d). split; [done |]. by apply elem_of_map_to_list. }
  rewrite Hkey. split.
  - intros [H|(q & (rest & ->) & Hq)]; [by left | right]. exists rest. by apply Hkey.
  - intros [H|(rest & H)]; [by left | right].
    exists (p +:+ "/" +:+ rest). split; [by exists rest | by apply Hkey].
Qed.

Lemma elem_of_glob_sol (self : auditor) (w : world) (p : string) :
  p ∈ glob_sol self w ↔
    present p w
    ∧ startswith p (contracts_dir self +:+ "/") = true
    ∧ endswith (name p) ".sol" = true.
Proof. unfold glob_sol. by rewrite elem_of_filter_bool, andb_true_iff, elem_of_paths. Qed.

Lemma NoDup_glob_sol (self : auditor) (w : world) : NoDup (glob_sol self w).
Proof. apply NoDup_filter_bool, NoDup_remove_dups. Qed.

End DiscoveryFacts.

Section Discovery.
Import Py Os Audit Spec More.



End Discovery.

(** ** The summary and its verdict *)
Section SummaryFacts.
Import Py Os Summary Spec.

Lemma assess_spec (h m : nat) :
  (assess h m = Some NONE ↔ h = 0 ∧ m = 0)
  ∧ (assess h m = Some CRITICAL ↔ 0 < h)
  ∧ (assess h m = Some WARNING ↔ h = 0 ∧ 0 < m).
Proof.
  unfold assess. destruct h as [|h], m as [|m]; simpl; repeat split; intros; try done;
    try lia; naive_solver lia.
Qed.

Lemma assess_total (h m : nat) : ∃ v, assess h m = Some v.
Proof. unfold assess. destruct h, m; simpl; eauto. Qed.

(** C1 (amended).  The verdict of a session is NONE exactly when the count of
    high-impact Slither findings is 0 and the count of Mythril issues is 0,
    CRITICAL exactly when the high count is positive, and WARNING exactly when
    the high count is 0 and there are Mythril issues; the summary carries the
    line of that verdict.  A session whose only finding is one Slither finding
    of severity "High" is CRITICAL; with the severity changed to "Low" it is
    NONE: Slither findings below high do not make a WARNING. *)
Theorem session_verdict_spec (dir : list entry) :
  (session_verdict dir = Some NONE ↔ high_count dir = 0 ∧ mythril_count dir = 0)
  ∧ (session_verdict dir = Some CRITICAL ↔ 0 < high_count dir)
  ∧ (session_verdict dir = Some WARNING ↔ high_count dir = 0 ∧ 0 < mythril_count dir)
  ∧ (∀ now, ∃ v, session_verdict dir = Some v
        ∧ assessment_line (high_count dir) (mythril_count dir) v ∈ summary_lines dir now)
  ∧ (∀ more mtime,
        session_verdict (one_finding "High" more mtime) = Some CRITICAL
        ∧ session_verdict (one_finding "Low" more mtime) = Some NONE).
Proof.
  unfold session_verdict.
  destruct (assess_spec (high_count dir) (mythril_count dir)) as (H1 & H2 & H3).
  split; [tauto |]. split; [tauto |]. split; [tauto |]. split.
  - intros now. destruct (assess_total (high_count dir) (mythril_count dir)) as [v Hv].
    exists v. split; [done |]. unfold summary_lines, session_verdict. rewrite Hv.
    rewrite !elem_of_app. right. right. right. right. left. apply list_elem_of_singleton.
    done.
  - intros more mtime. split; vm_compute; reflexivity.
Qed.

(** C1, as stated, fails: one finding of severity "Low" leaves the findings
    non-empty, and the verdict is NONE, not WARNING. *)
Lemma low_finding_is_not_warning :
  let more := [("check", JStr "reentrancy-benign"); ("confidence", JStr "Medium")] in
  session_verdict (one_finding "High" more 0) = Some CRITICAL
  ∧ session_verdict (one_finding "Low" more 0) = Some NONE
  ∧ session_verdict (one_finding "Low" more 0) ≠ Some WARNING.
Proof. vm_compute. repeat split; done. Qed.

End SummaryFacts.

Section Classification.
Import Py Os Audit Spec.

(** Whenever [_analyze_impacts] returns, its four counts add up to the number
    of values iterated over. *)
Lemma analyze_impacts_total (results : json) (imp : impacts) :
  _analyze_impacts results = Ok imp →
  ∃ rs, iter results = Ok rs
    ∧ high imp + medium imp + low imp + informational imp = length rs.
Proof.
  unfold _analyze_impacts. destruct (iter results) as [rs|e]; [|done]. simpl.
  intros H. exists rs. split; [done |]. apply fold_count_total in H. unfold total in H.
  simpl in H. lia.
Qed.

(** C10.  On a list of findings, each with a severity text (or none),
    [_analyze_impacts] returns counts that partition the list: each bucket
    counts the findings whose text falls into it, ["high"] before ["medium"]
    before ["low"], and the four counts add up to the length of the list. *)
Theorem analyze_impacts_partition (rs : list json) (texts : list string)
    (H : Forall2 (λ r t, impact_text r = Some t) rs texts) :
  ∃ imp, _analyze_impacts (JArr rs) = Ok imp
    ∧ high imp = tally High texts
    ∧ medium imp = tally Medium texts
    ∧ low imp = tally Low texts
    ∧ informational imp = tally Informational texts
    ∧ high imp + medium imp + low imp + informational imp = length rs.
Proof.
  unfold _analyze_impacts. simpl. rewrite (fold_count_texts _ _ _ H). simpl.
  eexists. split; [done |]. simpl. repeat split.
  rewrite tally_total. symmetry. by apply Forall2_length in H.
Qed.

Lemma analyze_impacts_partition_witness :
  let rs := [finding "High" []; finding "medium-high" []; JObj []; finding "LOW" [];
             finding "Optimization" []] in
  let texts := ["High"; "medium-high"; ""; "LOW"; "Optimization"] in
  Forall2 (λ r t, impact_text r = Some t) rs texts
  ∧ ∃ imp, _analyze_impacts (JArr rs) = Ok imp
      ∧ high imp = tally High texts
      ∧ medium imp = tally Medium texts
      ∧ low imp = tally Low texts
      ∧ informational imp = tally Informational texts
      ∧ high imp + medium imp + low imp + informational imp = length rs.
Proof.
  intros rs texts.
  assert (Forall2 (λ r t, impact_text r = Some t) rs texts) as H
    by (repeat constructor).
  split; [exact H | exact (analyze_impacts_partition rs texts H)].
Defined.

(** C2, at the failing input.  [_analyze_impacts] puts a finding whose text
    names two severities into the first bucket only; the summary lists the
    same finding under both. *)
Theorem summary_counts_finding_twice (now : string) :
  _analyze_impacts (JArr [two_keywords]) = Ok (Impacts 1 0 0 0)
  ∧ take 5 (drop 2 (Summary.summary_lines two_keywords_dir now))
    = ["#### 🔍 Slither Analysis";
       "- **High Impact:** 1";
       "- **Medium Impact:** 0";
       "- **Low Impact:** 1";
       "- **Informational:** 0"].
Proof. split; vm_compute; reflexivity. Qed.

End Classification.

(** ** The analyses of the auditor *)
Section InvocationFacts.
Import Py Os Audit.

Variable subprocess_run : list string → option nat → world → outcome * world.
Variable self : auditor.

Lemma run_eq (cmd : list string) (timeout : option nat) (w : world) :
  run subprocess_run cmd timeout w
  = ((subprocess_run cmd timeout w).1,
     World (files (subprocess_run cmd timeout w).2) (clock (subprocess_run cmd timeout w).2)
       (calls w ++ [cmd])).
Proof. unfold run. by destruct (subprocess_run cmd timeout w). Qed.

Lemma run_slither_calls (contract_path : option string) (w : world) :
  calls (run_slither_analysis subprocess_run self contract_path w).2
  = calls w ++ [slither_cmd self contract_path].
Proof. unfold run_slither_analysis. rewrite run_eq. done. Qed.

Lemma run_slither_files (contract_path : option string) (w : world) :
  files (run_slither_analysis subprocess_run self contract_path w).2
  = files (subprocess_run (slither_cmd self contract_path) (Some 300) w).2.
Proof. unfold run_slither_analysis. rewrite run_eq. done. Qed.

Lemma run_mythril_calls (contract_path : string) (w : world) :
  calls (run_mythril_analysis subprocess_run self contract_path w).2
  = calls w ++ [mythril_cmd self contract_path].
Proof. unfold run_mythril_analysis. rewrite run_eq. done. Qed.

Lemma run_mythril_files (contract_path : string) (w : world) :
  files (run_mythril_analysis subprocess_run self contract_path w).2
  = files (subprocess_run (mythril_cmd self contract_path) (Some 300) w).2.
Proof. unfold run_mythril_analysis. rewrite run_eq. done. Qed.


Lemma run_gas_calls (contract_path : string) (w : world) :
  calls (run_gas_analysis subprocess_run self contract_path w).2
  = calls w ++ [gas_cmd contract_path].
Proof. unfold run_gas_analysis. rewrite run_eq. by case_match. Qed.


Lemma run_gas_files (contract_path : string) (w : world) :
  files (run_gas_analysis subprocess_run self contract_path w).2
  = match subprocess_run (gas_cmd contract_path) (Some 120) w with
    | (Completed _ stdout stderr, w') =>
        <[gas_output_file self contract_path :=
            Text (gas_report contract_path (now_str (clock w')) stdout stderr)]> (files w')
    | (Raised _, w') => files w'
    end.
Proof.
  unfold run_gas_analysis. rewrite run_eq.
  destruct (subprocess_run (gas_cmd contract_path) (Some 120) w) as [[rc out err|e] w']; done.
Qed.




(** The loops over the contracts. *)
Lemma run_each_calls {R} (analysis : string → world → R * world) (cmd : string → list string)
    (cs : list string) (w : world) :
  (∀ c w, calls (analysis c w).2 = calls w ++ [cmd c]) →
  calls (run_each analysis cs w).2 = calls w ++ (cmd <$> cs).
Proof.
  intros H. revert w. induction cs as [|c cs IH]; intros w; simpl.
  - by rewrite app_nil_r.
  - specialize (H c w). destruct (analysis c w) as [r w'] eqn:Ha. simpl in H.
    specialize (IH w'). destruct (run_each analysis cs w') as [rs w''] eqn:Hr.
    simpl in *. rewrite IH, H. by rewrite <- app_assoc.
Qed.



End InvocationFacts.

(** ** Writing the report *)
Section WriterFacts.
Import Py Os Audit Spec.

Lemma wbind_ok {A B} (m : writer A) (f : A → writer B) (out : list string) (b : B) :
  wbind m f = (out, Ok b) →
  ∃ o1 a o2, m = (o1, Ok a) ∧ f a = (o2, Ok b) ∧ out = o1 ++ o2.
Proof.
  destruct m as [o1 [a|e]]; simpl; [|done].
  destruct (f a) as [o2 r] eqn:Hf. intros [= <- ->]. by exists o1, a, o2.
Qed.

Lemma wbind_pure {A B} (o : list string) (a : A) (f : A → writer B) :
  wbind (o, Ok a) f = (o ++ (f a).1, (f a).2).
Proof. simpl. by destruct (f a). Qed.

Lemma wbind_write {B} (s : string) (f : unit → writer B) :
  wbind (write s) f = (s :: (f tt).1, (f tt).2).
Proof. unfold write. by rewrite wbind_pure. Qed.



(** The loops of the report over findings that follow the schema. *)
Lemma for_each_blocks {A} (body : nat * json → writer unit) (mk : A → json)
    (block : nat → A → list string) :
  (∀ i x, body (i, mk x) = (block i x, Ok tt)) →
  ∀ k xs,
    for_each body (zip (seq k (length (mk <$> xs))) (mk <$> xs))
    = (concat (imap (λ i x, block (k + i) x) xs), Ok tt).
Proof.
  intros H k xs. revert k. induction xs as [|x xs IH]; intros k; [done |].
  rewrite fmap_cons. cbn [length seq zip zip_with for_each].
  rewrite H, wbind_pure, IH. cbn [fst snd imap concat]. rewrite Nat.add_0_r.
  do 3 f_equal. apply imap_ext. intros i y _. simpl. f_equal. lia.
Qed.

Lemma concat_cons_s (x : string) (l : list string) :
  String.concat "" (x :: l) = x +:+ String.concat "" l.
Proof. destruct l; [by rewrite app_nil_s | done]. Qed.

Lemma concat_app_s (a b : list string) :
  String.concat "" (a ++ b) = String.concat "" a +:+ String.concat "" b.
Proof.
  induction a as [|x a IH]; [done |].
  rewrite <- app_comm_cons, !concat_cons_s, IH. by rewrite app_assoc_s.
Qed.

Lemma occurs_concat (pre o post : list string) :
  occurs (String.concat "" o) (String.concat "" (pre ++ o ++ post)).
Proof. rewrite !concat_app_s. by eexists _, _. Qed.

Lemma occurs_app_l (s a text : string) : occurs s text → occurs s (a +:+ text).
Proof. intros (x & y & ->). exists (a +:+ x), y. by rewrite app_assoc_s. Qed.

End WriterFacts.

Section ReportFacts.
Import Py Os Audit Spec.

Variable self : auditor.

Lemma find_contract_files_files (w w' : world) :
  files w = files w' → find_contract_files self w = find_contract_files self w'.
Proof. intros H. unfold find_contract_files, glob_sol, paths. by rewrite H. Qed.

Lemma render_body_files (slither : slither_results) (mythril : list mythril_results)
    (gas : list gas_results) (w w' : world) :
  files w = files w' →
  render_body self slither mythril gas w = render_body self slither mythril gas w'.
Proof.
  intros H. unfold render_body, render_summary, render_slither.
  by rewrite (find_contract_files_files w w' H), H.
Qed.

(** The text of the report: three chunks of header, then the body. *)
Lemma generate_report_eq (slither : slither_results) (mythril : list mythril_results)
    (gas : list gas_results) (w : world) :
  generate_comprehensive_report self slither mythril gas w
  = let body := render_body self slither mythril gas (write_file (report_file self) "" w) in
    (let* _ := body.2 in Ok (report_file self),
     write_file (report_file self)
       (para "# Rabbit Launchpad Smart Contract Audit Report"
        +:+ line ("**Generated:** " +:+ now_str (clock w))
        +:+ para ("**Timestamp:** " +:+ timestamp self)
        +:+ String.concat "" body.1) w).
Proof.
  unfold generate_comprehensive_report, render_report, render_header.
  cbn [wbind write]. cbn [app].
  destruct (render_body _ _ _ _ _) as [out r]. cbn [fst snd].
  by rewrite !concat_cons_s.
Qed.

(** C9.  The report is a function of the session (the auditor with its
    timestamp, the three results, the files on disk) and the clock; the clock
    shows in the line [**Generated:**] and nowhere else.  Two renderings of the
    same session end alike, and their texts are equal before and after that
    line. *)
Theorem report_is_deterministic (slither : slither_results) (mythril : list mythril_results)
    (gas : list gas_results) (w1 w2 : world) (Hfiles : files w1 = files w2) :
  let r1 := generate_comprehensive_report self slither mythril gas w1 in
  let r2 := generate_comprehensive_report self slither mythril gas w2 in
  r1.1 = r2.1
  ∧ ∃ rest,
      files r1.2 = <[report_file self :=
        Text (para "# Rabbit Launchpad Smart Contract Audit Report"
              +:+ line ("**Generated:** " +:+ now_str (clock w1)) +:+ rest)]> (files w1)
      ∧ files r2.2 = <[report_file self :=
        Text (para "# Rabbit Launchpad Smart Contract Audit Report"
              +:+ line ("**Generated:** " +:+ now_str (clock w2)) +:+ rest)]> (files w2).
Proof.
  intros r1 r2. subst r1 r2. rewrite !generate_report_eq. cbn zeta.
  assert (render_body self slither mythril gas (write_file (report_file self) "" w1)
          = render_body self slither mythril gas (write_file (report_file self) "" w2)) as ->.
  { apply render_body_files. simpl. by rewrite Hfiles. }
  split; [done |]. eexists. split; reflexivity.
Qed.

End ReportFacts.

Section ReportExamples.
Import Py Os Audit Spec.

Lemma report_is_deterministic_witness :
  let slither :=
    SlitherResults true (Some "") (Some "")
      (Some "reports/audit/slither_report_20250101_100000.json")
      (Some "20250101_100000") (Some 1) (Some (Impacts 1 0 0 0)) None in
  let mythril :=
    [mythril_failed "timeout" "TokenA.sol";
     MythrilResults true (Some "") (Some "") None (Some "20250101_100000") "Vault.sol"
       (Some 1) (Some (JArr [issue_json demo_issue])) None] in
  let gas := [gas_failed "timeout" "TokenA.sol"] in
  let w1 := put "reports/audit/slither_report_20250101_100000.json"
              (slither_report [two_keywords]) demo_world in
  let w2 := World (files w1) (Clock "2025-06-30 23:59:59.999999" "20250630_235959")
              [["slither"; "--version"]] in
  let r1 := generate_comprehensive_report demo_auditor slither mythril gas w1 in
  let r2 := generate_comprehensive_report demo_auditor slither mythril gas w2 in
  files w1 = files w2
  ∧ r1.1 = r2.1
  ∧ ∃ rest,
      files r1.2 = <[report_file demo_auditor :=
        Text (para "# Rabbit Launchpad Smart Contract Audit Report"
              +:+ line ("**Generated:** " +:+ now_str (clock w1)) +:+ rest)]> (files w1)
      ∧ files r2.2 = <[report_file demo_auditor :=
        Text (para "# Rabbit Launchpad Smart Contract Audit Report"
              +:+ line ("**Generated:** " +:+ now_str (clock w2)) +:+ rest)]> (files w2).
Proof.
  intros slither mythril gas w1 w2 r1 r2.
  assert (files w1 = files w2) as H by reflexivity.
  split; [exact H |].
  exact (report_is_deterministic demo_auditor slither mythril gas w1 w2 H).
Defined.

End ReportExamples.

Section RenderFacts.
Import Py Os Audit Spec.

Lemma render_detector_block (i : nat) (f : slither_finding) :
  render_detector (i, detector_json f) = (detector_block i f, Ok tt).
Proof.
  destruct f as [check impact confidence description fs id].
  destruct fs as [|a [|b [|c rest]]]; destruct id; reflexivity.
Qed.

Lemma render_locations (l : list (Z * string)) :
  for_each render_location (location_json <$> l)
  = ((λ l, line ("- Line " +:+ pretty l.1 +:+ " in " +:+ l.2)) <$> l, Ok tt).
Proof.
  induction l as [|x l IH]; [done |].
  rewrite !fmap_cons. cbn [for_each]. rewrite IH. done.
Qed.

Lemma render_issue_block (i : nat) (x : mythril_issue) :
  render_issue (i, issue_json x) = (issue_block i x, Ok tt).
Proof.
  destruct x as [title severity confidence description ls].
  unfold render_issue, issue_json, issue_block.
  cbn [i_title i_severity i_description i_locations i_confidence].
  destruct ls as [|l ls]; [reflexivity |].
  rewrite fmap_cons. cbn -[pretty para line for_each].
  change (location_json l :: (location_json <$> ls)) with (location_json <$> (l :: ls)).
  rewrite render_locations. reflexivity.
Qed.

(** The findings shown are the first ten, the issues shown the first five. *)
Lemma render_detectors_take (ds : list json) :
  render_detectors (JArr ds) = render_detectors (JArr (take 10 ds)).
Proof.
  unfold render_detectors. destruct ds as [|d ds]; [done |].
  cbn [truthy take slice_to]. by rewrite take_take.
Qed.

Lemma render_issues_take (xs : list json) :
  render_issues (JArr xs) = render_issues (JArr (take 5 xs)).
Proof.
  unfold render_issues. destruct xs as [|x xs]; [done |].
  cbn [truthy take slice_to]. by rewrite take_take.
Qed.

Lemma render_detectors_blocks (fs : list slither_finding) :
  render_detectors (JArr (detector_json <$> fs))
  = (match fs with
     | [] => [para "No security issues found by Slither."]
     | _ => para "### Detailed Findings"
            :: concat (imap (λ i f, detector_block (S i) f) (take 10 fs))
     end, Ok tt).
Proof.
  destruct fs as [|f fs]; [done |].
  unfold render_detectors. rewrite fmap_cons. cbn [truthy slice_to].
  rewrite <- fmap_cons, <- fmap_take.
  cbn [wbind write eval iter]. unfold enumerate.
  rewrite (for_each_blocks render_detector detector_json detector_block render_detector_block).
  done.
Qed.

Lemma render_issues_blocks (xs : list mythril_issue) :
  render_issues (JArr (issue_json <$> xs))
  = (match xs with
     | [] => [para "No security issues found by Mythril."]
     | _ => concat (imap (λ i x, issue_block (S i) x) (take 5 xs))
     end, Ok tt).
Proof.
  destruct xs as [|x xs]; [done |].
  unfold render_issues. rewrite fmap_cons. cbn [truthy slice_to].
  rewrite <- fmap_cons, <- fmap_take.
  cbn [wbind write eval iter]. unfold enumerate.
  rewrite (for_each_blocks render_issue issue_json issue_block render_issue_block).
  done.
Qed.

Lemma render_mythril_result_blocks (contract : string) (xs : list mythril_issue)
    (stdout stderr output_file stamp : option string) (findings : option nat) :
  render_mythril_result
    (MythrilResults true stdout stderr output_file stamp contract findings
       (Some (JArr (issue_json <$> xs))) None)
  = (para ("### " +:+ contract) :: para "✅ Analysis completed successfully"
     :: match xs with
        | [] => [para "No security issues found by Mythril."]
        | _ => concat (imap (λ i x, issue_block (S i) x) (take 5 xs))
        end, Ok tt).
Proof.
  unfold render_mythril_result. cbn [m_contract m_success m_issues from_option id].
  by rewrite !wbind_write, render_issues_blocks.
Qed.

(** C5 (amended).  The comprehensive report shows the first ten Slither
    findings of the session and, for each contract, the first five Mythril
    issues, whatever the outputs hold beyond them.  A finding is shown with its
    check, impact, confidence and description, the files of its first three
    elements and its detector id; an issue is shown with its title, severity
    and description and its locations, and without its confidence. *)
Theorem report_shows_first_findings :
  (∀ ds, render_detectors (JArr ds) = render_detectors (JArr (take 10 ds)))
  ∧ (∀ xs, render_issues (JArr xs) = render_issues (JArr (take 5 xs)))
  ∧ (∀ fs, render_detectors (JArr (detector_json <$> fs))
           = (match fs with
              | [] => [para "No security issues found by Slither."]
              | _ => para "### Detailed Findings"
                     :: concat (imap (λ i f, detector_block (S i) f) (take 10 fs))
              end, Ok tt))
  ∧ (∀ contract xs stdout stderr output_file stamp findings,
       render_mythril_result
         (MythrilResults true stdout stderr output_file stamp contract findings
            (Some (JArr (issue_json <$> xs))) None)
       = (para ("### " +:+ contract) :: para "✅ Analysis completed successfully"
          :: match xs with
             | [] => [para "No security issues found by Mythril."]
             | _ => concat (imap (λ i x, issue_block (S i) x) (take 5 xs))
             end, Ok tt))
  ∧ (∀ i x confidence,
       issue_block i x
       = issue_block i (MythrilIssue (i_title x) (i_severity x) confidence
                          (i_description x) (i_locations x))).
Proof.
  split; [exact render_detectors_take |].
  split; [exact render_issues_take |].
  split; [exact render_detectors_blocks |].
  split; [intros; apply render_mythril_result_blocks |].
  intros i x confidence. reflexivity.
Qed.

(** C5, as stated, fails: an issue is rendered without its confidence. *)
Lemma mythril_issue_without_confidence :
  let x := MythrilIssue "Integer Arithmetic Bugs" "High" "Certain"
             "The arithmetic operator can overflow." [(42%Z, "1024:17:0")] in
  render_issue (1, issue_json x)
  = ([para "#### 1. Integer Arithmetic Bugs";
      line "**Severity:** High";
      para "**Description:** The arithmetic operator can overflow.";
      line "**Locations:**";
      line "- Line 42 in 1024:17:0";
      nl], Ok tt)
  ∧ existsb (contains "Certain") (render_issue (1, issue_json x)).1 = false
  ∧ existsb (contains "onfidence") (render_issue (1, issue_json x)).1 = false.
Proof. vm_compute. done. Qed.

End RenderFacts.

Section Persistence.
Import Py Os Audit Spec.

Lemma occurs_in_gas_report (c now stdout stderr : string) :
  occurs stdout (gas_report c now stdout stderr)
  ∧ occurs stderr (gas_report c now stdout stderr).
Proof.
  unfold gas_report. rewrite !concat_cons_s. cbn [String.concat]. split.
  - exists (("Gas Analysis Report for " +:+ name c +:+ nl)
            +:+ ("Generated: " +:+ now +:+ nl) +:+ (rule 50 +:+ nl +:+ nl)
            +:+ ("STDOUT:" +:+ nl)),
           ((nl +:+ "STDERR:" +:+ nl) +:+ stderr +:+ "").
    by rewrite !app_assoc_s.
  - exists (("Gas Analysis Report for " +:+ name c +:+ nl)
            +:+ ("Generated: " +:+ now +:+ nl) +:+ (rule 50 +:+ nl +:+ nl)
            +:+ ("STDOUT:" +:+ nl) +:+ stdout +:+ (nl +:+ "STDERR:" +:+ nl)), "".
    by rewrite !app_assoc_s.
Qed.

(** C6 (amended).  A gas analysis whose process completes, with whatever exit
    status, writes the captured output to
    [<reports>/gas_analysis_<stem>_<timestamp>.txt]; one that times out or
    raises writes nothing.  The Slither and the Mythril analysis write no file
    themselves: they hand the tool the path
    [<reports>/slither_report_<timestamp>.json] (no contract in it) or
    [<reports>/mythril_report_<stem>_<timestamp>.json], and the files are
    afterwards as the tool left them. *)
Theorem raw_output_persistence
    (subprocess_run : list string → option nat → world → outcome * world)
    (self : auditor) (contract_path : option string) (c : string) (w : world) :
  files (run_gas_analysis subprocess_run self c w).2
    = match subprocess_run (gas_cmd c) (Some 120) w with
      | (Completed _ stdout stderr, w') =>
          <[gas_output_file self c :=
              Text (gas_report c (now_str (clock w')) stdout stderr)]> (files w')
      | (Raised _, w') => files w'
      end
  ∧ gas_output_file self c
    = joinpath (reports_dir self)
        ("gas_analysis_" +:+ stem c +:+ "_" +:+ timestamp self +:+ ".txt")
  ∧ (∀ now stdout stderr,
       occurs stdout (gas_report c now stdout stderr)
       ∧ occurs stderr (gas_report c now stdout stderr))
  ∧ files (run_slither_analysis subprocess_run self contract_path w).2
    = files (subprocess_run (slither_cmd self contract_path) (Some 300) w).2
  ∧ files (run_mythril_analysis subprocess_run self c w).2
    = files (subprocess_run (mythril_cmd self c) (Some 300) w).2
  ∧ slither_cmd self contract_path !! 3
    = Some (joinpath (reports_dir self) ("slither_report_" +:+ timestamp self +:+ ".json"))
  ∧ mythril_cmd self c !! 8
    = Some (joinpath (reports_dir self)
              ("mythril_report_" +:+ stem c +:+ "_" +:+ timestamp self +:+ ".json")).
Proof.
  split; [apply run_gas_files |]. split; [done |].
  split; [intros; apply occurs_in_gas_report |].
  split; [apply run_slither_files |]. split; [apply run_mythril_files |]. done.
Qed.

(** C6, as stated, fails: a gas analysis that times out leaves no file. *)
Lemma gas_timeout_writes_nothing :
  let r := run_gas_analysis always_timeout demo_auditor
             "smartcontract/contracts/TokenA.sol" (World ∅ (clock demo_world) []) in
  r.1 = gas_failed "timeout" "TokenA.sol"
  ∧ files r.2 = ∅
  ∧ files r.2 !! "reports/audit/gas_analysis_TokenA_20250101_100000.txt" = None.
Proof. vm_compute. done. Qed.

End Persistence.

Section Prerequisites.
Import Py Os Audit Spec.

Variable subprocess_run : list string → option nat → world → outcome * world.

Lemma check_tools_step (tool_name command : string) (ts : list (string * string))
    (missing : list string) (w : world) :
  let p := run subprocess_run [command; "--version"] (Some 10) w in
  escapes p.1 = false →
  check_tools subprocess_run ((tool_name, command) :: ts) missing w
  = check_tools subprocess_run ts
      (if is_missing p.1 then missing ++ [tool_name] else missing) p.2.
Proof.
  cbn [check_tools]. destruct (run _ _ _ _) as [[rc out err|e] w']; cbn [fst snd].
  - intros _. simpl. by destruct (rc =? 0)%Z.
  - simpl. by destruct (kind e).
Qed.

Lemma check_prerequisites_spec (w : world) :
  let p1 := run subprocess_run ["slither"; "--version"] (Some 10) w in
  let p2 := run subprocess_run ["myth"; "--version"] (Some 10) p1.2 in
  let p3 := run subprocess_run ["solc"; "--version"] (Some 10) p2.2 in
  escapes p1.1 = false → escapes p2.1 = false → escapes p3.1 = false →
  check_prerequisites subprocess_run w
  = (Ok (negb (is_missing p1.1 || is_missing p2.1 || is_missing p3.1)), p3.2).
Proof.
  intros p1 p2 p3 H1 H2 H3. unfold check_prerequisites, tools.
  rewrite check_tools_step by done. fold p1.
  rewrite check_tools_step by done. fold p2.
  rewrite check_tools_step by done. fold p3.
  cbn [check_tools].
  destruct (is_missing p1.1), (is_missing p2.1), (is_missing p3.1); done.
Qed.

Lemma probes_calls (w : world) :
  let p1 := run subprocess_run ["slither"; "--version"] (Some 10) w in
  let p2 := run subprocess_run ["myth"; "--version"] (Some 10) p1.2 in
  let p3 := run subprocess_run ["solc"; "--version"] (Some 10) p2.2 in
  calls p3.2
  = calls w ++ [["slither"; "--version"]; ["myth"; "--version"]; ["solc"; "--version"]].
Proof.
  intros p1 p2 p3. subst p1 p2 p3. rewrite !run_eq. cbn [fst snd calls].
  by rewrite <- !app_assoc.
Qed.

(** C8 (amended).  When the three probes end without an escaping exception,
    one missing tool is enough to end the session: nothing but the probes is
    run, [audit_contracts] returns the failure [prerequisites_failed] and the
    exit status is 1.  The prerequisites hold only when all three tools are
    present. *)
Theorem missing_tool_is_fatal (self : auditor) (contract_path : option string)
    (run_mythril run_gas : bool) (w : world) :
  let p1 := run subprocess_run ["slither"; "--version"] (Some 10) w in
  let p2 := run subprocess_run ["myth"; "--version"] (Some 10) p1.2 in
  let p3 := run subprocess_run ["solc"; "--version"] (Some 10) p2.2 in
  escapes p1.1 = false → escapes p2.1 = false → escapes p3.1 = false →
  if is_missing p1.1 || is_missing p2.1 || is_missing p3.1 then
    audit_contracts subprocess_run self contract_path run_mythril run_gas w
      = (Ok (audit_failed "prerequisites_failed"), p3.2)
    ∧ calls p3.2
      = calls w ++ [["slither"; "--version"]; ["myth"; "--version"]; ["solc"; "--version"]]
    ∧ ∀ executable contracts reports contract no_mythril no_gas,
        exit_code (main subprocess_run executable
                     (Args contracts reports contract no_mythril no_gas false) w).1 = 1%Z
  else
    check_prerequisites subprocess_run w = (Ok true, p3.2).
Proof.
  intros p1 p2 p3 H1 H2 H3.
  pose proof (check_prerequisites_spec w H1 H2 H3) as Hc. fold p1 p2 p3 in Hc.
  destruct (is_missing p1.1 || is_missing p2.1 || is_missing p3.1); [|exact Hc].
  assert (∀ self cp rm rg,
            audit_contracts subprocess_run self cp rm rg w
            = (Ok (audit_failed "prerequisites_failed"), p3.2)) as Ha.
  { intros. unfold audit_contracts. by rewrite Hc. }
  split; [apply Ha |]. split; [apply probes_calls |].
  intros. unfold main. cbn [arg_install_deps arg_contract].
  destruct contract as [contract|]; [destruct (exists_ contract w)|];
    cbn [negb]; try done; by rewrite Ha.
Qed.

End Prerequisites.

Section PrerequisitesExamples.
Import Py Os Audit Spec.

Lemma missing_tool_is_fatal_witness :
  let p1 := run myth_missing ["slither"; "--version"] (Some 10) demo_world in
  let p2 := run myth_missing ["myth"; "--version"] (Some 10) p1.2 in
  let p3 := run myth_missing ["solc"; "--version"] (Some 10) p2.2 in
  escapes p1.1 = false ∧ escapes p2.1 = false ∧ escapes p3.1 = false
  ∧ is_missing p1.1 || is_missing p2.1 || is_missing p3.1 = true
  ∧ audit_contracts myth_missing demo_auditor None true true demo_world
    = (Ok (audit_failed "prerequisites_failed"), p3.2).
Proof.
  intros p1 p2 p3.
  assert (escapes p1.1 = false) as H1 by reflexivity.
  assert (escapes p2.1 = false) as H2 by reflexivity.
  assert (escapes p3.1 = false) as H3 by reflexivity.
  pose proof (missing_tool_is_fatal myth_missing demo_auditor None true true demo_world
                H1 H2 H3) as H.
  repeat (split; [reflexivity |]). exact (proj1 H).
Defined.

(** C8, as stated, fails: with Slither and solc present and only Mythril
    missing, no analysis is run and the exit status is 1. *)
Lemma one_missing_tool_ends_session :
  let r := audit_contracts myth_missing demo_auditor None true true demo_world in
  r.1 = Ok (audit_failed "prerequisites_failed")
  ∧ calls r.2 = [["slither"; "--version"]; ["myth"; "--version"]; ["solc"; "--version"]]
  ∧ exit_code (main myth_missing "python3" demo_args demo_world).1 = 1%Z.
Proof. vm_compute. done. Qed.

End PrerequisitesExamples.

(** ** The session *)
Section SessionFacts.
Import Py Os Audit Spec.

Variable subprocess_run : list string → option nat → world → outcome * world.
Variable self : auditor.

(** The exceptions raised while an output file is read are not timeouts. *)
Lemma no_timeout_ok {A} (a : A) : no_timeout (Ok a).
Proof. by intros e. Qed.

Lemma no_timeout_bind {A B} (r : result A) (f : A → result B) :
  no_timeout r → (∀ a, no_timeout (f a)) → no_timeout (bind r f).
Proof.
  unfold no_timeout. intros Hr Hf e. destruct r as [a|e']; simpl; [apply Hf |].
  intros [= <-]. by apply Hr.
Qed.

Lemma no_timeout_get (v : json) (k : string) (d : json) : no_timeout (get v k d).
Proof. intros e. destruct v; simpl; try done; by intros [= <-]. Qed.

Lemma no_timeout_lower (v : json) : no_timeout (lower v).
Proof. intros e. destruct v; simpl; try done; by intros [= <-]. Qed.

Lemma no_timeout_len (v : json) : no_timeout (len v).
Proof. intros e. destruct v; simpl; try done; by intros [= <-]. Qed.

Lemma no_timeout_iter (v : json) : no_timeout (iter v).
Proof. intros e. destruct v; simpl; try done; by intros [= <-]. Qed.

Lemma no_timeout_slice_to (n : nat) (v : json) : no_timeout (slice_to n v).
Proof. intros e. destruct v; simpl; try done; by intros [= <-]. Qed.

Lemma no_timeout_json_load (d : file_data) : no_timeout (json_load d).
Proof. intros e. destruct d; simpl; try done; by intros [= <-]. Qed.

Lemma no_timeout_mapM {A B} (f : A → result B) (l : list A) :
  (∀ x, no_timeout (f x)) → no_timeout (mapM f l).
Proof.
  intros H. induction l as [|x l IH]; [apply no_timeout_ok |]. cbn [mapM].
  apply no_timeout_bind; [done |]. intros y.
  apply no_timeout_bind; [done |]. intros ys. apply no_timeout_ok.
Qed.

Lemma no_timeout_foldM {A S} (f : S → A → result S) (l : list A) (acc : S) :
  (∀ s x, no_timeout (f s x)) → no_timeout (foldM f acc l).
Proof.
  intros H. revert acc. induction l as [|x l IH]; intros acc; [apply no_timeout_ok |].
  cbn [foldM]. apply no_timeout_bind; [done |]. intros acc'. apply IH.
Qed.

Ltac no_timeout :=
  repeat first
    [ apply no_timeout_ok | apply no_timeout_get | apply no_timeout_lower
    | apply no_timeout_len | apply no_timeout_iter | apply no_timeout_slice_to
    | apply no_timeout_json_load
    | apply no_timeout_mapM; intros | apply no_timeout_foldM; intros
    | apply no_timeout_bind; [|intros] ].







(** The session past its first two checks. *)
Lemma audit_contracts_run (contract_path : option string) (run_mythril run_gas : bool)
    (w : world) :
  let w1 := (check_prerequisites subprocess_run w).2 in
  let cs := contracts_of self contract_path w1 in
  let s := run_slither_analysis subprocess_run self contract_path w1 in
  let m := if run_mythril then run_each (run_mythril_analysis subprocess_run self) cs s.2
           else ([], s.2) in
  let g := if run_gas then run_each (run_gas_analysis subprocess_run self) cs m.2
           else ([], m.2) in
  let rep := generate_comprehensive_report self s.1 m.1 g.1 g.2 in
  (check_prerequisites subprocess_run w).1 = Ok true →
  cs ≠ [] →
  audit_contracts subprocess_run self contract_path run_mythril run_gas w
  = (let* report_file := rep.1 in
     Ok (AuditResults true None (Some (timestamp self)) (Some (length cs))
           (Some s.1) m.1 g.1 (Some report_file)),
     rep.2).
Proof.
  intros w1 cs s m g rep Hpre Hcs. unfold audit_contracts.
  subst rep g m s cs w1. unfold contracts_of in *.
  destruct (check_prerequisites subprocess_run w) as [r w1]. cbn [fst snd] in *. subst r.
  destruct (match contract_path with Some p => [p] | None => find_contract_files self w1 end)
    as [|c cs] eqn:Hc; [done |].
  destruct (run_slither_analysis subprocess_run self contract_path w1) as [sl w2].
  cbn [fst snd].
  destruct (if run_mythril then _ else _) as [my w3]. cbn [fst snd].
  destruct (if run_gas then _ else _) as [gs w4]. cbn [fst snd].
  by destruct (generate_comprehensive_report self sl my gs w4) as [[f|e] w5].
Qed.

Lemma generate_report_calls (slither : slither_results) (mythril : list mythril_results)
    (gas : list gas_results) (w : world) :
  calls (generate_comprehensive_report self slither mythril gas w).2 = calls w.
Proof. by rewrite generate_report_eq. Qed.

(** Every tool is run on every contract, whatever the runs before it did. *)
Lemma audit_contracts_calls (contract_path : option string) (run_mythril run_gas : bool)
    (w : world) :
  let w1 := (check_prerequisites subprocess_run w).2 in
  let cs := contracts_of self contract_path w1 in
  (check_prerequisites subprocess_run w).1 = Ok true →
  cs ≠ [] →
  calls (audit_contracts subprocess_run self contract_path run_mythril run_gas w).2
  = calls w1 ++ [slither_cmd self contract_path]
    ++ (if run_mythril then mythril_cmd self <$> cs else [])
    ++ (if run_gas then gas_cmd <$> cs else []).
Proof.
  intros w1 cs Hpre Hcs. rewrite audit_contracts_run by done. cbn [snd].
  rewrite generate_report_calls. fold w1 cs.
  assert (∀ cs w, calls (run_each (run_gas_analysis subprocess_run self) cs w).2
                  = calls w ++ (gas_cmd <$> cs)) as Hg.
  { intros. apply run_each_calls. intros. apply run_gas_calls. }
  assert (∀ cs w, calls (run_each (run_mythril_analysis subprocess_run self) cs w).2
                  = calls w ++ (mythril_cmd self <$> cs)) as Hm.
  { intros. apply run_each_calls. intros. apply run_mythril_calls. }
  destruct run_gas, run_mythril; cbn [snd];
    rewrite ?Hg, ?Hm, run_slither_calls, ?app_nil_r, <- ?app_assoc; done.
Qed.

End SessionFacts.

Section ReportContents.
Import Py Os Audit Spec.

Variable self : auditor.

Lemma report_text (slither : slither_results) (mythril : list mythril_results)
    (gas : list gas_results) (w : world) (f : string) :
  (generate_comprehensive_report self slither mythril gas w).1 = Ok f →
  ∃ out,
    render_body self slither mythril gas (write_file (report_file self) "" w) = (out, Ok tt)
    ∧ files (generate_comprehensive_report self slither mythril gas w).2
        !! report_file self
      = Some (Text (report_title
                    +:+ line ("**Generated:** " +:+ now_str (clock w))
                    +:+ para ("**Timestamp:** " +:+ timestamp self)
                    +:+ String.concat "" out)).
Proof.
  rewrite generate_report_eq. cbn zeta.
  destruct (render_body _ _ _ _ _) as [out [[]|e]]; [|done]. intros _.
  exists out. split; [done |]. cbn [fst snd write_file files]. apply lookup_insert_eq.
Qed.






End ReportContents.

Section Isolation.
Import Py Os Audit Spec.

Variable subprocess_run : list string → option nat → world → outcome * world.
Variable self : auditor.



End Isolation.

Section IsolationExamples.
Import Py Os Audit Spec.


End IsolationExamples.

Section ParseFailure.
Import Py Os Audit Spec.

Variable subprocess_run : list string → option nat → world → outcome * world.
Variable self : auditor.




End ParseFailure.

Section ParseFailureExamples.
Import Py Os Audit Spec.


End ParseFailureExamples.

(** ** How a session ends *)
Section SessionOutcome.
Import Py Os Audit Spec More.

Variable subprocess_run : list string → option nat → world → outcome * world.

Lemma wbind_returns {A B} (m : writer A) (f : A → writer B) (a : A) :
  m.2 = Ok a → (wbind m f).2 = (f a).2.
Proof. destruct m as [o r]. simpl. intros ->. by destruct (f a). Qed.

Lemma for_each_returns {A} (body : A → writer unit) (l : list A) :
  (∀ x, x ∈ l → (body x).2 = Ok tt) → (for_each body l).2 = Ok tt.
Proof.
  induction l as [|x l IH]; intros H; [done |]. cbn [for_each].
  rewrite (wbind_returns _ _ tt) by (apply H, elem_of_cons; by left).
  apply IH. intros y Hy. apply H, elem_of_cons. by right.
Qed.

Lemma render_summary_returns (self : auditor) (slither : slither_results)
    (mythril : list mythril_results) (w : world) :
  (render_summary self slither mythril w).2 = Ok tt.
Proof.
  unfold render_summary. rewrite !wbind_write. cbn [snd].
  destruct (s_impacts slither) as [imp|]; [|done].
  rewrite wbind_write. cbn [snd]. by destruct imp.
Qed.

Lemma render_gas_returns (gas : list gas_results) : (render_gas gas).2 = Ok tt.
Proof.
  unfold render_gas. rewrite wbind_write. cbn [snd].
  apply for_each_returns. intros r _. unfold render_gas_result.
  rewrite wbind_write. cbn [snd]. destruct (g_success r); [|done].
  rewrite wbind_write. cbn [snd]. destruct (g_output_file r) as [f|]; [|done].
  by destruct (String.eqb f "").
Qed.

Lemma render_slither_unsuccessful (slither : slither_results) (w : world) :
  s_success slither = false → (render_slither slither w).2 = Ok tt.
Proof.
  intros H. unfold render_slither. rewrite H, !wbind_write. cbn [snd].
  destruct (s_error slither) as [e|]; [|done]. by destruct (String.eqb e "").
Qed.

Lemma render_mythril_unsuccessful (mythril : list mythril_results) :
  (∀ r, r ∈ mythril → m_success r = false) → (render_mythril mythril).2 = Ok tt.
Proof.
  intros H. unfold render_mythril. rewrite wbind_write. cbn [snd].
  apply for_each_returns. intros r Hr. unfold render_mythril_result.
  rewrite (H r Hr), !wbind_write. cbn [snd].
  destruct (m_error r) as [e|]; [|done]. by destruct (String.eqb e "").
Qed.

Lemma render_body_unsuccessful (self : auditor) (slither : slither_results)
    (mythril : list mythril_results) (gas : list gas_results) (w : world) :
  s_success slither = false →
  (∀ r, r ∈ mythril → m_success r = false) →
  (render_body self slither mythril gas w).2 = Ok tt.
Proof.
  intros Hs Hm. unfold render_body.
  rewrite (wbind_returns _ _ tt) by apply render_summary_returns.
  rewrite (wbind_returns _ _ tt) by by apply render_slither_unsuccessful.
  rewrite (wbind_returns _ _ tt) by by apply render_mythril_unsuccessful.
  rewrite (wbind_returns _ _ tt) by apply render_gas_returns.
  apply for_each_returns. by intros x _.
Qed.

Lemma run_slither_failing (self : auditor) (contract_path : option string) (w : world) :
  failing (subprocess_run (slither_cmd self contract_path) (Some 300) w).1 = true →
  s_success (run_slither_analysis subprocess_run self contract_path w).1 = false.
Proof.
  unfold run_slither_analysis. rewrite run_eq.
  destruct (subprocess_run _ _ w) as [[rc out err|e] w']; cbn [fst snd failing]; [|done].
  intros H. apply negb_true_iff in H. by rewrite H.
Qed.

Lemma run_mythril_failing (self : auditor) (contract_path : string) (w : world) :
  failing (subprocess_run (mythril_cmd self contract_path) (Some 300) w).1 = true →
  m_success (run_mythril_analysis subprocess_run self contract_path w).1 = false.
Proof.
  unfold run_mythril_analysis. rewrite run_eq.
  destruct (subprocess_run _ _ w) as [[rc out err|e] w']; cbn [fst snd failing]; [|done].
  intros H. apply negb_true_iff in H. by rewrite H.
Qed.

Lemma run_gas_failing (self : auditor) (contract_path : string) (w : world) :
  failing (subprocess_run (gas_cmd contract_path) (Some 120) w).1 = true →
  g_success (run_gas_analysis subprocess_run self contract_path w).1 = false.
Proof.
  unfold run_gas_analysis. rewrite run_eq.
  destruct (subprocess_run _ _ w) as [[rc out err|e] w']; cbn [fst snd failing]; [|done].
  intros H. by apply negb_true_iff in H.
Qed.

Lemma run_each_all {R} (analysis : string → world → R * world) (P : R → Prop)
    (cs : list string) (w : world) :
  (∀ c w', c ∈ cs → P (analysis c w').1) →
  ∀ r, r ∈ (run_each analysis cs w).1 → P r.
Proof.
  revert w. induction cs as [|c cs IH]; intros w H r; cbn [run_each].
  - intros Hr. by apply elem_of_nil in Hr.
  - pose proof (H c w) as Hc. destruct (analysis c w) as [r0 w'].
    specialize (IH w'). destruct (run_each analysis cs w') as [rs w''].
    cbn [fst] in *. intros Hr. apply elem_of_cons in Hr as [->|Hr].
    + apply Hc, elem_of_cons. by left.
    + apply IH; [|done]. intros c' v Hc'. apply H, elem_of_cons. by right.
Qed.

(** X1.  A session in which Slither and every Mythril run fail (a non-zero
    exit status, a timeout or any other exception) still ends with its
    report: [audit_contracts] returns [success = True] with the report file,
    so that [main] returns 0, although the Slither result and every Mythril
    result in it say [success = False]; and where the gas analyses fail as
    well, so does every gas result. *)
Theorem failed_analyses_end_in_success (self : auditor) (contract_path : option string)
    (run_mythril run_gas : bool) (w : world) :
  let w1 := (check_prerequisites subprocess_run w).2 in
  let cs := contracts_of self contract_path w1 in
  (check_prerequisites subprocess_run w).1 = Ok true →
  cs ≠ [] →
  (∀ w', failing (subprocess_run (slither_cmd self contract_path) (Some 300) w').1 = true) →
  (∀ c w', c ∈ cs →
     failing (subprocess_run (mythril_cmd self c) (Some 300) w').1 = true) →
  ∃ res w',
    audit_contracts subprocess_run self contract_path run_mythril run_gas w = (Ok res, w')
    ∧ a_success res = true
    ∧ a_report_file res = Some (report_file self)
    ∧ (∃ text, files w' !! report_file self = Some (Text text))
    ∧ (∃ s, a_slither_results res = Some s ∧ s_success s = false)
    ∧ (∀ r, r ∈ a_mythril_results res → m_success r = false)
    ∧ ((∀ c w', c ∈ cs →
          failing (subprocess_run (gas_cmd c) (Some 120) w').1 = true) →
       ∀ r, r ∈ a_gas_results res → g_success r = false).
Proof.
  intros w1 cs Hpre Hcs Hs Hm.
  rewrite audit_contracts_run by done. fold w1 cs.
  set (s := run_slither_analysis subprocess_run self contract_path w1).
  set (m := if run_mythril then _ else _).
  set (g := if run_gas then _ else _).
  assert (s_success s.1 = false) as Hs' by apply run_slither_failing, Hs.
  assert (∀ r, r ∈ m.1 → m_success r = false) as Hm'.
  { subst m. destruct run_mythril; [|intros r Hr; by apply elem_of_nil in Hr].
    apply run_each_all. intros c w' Hc. by apply run_mythril_failing, Hm. }
  rewrite generate_report_eq. cbn zeta. cbn [fst snd].
  rewrite render_body_unsuccessful by done. cbn [bind].
  eexists _, _. split; [reflexivity |]. cbn [a_success a_report_file a_slither_results
    a_mythril_results a_gas_results write_file files].
  split; [done |]. split; [done |]. split.
  { eexists. apply lookup_insert_eq. }
  split; [by exists s.1 |]. split; [done |].
  intros Hg. subst g. destruct run_gas; [|intros r Hr; by apply elem_of_nil in Hr].
  apply run_each_all. intros c w' Hc. by apply run_gas_failing, Hg.
Qed.

End SessionOutcome.

Section SessionOutcomeExamples.
Import Py Os Audit Spec More.

Lemma failed_analyses_end_in_success_witness :
  let w1 := (check_prerequisites analyses_fail demo_world).2 in
  let cs := contracts_of demo_auditor None w1 in
  (check_prerequisites analyses_fail demo_world).1 = Ok true
  ∧ cs ≠ []
  ∧ ∃ res w',
      audit_contracts analyses_fail demo_auditor None true true demo_world = (Ok res, w')
      ∧ a_success res = true
      ∧ (∃ s, a_slither_results res = Some s ∧ s_success s = false)
      ∧ (∀ r, r ∈ a_mythril_results res → m_success r = false)
      ∧ (∀ r, r ∈ a_gas_results res → g_success r = false).
Proof.
  intros w1 cs.
  assert ((check_prerequisites analyses_fail demo_world).1 = Ok true) as Hpre
    by (vm_compute; reflexivity).
  assert (cs ≠ []) as Hne by (vm_compute; discriminate).
  split; [exact Hpre |]. split; [exact Hne |].
  destruct (failed_analyses_end_in_success analyses_fail demo_auditor None true true
              demo_world Hpre Hne (λ _, eq_refl) (λ _ _ _, eq_refl))
    as (res & w' & Hr & Hs & _ & _ & Hsl & Hm & Hg).
  exists res, w'. split; [exact Hr |]. split; [exact Hs |]. split; [exact Hsl |].
  split; [exact Hm |]. apply Hg. intros c v _. reflexivity.
Defined.

End SessionOutcomeExamples.

(** ** The exit status *)
Section ExitStatus.
Import Py Os Audit Spec More.

Variable subprocess_run : list string → option nat → world → outcome * world.

(** The probes are run in order, up to the first one that lets an exception
    escape. *)
Lemma check_tools_calls (ts : list (string * string)) (missing : list string) (w : world) :
  let r := check_tools subprocess_run ts missing w in
  match r.1 with
  | Ok _ => calls r.2 = calls w ++ ((λ t : string * string, [t.2; "--version"]) <$> ts)
  | Raise _ =>
      ∃ n, n < length ts
        ∧ calls r.2 = calls w ++ take (S n) ((λ t : string * string, [t.2; "--version"]) <$> ts)
  end.
Proof.
  revert missing w. induction ts as [|[tool_name command] ts IH]; intros missing w.
  - simpl. by rewrite app_nil_r.
  - cbn [check_tools]. rewrite run_eq. cbn [fst snd].
    set (o := (subprocess_run [command; "--version"] (Some 10) w).1).
    set (w' := World _ _ _).
    assert (calls w' = calls w ++ [[command; "--version"]]) as Hw by done.
    assert (∀ missing',
      match (check_tools subprocess_run ts missing' w').1 with
      | Ok _ => calls (check_tools subprocess_run ts missing' w').2
                = calls w ++ ((λ t : string * string, [t.2; "--version"])
                                <$> (tool_name, command) :: ts)
      | Raise _ =>
          ∃ n, n < length ((tool_name, command) :: ts)
            ∧ calls (check_tools subprocess_run ts missing' w').2
              = calls w ++ take (S n) ((λ t : string * string, [t.2; "--version"])
                                         <$> (tool_name, command) :: ts)
      end) as Hrest.
    { intros missing'. specialize (IH missing' w'). cbn zeta in IH.
      destruct (check_tools subprocess_run ts missing' w').1.
      - rewrite IH, Hw, <- app_assoc. done.
      - destruct IH as (n & Hn & ->). exists (S n). split; [simpl; lia |].
        rewrite Hw, <- app_assoc. done. }
    destruct o as [rc out err|e].
    + destruct (rc =? 0)%Z; apply Hrest.
    + destruct (kind e); try apply Hrest;
        (exists 0; split; [simpl; lia |]; cbn [fst snd]; rewrite Hw; done).
Qed.

Lemma check_prerequisites_calls (w : world) (b : bool) :
  (check_prerequisites subprocess_run w).1 = Ok b →
  calls (check_prerequisites subprocess_run w).2 = calls w ++ probes.
Proof.
  unfold check_prerequisites. pose proof (check_tools_calls tools [] w) as H. cbn zeta in H.
  destruct (check_tools subprocess_run tools [] w) as [[l|e] w']; [|done].
  intros _. exact H.
Qed.

(** X2.  With every tool present and no contract below the contracts
    directory, a session over the whole directory ends after the three
    probes: [audit_contracts] returns [success = False] with the error
    ['no_contracts_found'], no analysis is run, no file is written after the
    probes, and [main] returns 1. *)
Theorem no_contracts_ends_session (executable contracts reports : string)
    (no_mythril no_gas : bool) (w : world) :
  let self := Auditor contracts reports (now_stamp (clock w)) in
  let w1 := (check_prerequisites subprocess_run w).2 in
  let r := audit_contracts subprocess_run self None (negb no_mythril) (negb no_gas) w in
  (check_prerequisites subprocess_run w).1 = Ok true →
  find_contract_files self w1 = [] →
  r.1 = Ok (audit_failed "no_contracts_found")
  ∧ files r.2 = files w1
  ∧ calls r.2 = calls w ++ probes
  ∧ exit_code (main subprocess_run executable
                 (Args contracts reports None no_mythril no_gas false) w).1 = 1%Z.
Proof.
  intros self w1 r Hpre Hnone.
  assert (r = (Ok (audit_failed "no_contracts_found"), w1)) as Hr.
  { subst r w1. unfold audit_contracts.
    destruct (check_prerequisites subprocess_run w) as [p v]. cbn [fst snd] in *.
    subst p. by rewrite Hnone. }
  split; [by rewrite Hr |]. split; [by rewrite Hr |]. split.
  - rewrite Hr. cbn [snd]. by apply check_prerequisites_calls with true.
  - unfold main. cbn [arg_install_deps arg_contract arg_contracts_dir arg_reports_dir
                      arg_no_mythril arg_no_gas].
    fold self. fold r. by rewrite Hr.
Qed.

Lemma audit_contracts_success (self : auditor) (contract_path : option string)
    (run_mythril run_gas : bool) (w : world) (res : audit_results) :
  (audit_contracts subprocess_run self contract_path run_mythril run_gas w).1 = Ok res →
  (a_success res = true
   ↔ (check_prerequisites subprocess_run w).1 = Ok true
     ∧ contracts_of self contract_path (check_prerequisites subprocess_run w).2 ≠ [])
  ∧ (a_success res = true → a_report_file res = Some (report_file self)).
Proof.
  destruct ((check_prerequisites subprocess_run w).1) as [[|]|e] eqn:Hpre.
  - destruct (contracts_of self contract_path (check_prerequisites subprocess_run w).2)
      as [|c cs] eqn:Hcs.
    + unfold audit_contracts. unfold contracts_of in Hcs.
      destruct (check_prerequisites subprocess_run w) as [p v]. cbn [fst snd] in *. subst p.
      rewrite Hcs. cbn [fst]. intros [= <-]. split; [|done]. split; [done | by intros [_ ?]].
    + rewrite audit_contracts_run by (by rewrite ?Hcs). cbn [fst].
      rewrite generate_report_eq. cbn zeta. cbn [fst].
      destruct (render_body _ _ _ _ _).2 as [[]|e]; [|done]. cbn [bind].
      intros [= <-]. cbn [a_success a_report_file]. split; [|done].
      split; [|done]. intros _. done.
  - unfold audit_contracts.
    destruct (check_prerequisites subprocess_run w) as [p v]. cbn [fst snd] in *. subst p.
    cbn [fst]. intros [= <-]. split; [|done]. split; [done | by intros [? _]].
  - unfold audit_contracts.
    destruct (check_prerequisites subprocess_run w) as [p v]. cbn [fst snd] in *. by subst p.
Qed.


(** X4.  An exception of a probe other than a timeout or a missing program
    (a [PermissionError], say) is not caught: [check_prerequisites] raises it,
    the probes after it are not run, [audit_contracts] and [main] let it
    pass, and the process exits with status 1 without running an analysis. *)
Theorem probe_exception_ends_session (executable contracts reports : string)
    (contract : option string) (no_mythril no_gas : bool) (w : world) (e : exn) (n : nat) :
  let a := Args contracts reports contract no_mythril no_gas false in
  let self := Auditor contracts reports (now_stamp (clock w)) in
  let p1 := run subprocess_run ["slither"; "--version"] (Some 10) w in
  let p2 := run subprocess_run ["myth"; "--version"] (Some 10) p1.2 in
  let p3 := run subprocess_run ["solc"; "--version"] (Some 10) p2.2 in
  let r := audit_contracts subprocess_run self contract (negb no_mythril) (negb no_gas) w in
  escapes (Raised e) = true →
  (n = 1 ∧ p1.1 = Raised e)
  ∨ (n = 2 ∧ escapes p1.1 = false ∧ p2.1 = Raised e)
  ∨ (n = 3 ∧ escapes p1.1 = false ∧ escapes p2.1 = false ∧ p3.1 = Raised e) →
  (∀ p, contract = Some p → p ≠ "" ∧ exists_ p w = true) →
  (check_prerequisites subprocess_run w).1 = Raise e
  ∧ r.1 = Raise e
  ∧ calls r.2 = calls w ++ take n probes
  ∧ (main subprocess_run executable a w).1 = Raise e
  ∧ exit_code (main subprocess_run executable a w).1 = 1%Z.
Proof.
  intros a self p1 p2 p3 r He Hn Hc.
  assert (∀ tool_name command ts missing v,
            (run subprocess_run [command; "--version"] (Some 10) v).1 = Raised e →
            check_tools subprocess_run ((tool_name, command) :: ts) missing v
            = (Raise e, (run subprocess_run [command; "--version"] (Some 10) v).2)) as Hstop.
  { intros tool_name command ts missing v Hv. cbn [check_tools].
    destruct (run subprocess_run _ _ v) as [o v']. cbn [fst snd] in *. subst o.
    simpl in He. by destruct (kind e). }
  assert (check_prerequisites subprocess_run w
          = (Raise e, match n with 1 => p1.2 | 2 => p2.2 | _ => p3.2 end)) as Hpre.
  { unfold check_prerequisites, tools.
    destruct Hn as [[-> H1]|[(-> & H1 & H2)|(-> & H1 & H2 & H3)]].
    - by rewrite Hstop.
    - rewrite check_tools_step by done. fold p1. by rewrite Hstop.
    - rewrite check_tools_step by done. fold p1.
      rewrite check_tools_step by done. fold p2. by rewrite Hstop. }
  assert (r = (Raise e, match n with 1 => p1.2 | 2 => p2.2 | _ => p3.2 end)) as Hr.
  { subst r. unfold audit_contracts. by rewrite Hpre. }
  split; [by rewrite Hpre |]. split; [by rewrite Hr |]. split.
  { rewrite Hr. cbn [snd]. subst p1 p2 p3.
    destruct Hn as [[-> _]|[(-> & _)|(-> & _)]]; rewrite !run_eq; cbn [fst snd calls];
      by rewrite <- ?app_assoc. }
  assert ((main subprocess_run executable a w).1 = Raise e) as Hmain.
  { unfold main. subst a.
    cbn [arg_install_deps arg_contract arg_contracts_dir arg_reports_dir arg_no_mythril
         arg_no_gas].
    fold self. fold r. rewrite Hr.
    destruct contract as [p|]; [|done]. destruct (Hc p eq_refl) as [_ ->]. done. }
  split; [exact Hmain |]. by rewrite Hmain.
Qed.

End ExitStatus.

Section ExitStatusExamples.
Import Py Os Audit Spec More.

Lemma no_contracts_ends_session_witness :
  let self := Auditor "smartcontract/contracts" "reports/audit" "20250101_100000" in
  let r := audit_contracts demo_tools self None true true empty_world in
  (check_prerequisites demo_tools empty_world).1 = Ok true
  ∧ find_contract_files self (check_prerequisites demo_tools empty_world).2 = []
  ∧ r.1 = Ok (audit_failed "no_contracts_found")
  ∧ calls r.2 = probes
  ∧ exit_code (main demo_tools "python3" demo_args empty_world).1 = 1%Z.
Proof.
  intros self r.
  assert ((check_prerequisites demo_tools empty_world).1 = Ok true) as Hpre
    by (vm_compute; reflexivity).
  assert (find_contract_files self (check_prerequisites demo_tools empty_world).2 = [])
    as Hnone by (vm_compute; reflexivity).
  destruct (no_contracts_ends_session demo_tools "python3" "smartcontract/contracts"
              "reports/audit" false false empty_world Hpre Hnone) as (Hr & _ & Hc & Hm).
  split; [exact Hpre |]. split; [exact Hnone |]. split; [exact Hr |].
  split; [exact Hc | exact Hm].
Defined.


Lemma probe_exception_ends_session_witness :
  let e := Exn OSError "[Errno 13] Permission denied: 'myth'" in
  let p1 := run myth_forbidden ["slither"; "--version"] (Some 10) demo_world in
  let p2 := run myth_forbidden ["myth"; "--version"] (Some 10) p1.2 in
  let r := audit_contracts myth_forbidden demo_auditor None true true demo_world in
  escapes (Raised e) = true
  ∧ escapes p1.1 = false
  ∧ p2.1 = Raised e
  ∧ r.1 = Raise e
  ∧ calls r.2 = take 2 probes
  ∧ exit_code (main myth_forbidden "python3" demo_args demo_world).1 = 1%Z.
Proof.
  intros e p1 p2 r.
  assert (escapes (Raised e) = true) as He by reflexivity.
  assert (escapes p1.1 = false) as H1 by reflexivity.
  assert (p2.1 = Raised e) as H2 by reflexivity.
  assert (∀ p : string, None = Some p → p ≠ "" ∧ exists_ p demo_world = true) as H0
    by (intros p H; discriminate H).
  destruct (probe_exception_ends_session myth_forbidden "python3" "smartcontract/contracts"
              "reports/audit" None false false demo_world e 2 He
              (or_intror (or_introl (conj eq_refl (conj H1 H2)))) H0)
    as (_ & Hr & Hc & _ & Hm).
  split; [exact He |]. split; [exact H1 |]. split; [exact H2 |]. split; [exact Hr |].
  split; [exact Hc | exact Hm].
Defined.

End ExitStatusExamples.

(** ** What the analyses return *)
Section InvokerResults.
Import Py Os Audit Spec More.

Variable subprocess_run : list string → option nat → world → outcome * world.
Variable self : auditor.

Lemma count_impact_raises (acc : impacts) (r : json) (e : exn) :
  count_impact acc r = Raise e → countable r = false ∧ kind e = AttributeError.
Proof.
  unfold count_impact, countable, impact_text. destruct r as [| | | |l|kv]; simpl;
    try (intros [= <-]; done).
  destruct (lookup_key "impact" kv) as [[| | |s| |]|]; simpl; try (intros [= <-]; done);
    by repeat case_match.
Qed.

Lemma countable_texts (rs : list json) :
  Forall (λ r, countable r = true) rs →
  ∃ texts, Forall2 (λ r t, impact_text r = Some t) rs texts.
Proof.
  induction 1 as [|r rs Hr _ [texts IH]]; [by exists [] |].
  unfold countable in Hr. destruct (impact_text r) as [t|] eqn:Ht; [|done].
  exists (t :: texts). by constructor.
Qed.

Lemma fold_count_raises (rs : list json) (acc : impacts) (e : exn) :
  foldM count_impact acc rs = Raise e →
  kind e = AttributeError ∧ Exists (λ r, countable r = false) rs.
Proof.
  revert acc. induction rs as [|r rs IH]; intros acc; [done |]. simpl.
  destruct (count_impact acc r) as [acc'|e'] eqn:Hc; simpl.
  - intros H. destruct (IH _ H) as [? ?]. split; [done |]. by apply Exists_cons_tl.
  - intros [= ->]. destruct (count_impact_raises _ _ _ Hc) as [? ?].
    split; [done |]. by apply Exists_cons_hd.
Qed.

(** X5.  [_analyze_impacts] returns on a list of findings exactly when each
    finding is an object whose ['impact'] is a string or absent; on any other
    list it raises an [AttributeError] (a finding that is no object has no
    [get], an impact that is no string has no [lower]). *)
Theorem analyze_impacts_returns_iff (rs : list json) :
  ((∃ imp, _analyze_impacts (JArr rs) = Ok imp) ↔ Forall (λ r, countable r = true) rs)
  ∧ (∀ e, _analyze_impacts (JArr rs) = Raise e →
       kind e = AttributeError ∧ Exists (λ r, countable r = false) rs).
Proof.
  unfold _analyze_impacts. simpl. split; [split |].
  - intros [imp H]. apply Forall_forall. intros r Hr.
    destruct (countable r) eqn:Hc; [done | exfalso].
    apply list_elem_of_split in Hr as (pre & post & ->).
    revert H. generalize (Impacts 0 0 0 0). induction pre as [|x pre IH]; intros acc; simpl.
    + destruct (count_impact acc r) as [acc'|e] eqn:Hr; [|done].
      destruct (count_impact_ok _ _ _ Hr) as (t & Ht & _).
      unfold countable in Hc. by rewrite Ht in Hc.
    + destruct (count_impact acc x); [apply IH | done].
  - intros H. destruct (countable_texts _ H) as [texts Ht].
    rewrite (fold_count_texts _ _ _ Ht). eauto.
  - intros e. apply fold_count_raises.
Qed.

(** X6.  When Slither exits with status 0 and has left a report of findings,
    each with a severity text (or none), the result of the analysis carries
    the number of findings of the report and, as its impacts, the number of
    findings of each bucket. *)
Theorem slither_result_counts_report (contract_path : option string) (w w' : world)
    (stdout stderr : string) (rs : list json) (texts : list string) :
  subprocess_run (slither_cmd self contract_path) (Some 300) w
    = (Completed 0 stdout stderr, w') →
  files w' !! slither_output_file self = Some (slither_report rs) →
  Forall2 (λ r t, impact_text r = Some t) rs texts →
  (run_slither_analysis subprocess_run self contract_path w).1
  = SlitherResults true (Some stdout) (Some stderr) (Some (slither_output_file self))
      (Some (timestamp self)) (Some (length rs))
      (Some (Impacts (tally High texts) (tally Medium texts) (tally Low texts)
               (tally Informational texts)))
      None.
Proof.
  intros H Hd Ht. unfold run_slither_analysis. rewrite run_eq, H. cbn [fst snd files].
  cbn [Z.eqb]. unfold exists_. cbn [files]. rewrite Hd.
  unfold slither_report, parse_slither, _analyze_impacts. simpl.
  by rewrite (fold_count_texts _ _ _ Ht).
Qed.

(** X7.  When Slither exits with a status other than 0, its output file is
    not read: whatever the file holds, the result is a failure without
    findings, impacts or error text, and the report shows the analysis as
    failed, with a total of 0 findings. *)
Theorem slither_nonzero_exit_is_failure (contract_path : option string) (w w' : world)
    (returncode : Z) (stdout stderr : string) :
  subprocess_run (slither_cmd self contract_path) (Some 300) w
    = (Completed returncode stdout stderr, w') →
  returncode ≠ 0%Z →
  let r := (run_slither_analysis subprocess_run self contract_path w).1 in
  r = SlitherResults false (Some stdout) (Some stderr)
        (if exists_ (slither_output_file self) w' then Some (slither_output_file self)
         else None)
        (Some (timestamp self)) None None None
  ∧ (∀ v, render_slither r v
          = ([para "## Slither Static Analysis Results"; para "❌ Slither analysis failed"],
             Ok tt))
  ∧ (∀ v, line "- **Total Slither Findings:** 0" ∈ (render_summary self r [] v).1).
Proof.
  intros H Hrc r.
  assert (r = SlitherResults false (Some stdout) (Some stderr)
                (if exists_ (slither_output_file self) w'
                 then Some (slither_output_file self) else None)
                (Some (timestamp self)) None None None) as ->.
  { subst r. unfold run_slither_analysis. rewrite run_eq, H. cbn [fst snd files].
    apply Z.eqb_neq in Hrc. rewrite Hrc. unfold exists_. done. }
  split; [done |]. split; intros v.
  - done.
  - unfold render_summary. rewrite !wbind_write. cbn [fst s_findings default].
    apply elem_of_cons. right. apply elem_of_cons. by left.
Qed.

Lemma log_issue_loggable (issue : json) :
  loggable issue = true ↔ log_issue issue = Ok tt.
Proof.
  unfold loggable, log_issue. destruct issue as [| | | |l|kv]; simpl; try done.
  destruct (lookup_key "title" kv); simpl;
    destruct (lookup_key "description" kv) as [[| | | | |]|]; simpl; done.
Qed.

Lemma mapM_log_issue (issues : list json) :
  (∃ l, mapM log_issue issues = Ok l) ↔ Forall (λ i, loggable i = true) issues.
Proof.
  induction issues as [|i issues IH]; simpl.
  - split; [by constructor | eauto].
  - split.
    + intros [l H]. destruct (log_issue i) as [[]|e] eqn:Hi; [|done]. simpl in H.
      destruct (mapM log_issue issues) as [l'|e] eqn:Hl; [|done].
      constructor; [by apply log_issue_loggable | apply IH; eauto].
    + intros H. apply Forall_cons in H as [Hi H]. apply log_issue_loggable in Hi.
      apply IH in H as [l Hl]. rewrite Hi, Hl. simpl. eauto.
Qed.

(** X8.  When Mythril exits with status 0 and has left a report, the result
    counts and keeps all the issues of the report, provided the first five
    can be logged; the issues after the fifth are not looked at.  If one of
    the first five cannot be logged, the analysis is a failure and the result
    has no issues at all. *)
Theorem mythril_reads_first_five (contract_path : string) (w w' : world)
    (stdout stderr : string) (issues : list json) :
  subprocess_run (mythril_cmd self contract_path) (Some 300) w
    = (Completed 0 stdout stderr, w') →
  files w' !! mythril_output_file self contract_path = Some (mythril_report issues) →
  let r := (run_mythril_analysis subprocess_run self contract_path w).1 in
  (Forall (λ i, loggable i = true) (take 5 issues) →
     r = MythrilResults true (Some stdout) (Some stderr)
           (Some (mythril_output_file self contract_path)) (Some (timestamp self))
           (name contract_path) (Some (length issues)) (Some (JArr issues)) None)
  ∧ (¬ Forall (λ i, loggable i = true) (take 5 issues) →
     m_success r = false ∧ m_findings r = None ∧ m_issues r = None
     ∧ m_contract r = name contract_path).
Proof.
  intros H Hd r. subst r. unfold run_mythril_analysis. rewrite run_eq, H.
  cbn [fst snd files]. cbn [Z.eqb]. unfold exists_. cbn [files]. rewrite Hd.
  unfold mythril_report, parse_mythril. simpl.
  pose proof (mapM_log_issue (take 5 issues)) as Hlog.
  destruct (mapM log_issue (take 5 issues)) as [l|e]; simpl.
  - split; [done |]. intros Hn. destruct Hn. apply Hlog. eauto.
  - split; [|done]. intros Hall. apply Hlog in Hall as [l ?]. done.
Qed.

End InvokerResults.

Section InvokerResultsExamples.
Import Py Os Audit Spec More.

Lemma slither_result_counts_report_witness :
  let finding := detector_json (SlitherFinding "reentrancy-eth" "High" "Medium"
                                  "Reentrancy in Vault.withdraw()"
                                  ["smartcontract/contracts/Vault.sol"] "0x1f") in
  let w' := put (slither_output_file demo_auditor) (slither_report [finding]) demo_world in
  demo_tools (slither_cmd demo_auditor None) (Some 300) demo_world = (Completed 0 "" "", w')
  ∧ files w' !! slither_output_file demo_auditor = Some (slither_report [finding])
  ∧ Forall2 (λ r t, impact_text r = Some t) [finding] ["High"]
  ∧ (run_slither_analysis demo_tools demo_auditor None demo_world).1
    = SlitherResults true (Some "") (Some "")
        (Some "reports/audit/slither_report_20250101_100000.json")
        (Some "20250101_100000") (Some 1) (Some (Impacts 1 0 0 0)) None.
Proof.
  intros finding w'.
  assert (demo_tools (slither_cmd demo_auditor None) (Some 300) demo_world
          = (Completed 0 "" "", w')) as H by reflexivity.
  assert (files w' !! slither_output_file demo_auditor = Some (slither_report [finding]))
    as Hd by (vm_compute; reflexivity).
  assert (Forall2 (λ r t, impact_text r = Some t) [finding] ["High"]) as Ht
    by (repeat constructor).
  split; [exact H |]. split; [exact Hd |]. split; [exact Ht |].
  exact (slither_result_counts_report demo_tools demo_auditor None demo_world w' "" ""
           [finding] ["High"] H Hd Ht).
Defined.

Lemma slither_nonzero_exit_is_failure_witness :
  let r := (run_slither_analysis analyses_fail demo_auditor None demo_world).1 in
  analyses_fail (slither_cmd demo_auditor None) (Some 300) demo_world
    = (Completed 1 "" "Traceback (most recent call last):", demo_world)
  ∧ 1%Z ≠ 0%Z
  ∧ r = SlitherResults false (Some "") (Some "Traceback (most recent call last):") None
          (Some "20250101_100000") None None None
  ∧ ∀ v, render_slither r v
         = ([para "## Slither Static Analysis Results"; para "❌ Slither analysis failed"],
            Ok tt).
Proof.
  intros r.
  assert (analyses_fail (slither_cmd demo_auditor None) (Some 300) demo_world
          = (Completed 1 "" "Traceback (most recent call last):", demo_world)) as H
    by reflexivity.
  assert (1%Z ≠ 0%Z) as Hrc by lia.
  destruct (slither_nonzero_exit_is_failure analyses_fail demo_auditor None demo_world
              demo_world 1 "" "Traceback (most recent call last):" H Hrc) as (Hr & Hs & _).
  split; [exact H |]. split; [exact Hrc |]. split; [exact Hr | exact Hs].
Defined.

Lemma mythril_reads_first_five_witness :
  let c := "smartcontract/contracts/Vault.sol" in
  let w' := put (mythril_output_file demo_auditor c) (mythril_report [issue_json demo_issue])
              demo_world in
  demo_tools (mythril_cmd demo_auditor c) (Some 300) demo_world = (Completed 0 "" "", w')
  ∧ files w' !! mythril_output_file demo_auditor c
    = Some (mythril_report [issue_json demo_issue])
  ∧ Forall (λ i, loggable i = true) (take 5 [issue_json demo_issue])
  ∧ (run_mythril_analysis demo_tools demo_auditor c demo_world).1
    = MythrilResults true (Some "") (Some "")
        (Some "reports/audit/mythril_report_Vault_20250101_100000.json")
        (Some "20250101_100000") "Vault.sol" (Some 1) (Some (JArr [issue_json demo_issue]))
        None.
Proof.
  intros c w'.
  assert (demo_tools (mythril_cmd demo_auditor c) (Some 300) demo_world
          = (Completed 0 "" "", w')) as H by reflexivity.
  assert (files w' !! mythril_output_file demo_auditor c
          = Some (mythril_report [issue_json demo_issue])) as Hd by (vm_compute; reflexivity).
  assert (Forall (λ i, loggable i = true) (take 5 [issue_json demo_issue])) as Hl
    by (repeat constructor).
  split; [exact H |]. split; [exact Hd |]. split; [exact Hl |].
  exact (proj1 (mythril_reads_first_five demo_tools demo_auditor c demo_world w' "" ""
                  [issue_json demo_issue] H Hd) Hl).
Defined.

End InvokerResultsExamples.

(** ** Exceptions of the report *)
Section ReportExceptions.
Import Py Os Audit Spec More.

Variable subprocess_run : list string → option nat → world → outcome * world.

Lemma wbind_raises {A B} (m : writer A) (f : A → writer B) :
  (∀ a, m.2 = Ok a → raises (f a).2) → raises (wbind m f).2.
Proof.
  destruct m as [o [a|e]]; simpl; [|by eexists].
  intros H. specialize (H a eq_refl). by destruct (f a).
Qed.

Lemma wbind_raises_l {A B} (m : writer A) (f : A → writer B) :
  raises m.2 → raises (wbind m f).2.
Proof. intros [e He]. apply wbind_raises. intros a Ha. congruence. Qed.

Lemma for_each_raises {A} (body : A → writer unit) (l : list A) (x : A) :
  x ∈ l → raises (body x).2 → raises (for_each body l).2.
Proof.
  intros Hx Hr. induction l as [|y l IH]; [by apply elem_of_nil in Hx |].
  cbn [for_each]. apply elem_of_cons in Hx as [<-|Hx].
  - by apply wbind_raises_l.
  - apply wbind_raises. intros _ _. by apply IH.
Qed.

Lemma elem_of_enumerate {A} (l : list A) (i : nat) (x : A) :
  l !! i = Some x → (S i, x) ∈ enumerate l.
Proof.
  intros H. unfold enumerate. apply list_elem_of_lookup. exists i.
  rewrite lookup_zip_with, lookup_seq_lt by (by eapply lookup_lt_Some). by rewrite H.
Qed.

Lemma render_issue_raises (i : nat) (kv : list (string * json)) (v : json) :
  lookup_key "locations" kv = Some v → scalar v = true →
  raises (render_issue (i, JObj kv)).2.
Proof.
  intros Hl Hv. unfold render_issue, eval, get.
  do 6 (apply wbind_raises; intros ? _).
  apply wbind_raises. intros locations [= <-]. rewrite Hl. cbn [default id].
  assert (truthy v = true) as -> by (by destruct v as [|[]| | | |]).
  apply wbind_raises. intros _ _. unfold getitem. rewrite Hl.
  apply wbind_raises. intros locs [= <-]. apply wbind_raises_l.
  destruct v as [|[]|n| | |]; try done; by eexists.
Qed.

Lemma render_issues_raises (issues : list json) (i : nat) (kv : list (string * json))
    (v : json) :
  issues !! i = Some (JObj kv) → i < 5 →
  lookup_key "locations" kv = Some v → scalar v = true →
  raises (render_issues (JArr issues)).2.
Proof.
  intros Hi Hlt Hl Hv. unfold render_issues.
  assert (truthy (JArr issues) = true) as -> by (by destruct issues).
  unfold eval, slice_to. apply wbind_raises. intros first [= <-].
  unfold iter. apply wbind_raises. intros shown [= <-].
  apply for_each_raises with (S i, JObj kv).
  - apply elem_of_enumerate. by rewrite lookup_take_lt.
  - by eapply render_issue_raises.
Qed.

Lemma render_body_raises (self : auditor) (slither : slither_results)
    (mythril : list mythril_results) (gas : list gas_results) (w : world) :
  raises (render_mythril mythril).2 → raises (render_body self slither mythril gas w).2.
Proof.
  intros H. unfold render_body.
  apply wbind_raises. intros _ _. apply wbind_raises. intros _ _. by apply wbind_raises_l.
Qed.

(** X9.  The fields of an issue that only the report reads are not checked
    by the analysis.  An issue among the first five of a successful Mythril
    result whose ['locations'] is a number other than 0 or [true] is logged
    and kept; when the report comes to it, iterating over the locations
    raises.  Nothing catches that: every command of the session has been run
    and the report file has been opened, but [audit_contracts] and [main]
    raise, and the process exits with status 1. *)
Theorem unchecked_issue_aborts_session (executable contracts reports : string)
    (contract : option string) (no_gas : bool) (w : world)
    (r : mythril_results) (issues : list json) (i : nat) (kv : list (string * json))
    (v : json) :
  let a := Args contracts reports contract false no_gas false in
  let self := Auditor contracts reports (now_stamp (clock w)) in
  let w1 := (check_prerequisites subprocess_run w).2 in
  let cs := contracts_of self contract w1 in
  let s := run_slither_analysis subprocess_run self contract w1 in
  let m := run_each (run_mythril_analysis subprocess_run self) cs s.2 in
  let session := audit_contracts subprocess_run self contract true (negb no_gas) w in
  (check_prerequisites subprocess_run w).1 = Ok true →
  cs ≠ [] →
  (∀ p, contract = Some p → p ≠ "" ∧ exists_ p w = true) →
  r ∈ m.1 → m_success r = true → m_issues r = Some (JArr issues) →
  issues !! i = Some (JObj kv) → i < 5 →
  lookup_key "locations" kv = Some v → scalar v = true →
  loggable (JObj kv) = true
  ∧ ∃ e,
      session.1 = Raise e
      ∧ calls session.2
        = calls w1 ++ [slither_cmd self contract] ++ (mythril_cmd self <$> cs)
          ++ (if negb no_gas then gas_cmd <$> cs else [])
      ∧ is_Some (files session.2 !! report_file self)
      ∧ (main subprocess_run executable a w).1 = Raise e
      ∧ exit_code (main subprocess_run executable a w).1 = 1%Z.
Proof.
  intros a self w1 cs s m session Hpre Hcs Hc Hr Hs Hi Hlook Hlt Hl Hv.
  split.
  { unfold loggable. destruct (lookup_key "description" kv) as [d|] eqn:Hd; [|done].
    (* the description of a logged issue was sliced *)
    clear -Hr Hs Hi Hlook Hlt Hd. subst m. revert Hr. generalize s.2 as v0.
    induction cs as [|c cs' IH]; intros v0; cbn [run_each].
    { intros Hr. by apply elem_of_nil in Hr. }
    destruct (run_mythril_analysis subprocess_run self c v0) as [r0 v1] eqn:Ha.
    specialize (IH v1). destruct (run_each _ cs' v1) as [rs v2]. cbn [fst] in *.
    intros Hr. apply elem_of_cons in Hr as [->|Hr]; [|by apply IH].
    unfold run_mythril_analysis in Ha. rewrite run_eq in Ha. cbn [fst snd files] in Ha.
    destruct (subprocess_run _ _ v0).1 as [rc out err|e]; [|by injection Ha as <- _].
    destruct (rc =? 0)%Z; [|injection Ha as <- _; done].
    destruct (files _ !! _) as [d0|]; [|injection Ha as <- _; done].
    destruct (parse_mythril d0) as [[n iss]|e] eqn:Hp; [|injection Ha as <- _; done].
    injection Ha as <- _. cbn [m_issues] in Hi. injection Hi as ->.
    unfold parse_mythril in Hp. destruct (json_load d0) as [data|]; [|done]. simpl in Hp.
    destruct (get data "issues" (JArr [])) as [iss|]; [|done]. simpl in Hp.
    destruct (len iss) as [k|]; [|done]. simpl in Hp.
    destruct (slice_to 5 iss) as [first|] eqn:Hf; [|done]. simpl in Hp.
    destruct (iter first) as [shown|] eqn:Hsh; [|done]. simpl in Hp.
    destruct (mapM log_issue shown) as [l|] eqn:Hm; [|done]. simpl in Hp.
    injection Hp as _ ->. simpl in Hf. injection Hf as <-. simpl in Hsh.
    injection Hsh as <-.
    assert (Forall (λ i, loggable i = true) (take 5 issues)) as Hall
      by (apply mapM_log_issue; eauto).
    assert (JObj kv ∈ take 5 issues) as Hin.
    { apply list_elem_of_lookup. exists i. by rewrite lookup_take_lt. }
    rewrite Forall_forall in Hall. specialize (Hall _ Hin).
    unfold loggable in Hall. by rewrite Hd in Hall. }
  assert (raises (render_mythril m.1).2) as Hm.
  { unfold render_mythril. apply wbind_raises. intros _ _.
    apply for_each_raises with r; [done |]. unfold render_mythril_result.
    apply wbind_raises. intros _ _. rewrite Hs. apply wbind_raises. intros _ _.
    rewrite Hi. cbn [default]. by eapply render_issues_raises. }
  pose proof (audit_contracts_run subprocess_run self contract true (negb no_gas) w Hpre Hcs)
    as Hrun. cbn zeta in Hrun. fold w1 cs s m in Hrun.
  set (g := if negb no_gas then _ else _) in Hrun.
  destruct (render_body_raises self s.1 m.1 g.1
              (write_file (report_file self) "" g.2) Hm) as [e He].
  rewrite generate_report_eq in Hrun. cbn zeta in Hrun. cbn [fst snd] in Hrun.
  rewrite He in Hrun. cbn [bind] in Hrun.
  exists e. fold session in Hrun.
  split; [by rewrite Hrun |]. split.
  { subst session. by apply audit_contracts_calls. }
  split.
  { rewrite Hrun. cbn [snd write_file files]. by rewrite lookup_insert_eq. }
  assert ((main subprocess_run executable a w).1 = Raise e) as Hmain.
  { unfold main. subst a.
    cbn [arg_install_deps arg_contract arg_contracts_dir arg_reports_dir arg_no_mythril
         arg_no_gas negb].
    fold self. fold session. rewrite Hrun.
    destruct contract as [p|]; [|done]. destruct (Hc p eq_refl) as [_ ->]. done. }
  split; [exact Hmain |]. by rewrite Hmain.
Qed.

End ReportExceptions.

Section ReportExceptionsExamples.
Import Py Os Audit Spec More.

Lemma unchecked_issue_aborts_session_witness :
  let w1 := (check_prerequisites odd_tools demo_world).2 in
  let cs := contracts_of demo_auditor None w1 in
  let s := run_slither_analysis odd_tools demo_auditor None w1 in
  let m := run_each (run_mythril_analysis odd_tools demo_auditor) cs s.2 in
  let r := MythrilResults true (Some "") (Some "")
             (Some "reports/audit/mythril_report_TokenA_20250101_100000.json")
             (Some "20250101_100000") "TokenA.sol" (Some 1) (Some (JArr [odd_issue])) None in
  (check_prerequisites odd_tools demo_world).1 = Ok true
  ∧ cs ≠ []
  ∧ r ∈ m.1
  ∧ scalar (JNum 42) = true
  ∧ ∃ e,
      (audit_contracts odd_tools demo_auditor None true true demo_world).1 = Raise e
      ∧ exit_code (main odd_tools "python3" demo_args demo_world).1 = 1%Z.
Proof.
  intros w1 cs s m r.
  assert ((check_prerequisites odd_tools demo_world).1 = Ok true) as Hpre
    by (vm_compute; reflexivity).
  assert (cs ≠ []) as Hne by (vm_compute; discriminate).
  assert (m.1 !! 0 = Some r) as Hm by (vm_compute; reflexivity).
  apply list_elem_of_lookup_2 in Hm.
  assert (∀ p : string, None = Some p → p ≠ "" ∧ exists_ p demo_world = true) as H0
    by (intros p H; discriminate H).
  assert (scalar (JNum 42) = true) as Hv by reflexivity.
  assert (0 < 5) as Hlt by lia.
  destruct (unchecked_issue_aborts_session odd_tools "python3" "smartcontract/contracts"
              "reports/audit" None false demo_world r [odd_issue] 0
              [("title", JStr "Integer Arithmetic Bugs"); ("severity", JStr "High");
               ("description", JStr "The arithmetic operator can overflow.");
               ("locations", JNum 42)] (JNum 42)
              Hpre Hne H0 Hm eq_refl eq_refl eq_refl Hlt eq_refl Hv)
    as (_ & e & He & _ & _ & _ & Hx).
  split; [exact Hpre |]. split; [exact Hne |]. split; [exact Hm |]. split; [exact Hv |].
  exists e. split; [exact He | exact Hx].
Defined.

End ReportExceptionsExamples.

(** ** Discovery and the order of the directory walk *)
Section DiscoveryOrder.
Import Py Os Audit Spec More.

(** Sorting forgets the order of its input. *)
Lemma sorted_Permutation (l l' : list string) : l ≡ₚ l' → sorted l = sorted l'.
Proof.
  intros H. unfold sorted.
  assert (AntiSymm (=) path_le) as Ha by (intros p q; apply path_le_antisym).
  apply (StronglySorted_unique path_le).
  - apply StronglySorted_merge_sort; [apply path_le_trans | apply path_le_total].
  - apply StronglySorted_merge_sort; [apply path_le_trans | apply path_le_total].
  - by rewrite !merge_sort_Permutation.
Qed.

Lemma filter_Permutation_bool {A} (f : A → bool) (l l' : list A) :
  l ≡ₚ l' → List.filter f l ≡ₚ List.filter f l'.
Proof.
  induction 1 as [|x l l' _ IH|x y l|l l' l'' _ IH1 _ IH2]; simpl.
  - done.
  - destruct (f x); by rewrite IH.
  - destruct (f x), (f y); try done. apply perm_swap.
  - by rewrite IH1.
Qed.

(** X10.  The contracts found depend only on which paths exist: two file
    systems with the same paths, whatever the files hold and in whatever
    order the directory walk yields them, give the same list of contracts in
    the same order. *)
Theorem discovery_depends_on_paths_only (self : auditor) (w w' : world) :
  (∀ p, is_Some (files w !! p) ↔ is_Some (files w' !! p)) →
  find_contract_files self w = find_contract_files self w'
  ∧ ∀ walk, walk ≡ₚ glob_sol self w →
      sorted (List.filter keep walk) = find_contract_files self w'.
Proof.
  intros H.
  assert (glob_sol self w ≡ₚ glob_sol self w') as Hg.
  { apply NoDup_Permutation; [apply NoDup_glob_sol | apply NoDup_glob_sol |].
    intros p. rewrite !elem_of_glob_sol. unfold present. rewrite H.
    by setoid_rewrite H. }
  unfold find_contract_files. split.
  - by apply sorted_Permutation, filter_Permutation_bool.
  - intros walk Hw. apply sorted_Permutation, filter_Permutation_bool. by rewrite Hw.
Qed.

End DiscoveryOrder.

Section DiscoveryOrderExamples.
Import Py Os Audit Spec More.

Lemma discovery_depends_on_paths_only_witness :
  let w' := put "smartcontract/contracts/TokenA.sol" (Text "contract TokenA { uint x; }")
              demo_world in
  (∀ p, is_Some (files demo_world !! p) ↔ is_Some (files w' !! p))
  ∧ find_contract_files demo_auditor demo_world = find_contract_files demo_auditor w'.
Proof.
  intros w'.
  assert (∀ p, is_Some (files demo_world !! p) ↔ is_Some (files w' !! p)) as H.
  { intros p. unfold w', put, demo_world. cbn [files].
    rewrite !lookup_insert_is_Some'. tauto. }
  split; [exact H |].
  exact (proj1 (discovery_depends_on_paths_only demo_auditor demo_world w' H)).
Defined.

End DiscoveryOrderExamples.

(** ** The names of the output files *)
Section OutputNames.
Import Py Os Audit Spec More.

Lemma split_on_app (sep : ascii) (a t : string) :
  split_on sep (a +:+ String sep t) = split_on sep a ++ split_on sep t.
Proof.
  induction a as [|c a IH].
  - rewrite app_empty_s. simpl. by rewrite Ascii.eqb_refl.
  - rewrite app_cons_s. simpl. destruct (Ascii.eqb c sep); [by rewrite IH |].
    rewrite IH. by destruct (split_on_cons sep a) as (u & us & ->).
Qed.

Lemma concat_cons2_s (sep x y : string) (l : list string) :
  String.concat sep (x :: y :: l) = x +:+ sep +:+ String.concat sep (y :: l).
Proof. reflexivity. Qed.

(** Joining what was split gives the string back. *)
Lemma join_split_on (sep : ascii) (s : string) :
  join (String sep "") (split_on sep s) = s.
Proof.
  unfold join. induction s as [|c s IH]; [done |]. cbn [split_on].
  destruct (split_on_cons sep s) as (u & us & Hs). rewrite Hs in *.
  destruct (Ascii.eqb c sep) eqn:Hc.
  - apply Ascii.eqb_eq in Hc as ->. by rewrite concat_cons2_s, IH.
  - destruct us as [|v vs]; [simpl in *; by rewrite IH |].
    rewrite concat_cons2_s in *. by rewrite app_cons_s, IH.
Qed.

Lemma length_app_s (a b : string) :
  String.length (a +:+ b) = String.length a + String.length b.
Proof. induction a as [|c a IH]; [done |]. rewrite app_cons_s. simpl. by rewrite IH. Qed.

Lemma app_inv_head_s (p a b : string) : p +:+ a = p +:+ b → a = b.
Proof. induction p as [|c p IH]; [done |]. rewrite !app_cons_s. intros [= H]. by apply IH. Qed.

Lemma app_inv_tail_s (a b t : string) : a +:+ t = b +:+ t → a = b.
Proof.
  revert b. induction a as [|c a IH]; intros [|d b]; rewrite ?app_cons_s, ?app_empty_s.
  - done.
  - intros H. apply (f_equal String.length) in H. simpl in H.
    rewrite length_app_s in H. lia.
  - intros H. apply (f_equal String.length) in H. simpl in H.
    rewrite length_app_s in H. lia.
  - intros [= -> H]. by rewrite (IH _ H).
Qed.

(** The stem of a Solidity file is its name without [.sol]. *)
Lemma stem_sol (path base : string) :
  name path = base +:+ ".sol" → base ≠ "" → stem path = base.
Proof.
  intros Hn Hb. unfold stem. rewrite Hn.
  change (base +:+ ".sol") with (base +:+ String "." "sol").
  rewrite split_on_app. change (split_on "." "sol") with ["sol"].
  rewrite removelast_last, last_last, join_split_on, length_app.
  destruct (split_on_cons "." base) as (u & us & ->).
  apply String.eqb_neq in Hb. rewrite Hb.
  replace (1 <? _)%nat with true by (symmetry; apply Nat.ltb_lt; simpl; lia). done.
Qed.

(** X11.  The output files of Mythril and of the gas analysis are named after
    the stem of the contract's file name and the session's timestamp, not
    after its path: for two Solidity files, the output files coincide exactly
    when the file names do, in whatever directories the files are. *)
Theorem output_files_keyed_by_name (self : auditor) (c c' base base' : string) :
  name c = base +:+ ".sol" → base ≠ "" →
  name c' = base' +:+ ".sol" → base' ≠ "" →
  mythril_output_file self c
  = joinpath (reports_dir self)
      ("mythril_report_" +:+ base +:+ "_" +:+ timestamp self +:+ ".json")
  ∧ gas_output_file self c
    = joinpath (reports_dir self)
        ("gas_analysis_" +:+ base +:+ "_" +:+ timestamp self +:+ ".txt")
  ∧ (mythril_output_file self c = mythril_output_file self c' ↔ name c = name c')
  ∧ (gas_output_file self c = gas_output_file self c' ↔ name c = name c').
Proof.
  intros Hn Hb Hn' Hb'. unfold mythril_output_file, gas_output_file.
  rewrite (stem_sol c base), (stem_sol c' base') by done.
  split; [done |]. split; [done |]. rewrite Hn, Hn'. unfold joinpath.
  split; (split; intros H;
    [do 3 apply app_inv_head_s in H | ]; apply app_inv_tail_s in H; by rewrite H).
Qed.

Variable subprocess_run : list string → option nat → world → outcome * world.

(** X12.  When two contracts of a session have the same file name, the gas
    analysis of the second writes over the report of the first: both results
    name one output file, and after the two analyses that file holds the
    report of the second run only. *)
Theorem gas_report_is_overwritten (self : auditor) (c c' : string) (w w1 w2 : world)
    (returncode returncode' : Z) (stdout stderr stdout' stderr' : string) :
  let v := (run_gas_analysis subprocess_run self c w).2 in
  let r := run_each (run_gas_analysis subprocess_run self) [c; c'] w in
  name c = name c' →
  subprocess_run (gas_cmd c) (Some 120) w = (Completed returncode stdout stderr, w1) →
  subprocess_run (gas_cmd c') (Some 120) v = (Completed returncode' stdout' stderr', w2) →
  files v !! gas_output_file self c
    = Some (Text (gas_report c (now_str (clock w1)) stdout stderr))
  ∧ g_output_file <$> r.1 = [Some (gas_output_file self c); Some (gas_output_file self c)]
  ∧ files r.2 !! gas_output_file self c
    = Some (Text (gas_report c' (now_str (clock w2)) stdout' stderr')).
Proof.
  intros v r Hn H1 H2.
  assert (gas_output_file self c' = gas_output_file self c) as Hf
    by (unfold gas_output_file, stem; by rewrite Hn).
  assert (run_gas_analysis subprocess_run self c w
          = (GasResults (returncode =? 0)%Z (Some (gas_output_file self c)) (name c) None,
             v)) as Ha.
  { subst v. unfold run_gas_analysis. by rewrite run_eq, H1. }
  assert (files v !! gas_output_file self c
          = Some (Text (gas_report c (now_str (clock w1)) stdout stderr))) as Hv.
  { subst v. unfold run_gas_analysis. rewrite run_eq, H1. cbn [fst snd write_file files clock].
    apply lookup_insert_eq. }
  split; [exact Hv |].
  subst r. cbn [run_each]. rewrite Ha. clearbody v.
  unfold run_gas_analysis. rewrite run_eq, H2, Hf. cbn [fst snd fmap list_fmap g_output_file].
  split; [done |]. cbn [write_file files clock]. apply lookup_insert_eq.
Qed.

End OutputNames.

Section OutputNamesExamples.
Import Py Os Audit Spec More.

Lemma output_files_keyed_by_name_witness :
  let c := "smartcontract/contracts/core/Token.sol" in
  let c' := "smartcontract/contracts/mocks/Token.sol" in
  name c = "Token" +:+ ".sol" ∧ name c' = "Token" +:+ ".sol" ∧ "Token" ≠ ""
  ∧ mythril_output_file demo_auditor c
    = "reports/audit/mythril_report_Token_20250101_100000.json"
  ∧ mythril_output_file demo_auditor c = mythril_output_file demo_auditor c'
  ∧ gas_output_file demo_auditor c = gas_output_file demo_auditor c'.
Proof.
  intros c c'.
  assert (name c = "Token" +:+ ".sol") as Hn by reflexivity.
  assert (name c' = "Token" +:+ ".sol") as Hn' by reflexivity.
  assert ("Token" ≠ "") as Hb by discriminate.
  destruct (output_files_keyed_by_name demo_auditor c c' "Token" "Token" Hn Hb Hn' Hb)
    as (Hm & _ & Hmi & Hgi).
  split; [exact Hn |]. split; [exact Hn' |]. split; [exact Hb |]. split; [exact Hm |].
  split; [apply Hmi | apply Hgi]; reflexivity.
Defined.

Lemma gas_report_is_overwritten_witness :
  let c := "smartcontract/contracts/core/Token.sol" in
  let c' := "smartcontract/contracts/mocks/Token.sol" in
  let v := (run_gas_analysis demo_tools demo_auditor c demo_world).2 in
  let r := run_each (run_gas_analysis demo_tools demo_auditor) [c; c'] demo_world in
  name c = name c'
  ∧ demo_tools (gas_cmd c) (Some 120) demo_world
    = (Completed 1 "INFO:Printers:" "compilation warnings", demo_world)
  ∧ demo_tools (gas_cmd c') (Some 120) v
    = (Completed 1 "INFO:Printers:" "compilation warnings", v)
  ∧ files r.2 !! gas_output_file demo_auditor c
    = Some (Text (gas_report c' (now_str (clock v)) "INFO:Printers:" "compilation warnings")).
Proof.
  intros c c' v r.
  assert (name c = name c') as Hn by reflexivity.
  assert (demo_tools (gas_cmd c) (Some 120) demo_world
          = (Completed 1 "INFO:Printers:" "compilation warnings", demo_world)) as H1
    by reflexivity.
  assert (demo_tools (gas_cmd c') (Some 120) v
          = (Completed 1 "INFO:Printers:" "compilation warnings", v)) as H2
    by reflexivity.
  split; [exact Hn |]. split; [exact H1 |]. split; [exact H2 |].
  exact (proj2 (proj2 (gas_report_is_overwritten demo_tools demo_auditor c c' demo_world
                         demo_world v 1 1 "INFO:Printers:" "compilation warnings"
                         "INFO:Printers:" "compilation warnings" Hn H1 H2))).
Defined.

End OutputNamesExamples.

(** ** What the summary reads *)
Section SummaryInputs.
Import Py Os Summary Spec More.

Lemma newest_invariant (seen : list entry) (best : entry) (rest pre post : list entry) :
  seen = pre ++ best :: post →
  Forall (λ x, (mtime x < mtime best)%nat) pre →
  Forall (λ x, (mtime x ≤ mtime best)%nat) post →
  ∃ pre' post',
    seen ++ rest = pre' ++ newest best rest :: post'
    ∧ Forall (λ x, (mtime x < mtime (newest best rest))%nat) pre'
    ∧ Forall (λ x, (mtime x ≤ mtime (newest best rest))%nat) post'.
Proof.
  revert seen best pre post. induction rest as [|e rest IH]; intros seen best pre post -> Hpre Hpost.
  - exists pre, post. by rewrite app_nil_r.
  - cbn [newest]. destruct (mtime best <? mtime e)%nat eqn:Hlt.
    + apply Nat.ltb_lt in Hlt.
      destruct (IH ((pre ++ best :: post) ++ [e]) e (pre ++ best :: post) []) as
        (pre' & post' & Heq & H1 & H2); [done | | done |].
      * apply Forall_app. split; [|constructor].
        -- eapply Forall_impl; [exact Hpre |]. simpl. lia.
        -- lia.
        -- eapply Forall_impl; [exact Hpost |]. simpl. lia.
      * exists pre', post'. rewrite <- Heq, <- !app_assoc. done.
    + apply Nat.ltb_ge in Hlt.
      destruct (IH ((pre ++ best :: post) ++ [e]) best pre (post ++ [e])) as
        (pre' & post' & Heq & H1 & H2); [by rewrite <- app_assoc | done | |].
      * apply Forall_app. split; [done |]. by constructor.
      * exists pre', post'. rewrite <- Heq, <- !app_assoc. done.
Qed.

(** X13.  The Slither report the summary is made of is the first of the
    newest: it is one of the reports found, no report is newer, and the
    reports found before it are strictly older. *)
Theorem newest_is_first_maximum (e : entry) (rest : list entry) :
  ∃ pre post,
    e :: rest = pre ++ newest e rest :: post
    ∧ Forall (λ x, (mtime x < mtime (newest e rest))%nat) pre
    ∧ Forall (λ x, (mtime x ≤ mtime (newest e rest))%nat) post.
Proof. by apply (newest_invariant [e] e rest [] []). Qed.

Lemma newest_elem_of (e : entry) (rest : list entry) : newest e rest ∈ e :: rest.
Proof.
  destruct (newest_invariant [e] e rest [] []) as (pre & post & Heq & _); [done.. |].
  change ([e] ++ rest) with (e :: rest) in Heq. rewrite Heq.
  apply elem_of_app. right. apply elem_of_cons. by left.
Qed.

Lemma glob_glob (pre suf : string) (dir : list entry) :
  glob pre suf (glob pre suf dir) = glob pre suf dir.
Proof.
  unfold glob. induction dir as [|e dir IH]; [done |]. simpl.
  destruct (matches pre suf e) eqn:He; [|done]. simpl. by rewrite He, IH.
Qed.

Lemma glob_app (pre suf : string) (d1 d2 : list entry) :
  glob pre suf (d1 ++ d2) = glob pre suf d1 ++ glob pre suf d2.
Proof. apply List.filter_app. Qed.

Lemma glob_none (pre suf : string) (dir : list entry) :
  (∀ e, e ∈ dir → matches pre suf e = false) → glob pre suf dir = [].
Proof.
  unfold glob. induction dir as [|e dir IH]; intros H; [done |]. simpl.
  rewrite (H e) by (apply elem_of_cons; by left).
  apply IH. intros x Hx. apply H, elem_of_cons. by right.
Qed.

Lemma glob_all (pre suf : string) (dir : list entry) :
  (∀ e, e ∈ dir → matches pre suf e = true) → glob pre suf dir = dir.
Proof.
  unfold glob. induction dir as [|e dir IH]; intros H; [done |]. simpl.
  rewrite (H e) by (apply elem_of_cons; by left).
  f_equal. apply IH. intros x Hx. apply H, elem_of_cons. by right.
Qed.

Lemma elem_of_glob (pre suf : string) (dir : list entry) (e : entry) :
  e ∈ glob pre suf dir ↔ e ∈ dir ∧ matches pre suf e = true.
Proof. apply elem_of_filter_bool. Qed.

(** No file name starts with both prefixes. *)
Lemma slither_not_mythril (e : entry) :
  matches "slither_report_" ".json" e = true → matches "mythril_report_" ".json" e = false.
Proof.
  unfold matches. intros [H _]%andb_true_iff. apply startswith_spec in H as [r ->].
  reflexivity.
Qed.

Lemma mythril_not_slither (e : entry) :
  matches "mythril_report_" ".json" e = true → matches "slither_report_" ".json" e = false.
Proof.
  unfold matches. intros [H _]%andb_true_iff. apply startswith_spec in H as [r ->].
  reflexivity.
Qed.

Lemma glob_read_by_summary (dir : list entry) :
  glob "slither_report_" ".json" (read_by_summary dir) = newest_slither dir
  ∧ glob "mythril_report_" ".json" (read_by_summary dir) = glob "mythril_report_" ".json" dir.
Proof.
  unfold read_by_summary. rewrite !glob_app, glob_glob.
  assert (∀ e, e ∈ newest_slither dir → matches "slither_report_" ".json" e = true) as Hs.
  { unfold newest_slither. intros e He.
    destruct (glob "slither_report_" ".json" dir) as [|x rest] eqn:Hg;
      [by apply elem_of_nil in He |].
    apply list_elem_of_singleton in He as ->.
    pose proof (newest_elem_of x rest) as Hin. rewrite <- Hg in Hin.
    by apply elem_of_glob in Hin as [_ ?]. }
  rewrite (glob_all _ _ (newest_slither dir)) by done.
  rewrite (glob_none "mythril_report_" _ (newest_slither dir))
    by (intros e He; by apply slither_not_mythril, Hs).
  rewrite (glob_none "slither_report_" _ (glob "mythril_report_" ".json" dir)).
  - by rewrite app_nil_r.
  - intros e He. apply elem_of_glob in He as [_ He]. by apply mythril_not_slither.
Qed.

(** X14.  The summary is made of the newest Slither report and of all the
    Mythril reports of the directory, and of nothing else: older Slither
    reports and files of other names do not change a line of it. *)
Theorem summary_reads_newest_slither_and_all_mythril (dir : list entry) (now : string) :
  generate_summary dir now = generate_summary (read_by_summary dir) now
  ∧ high_count dir = high_count (read_by_summary dir)
  ∧ mythril_count dir = mythril_count (read_by_summary dir)
  ∧ session_verdict dir = session_verdict (read_by_summary dir).
Proof.
  destruct (glob_read_by_summary dir) as [Hs Hm].
  assert (high_count dir = high_count (read_by_summary dir)) as Hh.
  { unfold high_count. rewrite Hs. unfold newest_slither.
    by destruct (glob "slither_report_" ".json" dir). }
  assert (mythril_count dir = mythril_count (read_by_summary dir)) as Hc.
  { unfold mythril_count. by rewrite Hm. }
  assert (session_verdict dir = session_verdict (read_by_summary dir)) as Hv.
  { unfold session_verdict. by rewrite <- Hh, <- Hc. }
  split; [|done]. unfold generate_summary, summary_lines.
  rewrite <- Hh, <- Hc, <- Hv, Hs, Hm. unfold newest_slither.
  by destruct (glob "slither_report_" ".json" dir).
Qed.

Lemma substring_all (s : string) : String.substring 0 (String.length s) s = s.
Proof. induction s as [|c s IH]; [done |]. simpl. by rewrite IH. Qed.

Lemma substring_drop (p r : string) :
  String.substring (String.length p) (String.length (p +:+ r) - String.length p) (p +:+ r) = r.
Proof.
  induction p as [|c p IH].
  - rewrite app_empty_s. simpl. rewrite Nat.sub_0_r. apply substring_all.
  - rewrite app_cons_s. simpl. exact IH.
Qed.

Lemma foldl_count_issues (total : nat) (reports : list entry) :
  foldl count_issues total reports = total + sum_list (count_issues 0 <$> reports).
Proof.
  assert (∀ n e, count_issues n e = n + count_issues 0 e) as Hc.
  { intros n e. unfold count_issues. destruct (bind _ _); lia. }
  revert total. induction reports as [|e reports IH]; intros total.
  - simpl. lia.
  - cbn [foldl]. rewrite IH, fmap_cons, (Hc total e). cbn [sum_list sum_list_with id]. lia.
Qed.

(** X15.  The count of Mythril issues of the summary adds up every Mythril
    report of the directory, whatever session or contract it is of: a report
    with a list of issues counts its length, a report that is not JSON counts
    0, the order of the files does not matter, and the count of a directory
    with more files is the sum of the counts. *)
Theorem mythril_count_adds_all_reports (dir dir' : list entry) :
  mythril_count (dir ++ dir') = mythril_count dir + mythril_count dir'
  ∧ (dir ≡ₚ dir' → mythril_count dir = mythril_count dir')
  ∧ (∀ stamp mtime issues,
       mythril_count [Entry ("mythril_report_" +:+ stamp +:+ ".json") mtime
                        (mythril_report issues)]
       = length issues)
  ∧ (∀ stamp mtime text,
       mythril_count [Entry ("mythril_report_" +:+ stamp +:+ ".json") mtime (Text text)] = 0).
Proof.
  assert (∀ stamp mtime d,
            glob "mythril_report_" ".json"
              [Entry ("mythril_report_" +:+ stamp +:+ ".json") mtime d]
            = [Entry ("mythril_report_" +:+ stamp +:+ ".json") mtime d]) as Hg.
  { intros stamp mtime d. apply glob_all. intros e ->%list_elem_of_singleton.
    unfold matches. cbn [fname]. apply andb_true_iff. split.
    - apply startswith_spec. by eexists.
    - rewrite substring_drop. apply endswith_spec. by exists stamp. }
  unfold mythril_count. rewrite !foldl_count_issues. split; [|split; [|split]].
  - rewrite glob_app, fmap_app, sum_list_with_app. lia.
  - intros Hp. f_equal. apply (sum_list_with_Permutation_proper id).
    by apply fmap_Permutation, filter_Permutation_bool.
  - intros stamp mtime issues. rewrite Hg. cbn [fmap list_fmap sum_list_with id]. reflexivity.
  - intros stamp mtime text. by rewrite Hg.
Qed.

(** The decoder on some texts that are not JSON. *)
Lemma decode_error_samples :
  decode_error "" = "Expecting value: line 1 column 1 (char 0)"
  ∧ decode_error "Traceback (most recent call last):"
    = "Expecting value: line 1 column 1 (char 0)"
  ∧ decode_error "{"
    = "Expecting property name enclosed in double quotes: line 1 column 2 (char 1)"
  ∧ decode_error "{1:2}"
    = "Expecting property name enclosed in double quotes: line 1 column 2 (char 1)"
  ∧ decode_error "[" = "Expecting value: line 1 column 2 (char 1)"
  ∧ decode_error "[1,]" = "Expecting value: line 1 column 4 (char 3)"
  ∧ decode_error "[1 2]" = "Expecting ',' delimiter: line 1 column 4 (char 3)"
  ∧ decode_error "01" = "Extra data: line 1 column 2 (char 1)".
Proof. vm_compute. repeat split; reflexivity. Qed.

(** X16.  When reading the newest Slither report raises (the file is not
    JSON, say), the summary shows the message of the exception after the
    words [Error processing Slither report] in place of the counts, and takes
    the number of high-impact findings to be 0, whatever the older Slither
    reports hold; with no Mythril issue the verdict is then that no critical
    issue was detected. *)
Theorem unreadable_slither_report_counts_nothing (dir : list entry) (e : entry)
    (rest : list entry) (x : exn) (now : string) :
  glob "slither_report_" ".json" dir = e :: rest →
  json_load (data (newest e rest)) = Raise x →
  high_count dir = 0
  ∧ ("❌ Error processing Slither report: " +:+ message x) ∈ summary_lines dir now
  ∧ (mythril_count dir = 0 →
     session_verdict dir = Some NONE
     ∧ "✅ **No critical security issues detected**" ∈ summary_lines dir now).
Proof.
  intros Hg Hd.
  assert (slither_section (newest e rest)
          = (["❌ Error processing Slither report: " +:+ message x], None)) as Hs.
  { unfold slither_section, load_detectors. by rewrite Hd. }
  assert (high_count dir = 0) as Hh by (unfold high_count; by rewrite Hg, Hs).
  split; [done |]. split.
  - unfold summary_lines. rewrite Hg, Hs. cbn [fst].
    apply elem_of_app. right. apply elem_of_app. left. by apply list_elem_of_singleton.
  - intros Hm. unfold summary_lines, session_verdict. rewrite Hh, Hm. split; [done |].
    cbn [assess Nat.eqb andb assessment_line].
    rewrite !elem_of_app. right. right. right. right. left. by apply list_elem_of_singleton.
Qed.

End SummaryInputs.

(** ** The counts of the summary *)
Section SummaryCounts.
Import Py Os Summary Spec More.

Lemma filterM_ok {A} (p : A → result bool) (q : A → bool) (l : list A) :
  (∀ x, x ∈ l → p x = Ok (q x)) → filterM p l = Ok (List.filter q l).
Proof.
  induction l as [|x l IH]; intros H; [done |]. simpl.
  rewrite (H x) by (apply elem_of_cons; by left). simpl.
  rewrite IH by (intros y Hy; apply H, elem_of_cons; by right). simpl.
  by destruct (q x).
Qed.

Lemma mentions_text (keyword : string) (d : nat * json) (t : string) :
  impact_text d.2 = Some t → mentions keyword d = Ok (has_keyword keyword d.2).
Proof.
  unfold mentions, has_keyword, impact_text. destruct d.2 as [| | | |l|kv]; try done. simpl.
  destruct (lookup_key "impact" kv) as [[| | |s| |]|]; try done; by intros [= <-].
Qed.

Lemma elem_of_indexed (l : list json) (i : nat) (x : json) :
  (i, x) ∈ indexed l ↔ l !! i = Some x.
Proof.
  unfold indexed. rewrite list_elem_of_lookup. split.
  - intros [k Hk]. rewrite lookup_zip_with in Hk.
    destruct (seq 0 (length l) !! k) as [j|] eqn:Hj; [|done]. simpl in Hk.
    destruct (l !! k) as [y|] eqn:Hy; [|done]. simpl in Hk. injection Hk as -> ->.
    apply lookup_seq in Hj as [-> _]. done.
  - intros H. exists i. rewrite lookup_zip_with, lookup_seq_lt by (by eapply lookup_lt_Some).
    by rewrite H.
Qed.

Lemma length_filter_zip {A} (f : A → bool) (l : list A) (a : nat) :
  length (List.filter (λ d : nat * A, f d.2) (zip (seq a (length l)) l))
  = length (List.filter f l).
Proof.
  revert a. induction l as [|x l IH]; intros a; [done |]. simpl.
  destruct (f x); simpl; by rewrite IH.
Qed.

Lemma length_filter_texts (keyword : string) (rs : list json) (texts : list string) :
  Forall2 (λ r t, impact_text r = Some t) rs texts →
  length (List.filter (has_keyword keyword) rs) = mentioning keyword texts.
Proof.
  unfold mentioning. induction 1 as [|r t rs texts Hr _ IH]; [done |]. simpl.
  unfold has_keyword at 1. rewrite Hr. destruct (contains keyword (str_lower t)); simpl;
    by rewrite IH.
Qed.

Lemma lookup_key_elem_of (k : string) (kv : list (string * json)) (v : json) :
  lookup_key k kv = Some v → (k, v) ∈ kv.
Proof.
  induction kv as [|[k' v'] kv IH]; [done |]. simpl.
  destruct (String.eqb k k') eqn:Hk.
  - apply String.eqb_eq in Hk as ->. intros [= ->]. apply elem_of_cons. by left.
  - intros H. apply elem_of_cons. right. by apply IH.
Qed.

Lemma lookup_key_is_Some (k : string) (kv : list (string * json)) (v : json) :
  (k, v) ∈ kv → is_Some (lookup_key k kv).
Proof.
  induction kv as [|[k' v'] kv IH]; [by intros ?%elem_of_nil |]. simpl.
  destruct (String.eqb k k') eqn:Hk; [by eauto |].
  intros [[= -> ->]|H]%elem_of_cons; [|by apply IH].
  by rewrite String.eqb_refl in Hk.
Qed.

(** Equal objects have equal entries. *)
Lemma py_eq_obj (kv1 kv2 : list (string * json)) :
  py_eq (JObj kv1) (JObj kv2) = true →
  (∀ k v, (k, v) ∈ kv1 → ∃ v', lookup_key k kv2 = Some v' ∧ py_eq v v' = true)
  ∧ (∀ k v, (k, v) ∈ kv2 → is_Some (lookup_key k kv1)).
Proof.
  cbn [py_eq]. intros [H1 H2]%andb_true_iff. split.
  - clear H2. induction kv1 as [|[k0 v0] kv1 IH]; intros k v Hin;
      [by apply elem_of_nil in Hin |].
    apply andb_true_iff in H1 as [Hhd Htl].
    apply elem_of_cons in Hin as [[= -> ->]|Hin]; [|by apply IH].
    destruct (lookup_key k0 kv2) as [v'|]; [by exists v' | done].
  - intros k v Hin. rewrite forallb_forall in H2.
    apply list_elem_of_In in Hin. specialize (H2 _ Hin). simpl in H2.
    by destruct (lookup_key k kv1).
Qed.

Lemma py_eq_impact_text (a b : json) (t t' : string) :
  py_eq a b = true → impact_text a = Some t → impact_text b = Some t' → t = t'.
Proof.
  unfold impact_text. destruct a as [| | | |l|kv1]; try done.
  destruct b as [| | | |l|kv2]; try done. intros [H1 H2]%py_eq_obj.
  destruct (lookup_key "impact" kv1) as [v1|] eqn:Hv1.
  - destruct v1 as [| | |s| |]; try done. intros [= <-].
    destruct (H1 _ _ (lookup_key_elem_of _ _ _ Hv1)) as (v' & -> & Heq).
    destruct v' as [| | |s'| |]; try done. apply String.eqb_eq in Heq as ->.
    by intros [= <-].
  - intros [= <-]. destruct (lookup_key "impact" kv2) as [v2|] eqn:Hv2; [|by intros [= <-]].
    destruct (H2 _ _ (lookup_key_elem_of _ _ _ Hv2)) as [? ?]. congruence.
Qed.

(** Among the detectors of a report, a detector is [in] the list of those
    that mention a keyword exactly when it mentions the keyword itself. *)
Lemma is_in_keyword (keyword : string) (rs : list json) (d : nat * json) :
  Forall (λ r, countable r = true) rs →
  d ∈ indexed rs →
  is_in d (List.filter (λ e, has_keyword keyword e.2) (indexed rs)) = has_keyword keyword d.2.
Proof.
  intros Hrs Hd. unfold is_in.
  destruct (has_keyword keyword d.2) eqn:Hk.
  - apply existsb_exists. exists d. split.
    + apply list_elem_of_In, elem_of_filter_bool. done.
    + by rewrite Nat.eqb_refl.
  - apply not_true_iff_false. intros (e & He & Heq)%existsb_exists.
    apply list_elem_of_In, elem_of_filter_bool in He as [He Hke].
    destruct d as [i x], e as [j y]. cbn [fst snd] in *.
    apply elem_of_indexed in Hd, He.
    apply orb_true_iff in Heq as [Heq|Heq].
    + apply Nat.eqb_eq in Heq as ->. congruence.
    + rewrite Forall_forall in Hrs.
      pose proof (Hrs x (list_elem_of_lookup_2 _ _ _ Hd)) as Hx.
      pose proof (Hrs y (list_elem_of_lookup_2 _ _ _ He)) as Hy.
      unfold countable in Hx, Hy. unfold has_keyword in Hk, Hke.
      destruct (impact_text x) as [t|] eqn:Htx; [|done].
      destruct (impact_text y) as [t'|] eqn:Hty; [|done].
      rewrite (py_eq_impact_text _ _ _ _ Heq Htx Hty) in Hk. congruence.
Qed.

Lemma tally_informational (rs : list json) (texts : list string) :
  Forall2 (λ r t, impact_text r = Some t) rs texts →
  length (List.filter (λ r, negb (has_keyword "high" r) && negb (has_keyword "medium" r)
                            && negb (has_keyword "low" r)) rs)
  = tally Informational texts.
Proof.
  induction 1 as [|r t rs texts Hr _ IH]; [done |]. cbn [List.filter].
  rewrite tally_cons. unfold has_keyword at 1 2 3. rewrite Hr. unfold bucket_of.
  destruct (contains "high" (str_lower t)), (contains "medium" (str_lower t)),
    (contains "low" (str_lower t)); cbn [negb andb length]; case_bool_decide; try done;
    rewrite IH; lia.
Qed.

Lemma mentioning_cons (keyword t : string) (texts : list string) :
  mentioning keyword (t :: texts)
  = (if contains keyword (str_lower t) then 1 else 0) + mentioning keyword texts.
Proof. unfold mentioning. cbn [List.filter]. by destruct (contains keyword (str_lower t)). Qed.

Lemma tally_le_mentioning (texts : list string) :
  mentioning "high" texts = tally High texts
  ∧ (tally Medium texts ≤ mentioning "medium" texts)%nat
  ∧ (tally Low texts ≤ mentioning "low" texts)%nat.
Proof.
  induction texts as [|t texts (IH1 & IH2 & IH3)]; [done |].
  rewrite !mentioning_cons, !tally_cons. unfold bucket_of.
  destruct (contains "high" (str_lower t)), (contains "medium" (str_lower t)),
    (contains "low" (str_lower t)); repeat case_bool_decide; try done; lia.
Qed.

(** X17.  On a Slither report of findings, each with a severity text (or
    none), the summary counts a finding once under each of the keywords high,
    medium and low that its text mentions, and as informational when it
    mentions none.  So the high and the informational counts are those of
    [_analyze_impacts], the medium and low counts are at least those, and the
    four counts add up to at least the number of findings. *)
Theorem summary_counts_by_keyword (latest : entry) (rs : list json) (texts : list string) :
  data latest = slither_report rs →
  Forall2 (λ r t, impact_text r = Some t) rs texts →
  take 5 (slither_section latest).1
  = ["#### 🔍 Slither Analysis";
     "- **High Impact:** " +:+ pretty (mentioning "high" texts);
     "- **Medium Impact:** " +:+ pretty (mentioning "medium" texts);
     "- **Low Impact:** " +:+ pretty (mentioning "low" texts);
     "- **Informational:** " +:+ pretty (tally Informational texts)]
  ∧ (∃ high_impact, (slither_section latest).2 = Some high_impact
       ∧ length high_impact = mentioning "high" texts)
  ∧ (∃ imp, Audit._analyze_impacts (JArr rs) = Ok imp
       ∧ mentioning "high" texts = Audit.high imp
       ∧ (Audit.medium imp ≤ mentioning "medium" texts)%nat
       ∧ (Audit.low imp ≤ mentioning "low" texts)%nat
       ∧ tally Informational texts = Audit.informational imp)
  ∧ (length rs ≤ mentioning "high" texts + mentioning "medium" texts
                + mentioning "low" texts + tally Informational texts)%nat.
Proof.
  intros Hd Ht.
  assert (Forall (λ r, countable r = true) rs) as Hc.
  { apply Forall_forall. intros r Hr.
    apply list_elem_of_lookup in Hr as [i Hi].
    destruct (Forall2_lookup_l _ _ _ _ _ Ht Hi) as (t & _ & Hrt).
    unfold countable. by rewrite Hrt. }
  assert (∀ keyword,
            filterM (mentions keyword) (indexed rs)
            = Ok (List.filter (λ e, has_keyword keyword e.2) (indexed rs))) as Hf.
  { intros keyword. apply filterM_ok. intros [i x] Hx. apply elem_of_indexed in Hx.
    destruct (Forall2_lookup_l _ _ _ _ _ Ht Hx) as (t & _ & Hrt).
    by apply mentions_text with t. }
  assert (∀ keyword,
            length (List.filter (λ e : nat * json, has_keyword keyword e.2) (indexed rs))
            = mentioning keyword texts) as Hl.
  { intros keyword. unfold indexed.
    rewrite (length_filter_zip (has_keyword keyword)). by apply length_filter_texts. }
  assert (length
            (List.filter
               (λ d, negb (is_in d (List.filter (λ e, has_keyword "high" e.2) (indexed rs)))
                     && negb (is_in d (List.filter (λ e, has_keyword "medium" e.2)
                                         (indexed rs)))
                     && negb (is_in d (List.filter (λ e, has_keyword "low" e.2) (indexed rs))))
               (indexed rs))
          = tally Informational texts) as Hi.
  { rewrite <- (tally_informational rs texts Ht).
    rewrite <- (length_filter_zip
                  (λ r, negb (has_keyword "high" r) && negb (has_keyword "medium" r)
                        && negb (has_keyword "low" r)) rs 0).
    fold (indexed rs). f_equal. apply List.filter_ext_in. intros d Hin.
    apply list_elem_of_In in Hin. by rewrite !is_in_keyword. }
  destruct (tally_le_mentioning texts) as (Hh & Hm & Hlo).
  assert (load_detectors (slither_report rs) = Ok (indexed rs)) as Hload by done.
  split; [|split; [|split]].
  - unfold slither_section. rewrite Hd, Hload. cbn [bind]. rewrite Hf. cbn [bind fst].
    unfold eval. rewrite Hf, wbind_pure, Hf, wbind_pure. cbn [fst snd app].
    unfold render_counts. rewrite !wbind_write, !Hl, Hi. done.
  - unfold slither_section. rewrite Hd, Hload. cbn [bind]. rewrite Hf. cbn [bind snd].
    eexists. split; [done |]. apply Hl.
  - unfold Audit._analyze_impacts. cbn [iter bind]. rewrite (fold_count_texts _ _ _ Ht).
    eexists. split; [done |]. cbn [Audit.high Audit.medium Audit.low Audit.informational].
    lia.
  - pose proof (tally_total texts) as Htot. apply Forall2_length in Ht. lia.
Qed.

End SummaryCounts.

Section SummaryCountsExamples.
Import Py Os Summary Spec More.

Lemma summary_counts_by_keyword_witness :
  let rs := [two_keywords; finding "Low" []; finding "Optimization" []] in
  let texts := ["High, Low"; "Low"; "Optimization"] in
  let latest := Entry "slither_report_20250101_100000.json" 0 (slither_report rs) in
  data latest = slither_report rs
  ∧ Forall2 (λ r t, impact_text r = Some t) rs texts
  ∧ take 5 (slither_section latest).1
    = ["#### 🔍 Slither Analysis";
       "- **High Impact:** 1";
       "- **Medium Impact:** 0";
       "- **Low Impact:** 2";
       "- **Informational:** 1"]
  ∧ (length rs < 1 + 0 + 2 + 1)%nat.
Proof.
  intros rs texts latest.
  assert (data latest = slither_report rs) as Hd by reflexivity.
  assert (Forall2 (λ r t, impact_text r = Some t) rs texts) as Ht by (repeat constructor).
  split; [exact Hd |]. split; [exact Ht |].
  split; [exact (proj1 (summary_counts_by_keyword latest rs texts Hd Ht)) | simpl; lia].
Defined.

Lemma unreadable_slither_report_counts_nothing_witness :
  let e := Entry "slither_report_20250101_100000.json" 10
             (slither_report [finding "High" []]) in
  let rest := [Entry "slither_report_20250102_100000.json" 20 (Text "{")] in
  let x := Exn JSONDecodeError
             "Expecting property name enclosed in double quotes: line 1 column 2 (char 1)" in
  glob "slither_report_" ".json" stale_dir = e :: rest
  ∧ json_load (data (newest e rest)) = Raise x
  ∧ high_count stale_dir = 0
  ∧ ("❌ Error processing Slither report: "
     +:+ "Expecting property name enclosed in double quotes: line 1 column 2 (char 1)")
      ∈ summary_lines stale_dir ""
  ∧ session_verdict stale_dir = Some NONE.
Proof.
  intros e rest x.
  assert (glob "slither_report_" ".json" stale_dir = e :: rest) as Hg
    by (vm_compute; reflexivity).
  assert (json_load (data (newest e rest)) = Raise x) as Hd by (vm_compute; reflexivity).
  destruct (unreadable_slither_report_counts_nothing stale_dir e rest x "" Hg Hd)
    as (Hh & Hl & Hv).
  split; [exact Hg |]. split; [exact Hd |]. split; [exact Hh |]. split; [exact Hl |].
  apply Hv. vm_compute. reflexivity.
Defined.

End SummaryCountsExamples.

(** ** What the report says of a session *)
Section ReportSummary.
Import Py Os Audit Spec More.

Variable subprocess_run : list string → option nat → world → outcome * world.
Variable self : auditor.

Lemma occurs_elem_of (x : string) (out : list string) :
  x ∈ out → occurs x (String.concat "" out).
Proof.
  intros (pre & post & ->)%list_elem_of_split.
  exact (occurs_concat pre [x] post).
Qed.

Lemma render_body_summary (slither : slither_results) (mythril : list mythril_results)
    (gas : list gas_results) (w : world) (out : list string) :
  render_body self slither mythril gas w = (out, Ok tt) →
  para ("- **Contracts Analyzed:** " +:+ pretty (length (find_contract_files self w))) ∈ out.
Proof.
  unfold render_body. intros H.
  apply wbind_ok in H as (o1 & [] & o2 & Hs & _ & ->).
  apply elem_of_app. left. unfold render_summary in Hs.
  rewrite !wbind_write in Hs. injection Hs as <- _.
  do 3 (apply elem_of_cons; right). apply elem_of_cons. by left.
Qed.

(** X18.  The line [Contracts Analyzed] of the report does not show the
    number of contracts the session analysed: it counts the contracts found
    below the contracts directory at the time the report is written.  For a
    session over one contract named with [--contract] the result says
    [contracts_analyzed = 1], whatever number the report shows. *)
Theorem report_counts_discovered_contracts (contract_path : option string)
    (run_mythril run_gas : bool) (w : world) (res : audit_results) :
  let w1 := (check_prerequisites subprocess_run w).2 in
  let cs := contracts_of self contract_path w1 in
  let s := run_slither_analysis subprocess_run self contract_path w1 in
  let m := if run_mythril then run_each (run_mythril_analysis subprocess_run self) cs s.2
           else ([], s.2) in
  let g := if run_gas then run_each (run_gas_analysis subprocess_run self) cs m.2
           else ([], m.2) in
  let session := audit_contracts subprocess_run self contract_path run_mythril run_gas w in
  session.1 = Ok res → a_success res = true →
  a_contracts_analyzed res = Some (length cs)
  ∧ (∀ p, contract_path = Some p → a_contracts_analyzed res = Some 1)
  ∧ ∃ text,
      files session.2 !! report_file self = Some (Text text)
      ∧ occurs (para ("- **Contracts Analyzed:** "
                      +:+ pretty (length (find_contract_files self
                                            (write_file (report_file self) "" g.2)))))
          text.
Proof.
  intros w1 cs s m g session Hres Hok.
  destruct (audit_contracts_success subprocess_run self contract_path run_mythril run_gas
              w res Hres) as [[Hs _] _].
  destruct (Hs Hok) as [Hpre Hcs]. fold w1 cs in Hcs.
  pose proof (audit_contracts_run subprocess_run self contract_path run_mythril run_gas w
                Hpre Hcs) as Hrun.
  cbn zeta in Hrun. fold w1 cs s m g session in Hrun.
  destruct (generate_comprehensive_report self s.1 m.1 g.1 g.2) as [rep w5] eqn:Hrep.
  cbn [fst snd] in Hrun. rewrite Hrun in Hres. cbn [fst] in Hres.
  destruct rep as [f|e]; [|done]. cbn [bind] in Hres. injection Hres as <-.
  cbn [a_contracts_analyzed]. split; [done |]. split.
  { intros p ->. done. }
  assert ((generate_comprehensive_report self s.1 m.1 g.1 g.2).1 = Ok f) as Hf
    by (by rewrite Hrep).
  destruct (report_text self _ _ _ _ _ Hf) as (out & Hb & Htext).
  rewrite Hrun. cbn [snd]. rewrite Hrep in Htext. cbn [snd] in Htext.
  eexists. split; [exact Htext |].
  do 3 apply occurs_app_l. apply occurs_elem_of. by eapply render_body_summary.
Qed.

Lemma render_issues_none :
  render_issues (JArr []) = ([para "No security issues found by Mythril."], Ok tt).
Proof. reflexivity. Qed.

(** X19.  A Mythril run that exits with status 0 without leaving its output
    file is a success without findings: the result has no count and no
    issues, and the report shows it as it shows a run that reported an empty
    list of issues, with the words that no security issues were found. *)
Theorem mythril_without_output_reads_as_clean (contract_path : string) (w w' : world)
    (stdout stderr : string) :
  subprocess_run (mythril_cmd self contract_path) (Some 300) w
    = (Completed 0 stdout stderr, w') →
  files w' !! mythril_output_file self contract_path = None →
  let r := (run_mythril_analysis subprocess_run self contract_path w).1 in
  r = MythrilResults true (Some stdout) (Some stderr) None (Some (timestamp self))
        (name contract_path) None None None
  ∧ render_mythril_result r
    = ([para ("### " +:+ name contract_path);
        para "✅ Analysis completed successfully";
        para "No security issues found by Mythril."], Ok tt)
  ∧ render_mythril_result r
    = render_mythril_result
        (MythrilResults true (Some stdout) (Some stderr)
           (Some (mythril_output_file self contract_path)) (Some (timestamp self))
           (name contract_path) (Some 0) (Some (JArr [])) None).
Proof.
  intros H Hd r.
  assert (r = MythrilResults true (Some stdout) (Some stderr) None (Some (timestamp self))
                (name contract_path) None None None) as ->.
  { subst r. unfold run_mythril_analysis. rewrite run_eq, H. cbn [fst snd files].
    cbn [Z.eqb]. unfold exists_. cbn [files]. rewrite Hd.
    rewrite bool_decide_eq_false_2; [done |]. by intros [? ?]. }
  split; [done |]. split; reflexivity.
Qed.

End ReportSummary.

Section ReportSummaryExamples.
Import Py Os Audit Spec More.

Lemma report_counts_discovered_contracts_witness :
  let p := "smartcontract/contracts/Vault.sol" in
  let session := audit_contracts demo_tools demo_auditor (Some p) true true demo_world in
  ∃ res text,
    session.1 = Ok res
    ∧ a_success res = true
    ∧ a_contracts_analyzed res = Some 1
    ∧ files session.2 !! report_file demo_auditor = Some (Text text)
    ∧ occurs (para "- **Contracts Analyzed:** 2") text.
Proof.
  intros p session.
  assert (∃ res, session.1 = Ok res ∧ a_success res = true) as (res & Hres & Hok)
    by (vm_compute; eauto).
  destruct (report_counts_discovered_contracts demo_tools demo_auditor (Some p) true true
              demo_world res Hres Hok) as (_ & H1 & text & Hf & Hocc).
  exists res, text. split; [exact Hres |]. split; [exact Hok |].
  split; [by apply (H1 p) |]. split; [exact Hf |].
  assert (length (find_contract_files demo_auditor
            (write_file (report_file demo_auditor) ""
               (run_each (run_gas_analysis demo_tools demo_auditor) [p]
                  (run_each (run_mythril_analysis demo_tools demo_auditor) [p]
                     (run_slither_analysis demo_tools demo_auditor (Some p)
                        (check_prerequisites demo_tools demo_world).2).2).2).2)) = 2) as Hn
    by (vm_compute; reflexivity).
  cbn zeta in Hocc. cbn [contracts_of] in Hocc. rewrite Hn in Hocc. exact Hocc.
Defined.

Lemma mythril_without_output_reads_as_clean_witness :
  let c := "smartcontract/contracts/Vault.sol" in
  let r := (run_mythril_analysis silent_tools demo_auditor c demo_world).1 in
  silent_tools (mythril_cmd demo_auditor c) (Some 300) demo_world
    = (Completed 0 "" "", demo_world)
  ∧ files demo_world !! mythril_output_file demo_auditor c = None
  ∧ m_findings r = None
  ∧ render_mythril_result r
    = ([para "### Vault.sol";
        para "✅ Analysis completed successfully";
        para "No security issues found by Mythril."], Ok tt).
Proof.
  intros c r.
  assert (silent_tools (mythril_cmd demo_auditor c) (Some 300) demo_world
          = (Completed 0 "" "", demo_world)) as H by reflexivity.
  assert (files demo_world !! mythril_output_file demo_auditor c = None) as Hd
    by (vm_compute; reflexivity).
  destruct (mythril_without_output_reads_as_clean silent_tools demo_auditor c demo_world
              demo_world "" "" H Hd) as (Hr & Hshow & _).
  split; [exact H |]. split; [exact Hd |]. split; [subst r; by rewrite Hr | exact Hshow].
Defined.

End ReportSummaryExamples.

(** ** The high priority issues of the summary *)
Section SummaryPriority.
Import Py Os Summary Spec More.

Lemma render_priority_block (i idx : nat) (f : slither_finding) :
  render_priority (i, (idx, detector_json f)) = (priority_block i f, Ok tt).
Proof. reflexivity. Qed.

Lemma for_each_priority (l : list (nat * json)) (fs : list slither_finding) (k : nat) :
  l.*2 = detector_json <$> fs →
  for_each render_priority (zip (seq k (length l)) l)
  = (concat (imap (λ i f, priority_block (k + i) f) fs), Ok tt).
Proof.
  revert fs k. induction l as [|[idx j] l IH]; intros [|f fs] k H; try done.
  rewrite !fmap_cons in H. cbn [snd] in H. injection H as -> H.
  cbn [length seq zip zip_with for_each]. rewrite render_priority_block, wbind_pure.
  rewrite (IH fs (S k) H). cbn [fst snd imap concat]. rewrite Nat.add_0_r.
  do 3 f_equal. apply imap_ext. intros i y _. simpl. f_equal. lia.
Qed.

Lemma filter_indexed_high (fs : list slither_finding) (k : nat) :
  (List.filter (λ e : nat * json, has_keyword "high" e.2)
     (zip (seq k (length (detector_json <$> fs))) (detector_json <$> fs))).*2
  = detector_json <$> List.filter (λ f, contains "high" (str_lower (f_impact f))) fs.
Proof.
  revert k. induction fs as [|f fs IH]; intros k; [done |].
  rewrite fmap_cons. cbn [length seq zip zip_with List.filter snd].
  change (has_keyword "high" (detector_json f)) with (contains "high" (str_lower (f_impact f))).
  destruct (contains "high" (str_lower (f_impact f))).
  - rewrite !fmap_cons. cbn [snd]. f_equal. apply IH.
  - apply IH.
Qed.

(** X20.  On a Slither report whose findings follow the schema, the summary
    lists the findings of high impact after the counts: the first three, in
    the order of the report, each with its check and the first 100 characters
    of its description, then the number of those left out if there are more
    than three.  With no finding of high impact nothing is listed. *)
Theorem summary_lists_three_high_findings (latest : entry) (fs : list slither_finding) :
  data latest = slither_report (detector_json <$> fs) →
  let high_impact := List.filter (λ f, contains "high" (str_lower (f_impact f))) fs in
  drop 5 (slither_section latest).1
  = match high_impact with
    | [] => [""]
    | _ =>
        [""; "**🚨 High Priority Issues:**"]
        ++ concat (imap (λ i f, priority_block (S i) f) (take 3 high_impact))
        ++ (if (3 <? length high_impact)%nat
            then ["   - *and " +:+ pretty (length high_impact - 3) +:+ " more...*"]
            else [])
        ++ [""]
    end.
Proof.
  intros Hd hi.
  set (rs := detector_json <$> fs) in *.
  assert (Forall2 (λ r t, impact_text r = Some t) rs (f_impact <$> fs)) as Ht.
  { subst rs. apply Forall2_fmap. by apply Forall_Forall2_diag, Forall_forall. }
  assert (∀ keyword,
            filterM (mentions keyword) (indexed rs)
            = Ok (List.filter (λ e, has_keyword keyword e.2) (indexed rs))) as Hf.
  { intros keyword. apply filterM_ok. intros [i x] Hx. apply elem_of_indexed in Hx.
    destruct (Forall2_lookup_l _ _ _ _ _ Ht Hx) as (t & _ & Hrt).
    by apply mentions_text with t. }
  set (hj := List.filter (λ e : nat * json, has_keyword "high" e.2) (indexed rs)) in *.
  assert (hj.*2 = detector_json <$> hi) as Hhi by apply filter_indexed_high.
  assert (length hj = length hi) as Hlen.
  { apply (f_equal length) in Hhi. by rewrite !length_fmap in Hhi. }
  assert (load_detectors (slither_report rs) = Ok (indexed rs)) as Hload by done.
  unfold slither_section. rewrite Hd, Hload. cbn [bind]. rewrite (Hf "high"). fold hj.
  cbn [bind fst]. unfold eval. rewrite Hf, wbind_pure, Hf, wbind_pure. cbn [fst snd app].
  unfold render_counts. rewrite !wbind_write. cbn [fst snd].
  destruct hj as [|h hj'] eqn:Hhj.
  - destruct hi; [|done]. reflexivity.
  - destruct hi as [|f0 hi'] eqn:Hhi'; [done |]. unfold enumerate.
    rewrite (for_each_priority (take 3 (h :: hj')) (take 3 (f0 :: hi')) 1)
      by (by rewrite !fmap_take, Hhi).
    rewrite Hlen.
    destruct (3 <? length (f0 :: hi'))%nat; cbn [wbind write skip fst snd app drop];
      rewrite ?app_nil_r; by rewrite <- ?app_assoc.
Qed.

End SummaryPriority.

Section SummaryPriorityExamples.
Import Py Os Summary Spec More.

Lemma summary_lists_three_high_findings_witness :
  let f check impact := SlitherFinding check impact "Medium" ("Found in " +:+ check) [] "" in
  let fs := [f "reentrancy-eth" "High"; f "naming" "Informational"; f "suicidal" "High";
             f "arbitrary-send" "HIGH"; f "controlled-delegatecall" "High"] in
  let latest := Entry "slither_report_20250101_100000.json" 0
                  (slither_report (detector_json <$> fs)) in
  data latest = slither_report (detector_json <$> fs)
  ∧ drop 5 (slither_section latest).1
    = [""; "**🚨 High Priority Issues:**";
       "1. **reentrancy-eth**"; "   - *Found in reentrancy-eth...*";
       "2. **suicidal**"; "   - *Found in suicidal...*";
       "3. **arbitrary-send**"; "   - *Found in arbitrary-send...*";
       "   - *and 1 more...*"; ""].
Proof.
  intros f fs latest.
  assert (data latest = slither_report (detector_json <$> fs)) as Hd by reflexivity.
  split; [exact Hd | exact (summary_lists_three_high_findings latest fs Hd)].
Defined.

End SummaryPriorityExamples.

(** ** The verdict, from the findings *)
Section VerdictOfFindings.
Import Py Os Summary Spec More.

Lemma slither_section_high (latest : entry) (rs : list json) (texts : list string) :
  data latest = slither_report rs →
  Forall2 (λ r t, impact_text r = Some t) rs texts →
  ∃ high_impact, (slither_section latest).2 = Some high_impact
    ∧ length high_impact = mentioning "high" texts.
Proof.
  intros Hd Ht.
  assert (filterM (mentions "high") (indexed rs)
          = Ok (List.filter (λ e, has_keyword "high" e.2) (indexed rs))) as Hf.
  { apply filterM_ok. intros [i x] Hx. apply elem_of_indexed in Hx.
    destruct (Forall2_lookup_l _ _ _ _ _ Ht Hx) as (t & _ & Hrt).
    by apply mentions_text with t. }
  assert (load_detectors (slither_report rs) = Ok (indexed rs)) as Hload by done.
  unfold slither_section. rewrite Hd, Hload. cbn [bind]. rewrite Hf. cbn [bind snd].
  eexists. split; [done |]. unfold indexed.
  rewrite (length_filter_zip (has_keyword "high")). by apply length_filter_texts.
Qed.

Lemma mentioning_pos (keyword : string) (texts : list string) :
  (0 < mentioning keyword texts)%nat ↔ ∃ t, t ∈ texts ∧ contains_ci keyword t.
Proof.
  induction texts as [|t texts IH].
  - split; [by intros ?%Nat.lt_irrefl | by intros (t & ?%elem_of_nil & _)].
  - rewrite mentioning_cons. destruct (contains keyword (str_lower t)) eqn:Hc.
    + split; [|lia]. intros _. exists t. split; [apply elem_of_cons; by left |].
      by apply contains_lower.
    + rewrite Nat.add_0_l, IH. split.
      * intros (x & Hx & Hk). exists x. split; [apply elem_of_cons; by right | done].
      * intros (x & [->|Hx]%elem_of_cons & Hk); [|by exists x].
        apply contains_lower in Hk. congruence.
Qed.

(** X21.  When the newest Slither report holds findings, each with a
    severity text (or none), the verdict of the summary is CRITICAL exactly
    when the text of some finding mentions high, in whatever case; the number
    of critical issues shown is the number of such findings.  This holds also
    when listing the findings fails after they were counted. *)
Theorem critical_iff_some_high_finding (dir : list entry) (e : entry) (rest : list entry)
    (rs : list json) (texts : list string) (now : string) :
  glob "slither_report_" ".json" dir = e :: rest →
  data (newest e rest) = slither_report rs →
  Forall2 (λ r t, impact_text r = Some t) rs texts →
  high_count dir = mentioning "high" texts
  ∧ (session_verdict dir = Some CRITICAL ↔ ∃ t, t ∈ texts ∧ contains_ci "high" t)
  ∧ ((∃ t, t ∈ texts ∧ contains_ci "high" t) →
     ("🚨 **" +:+ pretty (mentioning "high" texts)
      +:+ " critical issues require immediate attention**") ∈ summary_lines dir now).
Proof.
  intros Hg Hd Ht.
  destruct (slither_section_high _ _ _ Hd Ht) as (hi & Hhi & Hlen).
  assert (high_count dir = mentioning "high" texts) as Hh.
  { unfold high_count. by rewrite Hg, Hhi. }
  assert (session_verdict dir = Some CRITICAL ↔ ∃ t, t ∈ texts ∧ contains_ci "high" t) as Hv.
  { unfold session_verdict. destruct (assess_spec (high_count dir) (mythril_count dir))
      as (_ & -> & _). rewrite Hh. apply mentioning_pos. }
  split; [done |]. split; [done |]. intros Hex. apply Hv in Hex.
  unfold summary_lines. rewrite Hex, Hh. cbn [assessment_line].
  rewrite !elem_of_app. right. right. right. right. left. by apply list_elem_of_singleton.
Qed.

End VerdictOfFindings.

Section VerdictOfFindingsExamples.
Import Py Os Summary Spec More.

Lemma critical_iff_some_high_finding_witness :
  let odd := JObj [("impact", JStr "HIGH"); ("check", JStr "suicidal");
                   ("description", JNum 7)] in
  let e := Entry "slither_report_20250101_100000.json" 10 (slither_report [odd]) in
  glob "slither_report_" ".json" [e] = [e]
  ∧ data (newest e []) = slither_report [odd]
  ∧ Forall2 (λ r t, impact_text r = Some t) [odd] ["HIGH"]
  ∧ high_count [e] = 1
  ∧ session_verdict [e] = Some CRITICAL
  ∧ "❌ Error processing Slither report: 'int' object is not subscriptable"
      ∈ summary_lines [e] "".
Proof.
  intros odd e.
  assert (glob "slither_report_" ".json" [e] = [e]) as Hg by (vm_compute; reflexivity).
  assert (data (newest e []) = slither_report [odd]) as Hd by reflexivity.
  assert (Forall2 (λ r t, impact_text r = Some t) [odd] ["HIGH"]) as Ht
    by (repeat constructor).
  destruct (critical_iff_some_high_finding [e] e [] [odd] ["HIGH"] "" Hg Hd Ht)
    as (Hh & Hv & _).
  split; [exact Hg |]. split; [exact Hd |]. split; [exact Ht |]. split; [exact Hh |].
  split.
  - apply Hv. exists "HIGH". split; [apply elem_of_cons; by left |].
    by exists "", "HIGH", "".
  - vm_compute. do 10 (apply elem_of_cons; right). apply elem_of_cons. by left.
Defined.

End VerdictOfFindingsExamples.
